(** * usb-moded: mode activation engine and dynamic mode loader

    A shallow embedding of [src/usb_moded-modesetting.c] and
    [src/usb_moded-dyn-config.c].

    Conventions.
    - A nullable [char *] is an [option string]; [None] is the null pointer.
    - An [int] return code is a [Z]; a [guint] source id is an [N], with [0]
      meaning "no source", as in the code.
    - Everything outside the two files (the kernel, glib's main loop, the
      other usb-moded modules) is either part of the explicit [World]
      (attribute files, timeout sources), an oracle of the immutable [Env]
      (exit statuses, configuration values, the active mode), or only
      recorded as an [event] in the trace.
    - Model strings stand for C strings and are assumed to hold no NUL; file
      contents are raw bytes and may hold one, which [modesetting_strip]
      treats as the terminator. *)

From Stdlib Require Import ZArith String Ascii List Lia Bool.
From Stdlib Require Sorted.
From stdpp Require Import base option list gmap strings fin_maps.
Import ListNotations.

Local Open Scope string_scope.
Local Open Scope Z_scope.
Local Open Scope list_scope.

(* ===================================================================== *)
(** * Strings, the way libc and glib handle them                          *)
(* ===================================================================== *)

Definition str_eqb (a b : string) : bool := bool_decide (a = b).

(** [!strcmp(a, b)] for a pointer [a] that the loader guarantees non-null. *)
Definition streq (a : option string) (b : string) : bool :=
  match a with
  | Some s => str_eqb s b
  | None => false
  end.

(** [g_strcmp0(a, b) == 0]: null pointers compare equal to each other only. *)
Definition g_strcmp0_eq (a b : option string) : bool :=
  match a, b with
  | Some x, Some y => str_eqb x y
  | None, None => true
  | _, _ => false
  end.

Definition ascii_tolower (c : ascii) : ascii :=
  let n := nat_of_ascii c in
  if (Nat.leb 65 n && Nat.leb n 90)%bool then ascii_of_nat (n + 32) else c.

Fixpoint str_tolower (s : string) : string :=
  match s with
  | EmptyString => EmptyString
  | String c r => String (ascii_tolower c) (str_tolower r)
  end.

(** [g_ascii_strcasecmp(a, b) == 0]. *)
Definition g_ascii_strcasecmp_eq (a b : string) : bool :=
  str_eqb (str_tolower a) (str_tolower b).

(** [g_strconcat(a, b, NULL)]. *)
Definition g_strconcat (a b : string) : string := String.append a b.

(** Text of [p ?: "???"] in a format argument. *)
Definition or_qqq (p : option string) : string := default "???" p.

(** [%d] of a non-negative number, most significant digit first. *)
Fixpoint dec_digits (fuel : nat) (n : N) (acc : string) : string :=
  match fuel with
  | O => acc
  | S fuel' =>
      let d := ascii_of_N (48 + N.modulo n 10) in
      let q := N.div n 10 in
      if N.eqb q 0 then String d acc else dec_digits fuel' q (String d acc)
  end.

(** [%d] / [%i] of an [int]. *)
Definition fmt_d (z : Z) : string :=
  match z with
  | Z0 => "0"
  | Zpos p => dec_digits (S (Pos.to_nat p)) (Npos p) EmptyString
  | Zneg p => String "-" (dec_digits (S (Pos.to_nat p)) (Npos p) EmptyString)
  end.

(** Text of a null pointer under [%s]. *)
Definition or_null (p : option string) : string := default "(null)" p.

(** An [int] used as a condition. *)
Definition nonzero (z : Z) : bool := negb (z =? 0).

(** [g_strsplit(s, ",", 0)] and the like: the pieces between single-character
    delimiters, empty pieces included; the empty string yields no piece. *)
Fixpoint split_on (d : ascii) (cur : string) (s : string) : list string :=
  match s with
  | EmptyString => [cur]
  | String c r =>
      if Ascii.eqb c d then cur :: split_on d EmptyString r
      else split_on d (String.append cur (String c EmptyString)) r
  end.

Definition g_strsplit (s : string) (d : ascii) : list string :=
  match s with
  | EmptyString => []
  | _ => split_on d EmptyString s
  end.

(** [g_strsplit(text, " ", 2)[0]]: the text before the first space; no piece
    at all for the empty text. *)
Fixpoint before_space (s : string) : string :=
  match s with
  | EmptyString => EmptyString
  | String c r => if Ascii.eqb c " " then EmptyString else String c (before_space r)
  end.

Definition g_strsplit2_first (s : string) : option string :=
  match s with
  | EmptyString => None
  | _ => Some (before_space s)
  end.

(* ===================================================================== *)
(** * Mode descriptors ([struct mode_list_elem] / [modedata_t])            *)
(* ===================================================================== *)

Record modedata := {
  mode_name : option string;
  mode_module : option string;
  appsync : Z;
  network : Z;
  mass_storage : Z;
  network_interface : option string;
  sysfs_path : option string;
  sysfs_value : option string;
  sysfs_reset_value : option string;
  android_extra_sysfs_path : option string;
  android_extra_sysfs_value : option string;
  android_extra_sysfs_path2 : option string;
  android_extra_sysfs_value2 : option string;
  android_extra_sysfs_path3 : option string;
  android_extra_sysfs_value3 : option string;
  android_extra_sysfs_path4 : option string;
  android_extra_sysfs_value4 : option string;
  idProduct : option string;
  idVendorOverride : option string;
  nat_ : Z;
  dhcp_server : Z;
  connman_tethering : option string;
  (* set outside the loader, used by the android backend only *)
  softconnect_path : option string;
  softconnect : option string;
  softconnect_disconnect : option string;
}.

(* ===================================================================== *)
(** * The world the engine acts on                                         *)
(* ===================================================================== *)

Inductive loglevel := LOG_CRIT | LOG_ERR | LOG_WARNING | LOG_DEBUG.

Inductive errno := ENOENT | EACCES | EINVAL | EIO.

(** Calls into other usb-moded modules whose code is not part of the two
    files; only the call and its arguments are recorded. *)
Inductive extcall :=
| Android_set_productid (id : option string)
| Android_set_vendorid (id : option string)
| Configfs_set_udc (enable : bool)
| Configfs_set_productid (id : option string)
| Configfs_set_vendorid (id : option string)
| Configfs_set_function (f : option string)
| Network_down (ifname : option string)
| Network_up (ifname : option string)
| Network_set_up_dhcpd (mode : option string)
| Appsync_activate_sync (mode : option string)
| Appsync_activate_sync_post (mode : option string)
| Appsync_stop (force : bool)
| Connman_set_tethering (service : string) (on : bool)
| Modules_unload_module (module : string).

(** Signal names of [usb_moded-dbus.h], kept symbolic. *)
Inductive state_signal := USB_PRE_UNMOUNT | DATA_IN_USE.

Inductive error_signal :=
| UMOUNT_ERROR
| RE_MOUNT_FAILED
| MODE_SETTING_FAILED
| BlockedBy (process : option string). (* [split[0]] of an lsof line *)

Inductive event :=
| EvLog (lvl : loglevel) (fmt : string) (args : list string)
| EvStateSignal (name : state_signal)
| EvErrorSignal (name : error_signal)
| EvSystem (command : string)
| EvPopen (command : string)
| EvSleep (seconds : nat)
| EvMsleep (msec : nat)
| EvCall (c : extcall)
| EvTimeoutAdd (id : N) (seconds : nat)
| EvSourceRemove (id : N).

(** What write(2) does with the bytes it is offered.  The engine opens a
    file with O_WRONLY alone, so nothing is truncated and the position
    starts at 0; what the file holds afterwards is up to the kernel: a
    regular file is overwritten in place, the store of a sysfs attribute
    takes the buffer as the new value.  A write that fails may have acted
    on the bytes all the same.  A write of a positive count is taken to
    return -1 or a positive count, never 0. *)
Inductive write_result :=
| WriteError (e : errno) (data : string)
    (* -1 with errno [e]; the file holds [data] afterwards *)
| Written (more : nat) (data : string).
    (* [S more] of the bytes were taken, or all of them if there are fewer;
       the file holds [data] afterwards *)

(** One attribute file.  [f_data] is what read(2) delivers.  [f_write] is
    the answer to write(2): of the position, the bytes offered and what
    the file holds. *)
Record file := {
  f_data : string;
  f_open_rd : option errno;   (* [Some e]: open(O_RDONLY) fails with e *)
  f_read_fails : bool;        (* read(2) returns -1 *)
  f_open_wr : option errno;   (* [Some e]: open(O_WRONLY) fails with e *)
  f_write : nat -> string -> string -> write_result;
}.

Record World := {
  tracked_values : option (gmap string string); (* [None]: not allocated *)
  delayed_network : N;
  files : gmap string file;
  sources : list (N * modedata); (* pending timeout sources and their data *)
  next_source : N;               (* the last id glib handed out *)
  clock : nat;                   (* number of oracle consultations so far *)
  trace : list event;            (* oldest first *)
}.

Definition set_tracked (t : option (gmap string string)) (w : World) : World :=
  {| tracked_values := t; delayed_network := delayed_network w;
     files := files w; sources := sources w; next_source := next_source w;
     clock := clock w; trace := trace w |}.

Definition set_delayed (n : N) (w : World) : World :=
  {| tracked_values := tracked_values w; delayed_network := n;
     files := files w; sources := sources w; next_source := next_source w;
     clock := clock w; trace := trace w |}.

Definition set_files (f : gmap string file) (w : World) : World :=
  {| tracked_values := tracked_values w; delayed_network := delayed_network w;
     files := f; sources := sources w; next_source := next_source w;
     clock := clock w; trace := trace w |}.

Definition set_sources (s : list (N * modedata)) (nx : N) (w : World) : World :=
  {| tracked_values := tracked_values w; delayed_network := delayed_network w;
     files := files w; sources := s; next_source := nx;
     clock := clock w; trace := trace w |}.

Definition tick_world (w : World) : World :=
  {| tracked_values := tracked_values w; delayed_network := delayed_network w;
     files := files w; sources := sources w; next_source := next_source w;
     clock := S (clock w); trace := trace w |}.

Definition emit_world (e : event) (w : World) : World :=
  {| tracked_values := tracked_values w; delayed_network := delayed_network w;
     files := files w; sources := sources w; next_source := next_source w;
     clock := clock w; trace := trace w ++ [e] |}.

(** ** A state monad over the world *)

Definition M (A : Type) : Type := World -> A * World.

Definition ret {A} (a : A) : M A := fun w => (a, w).

Definition bind {A B} (m : M A) (k : A -> M B) : M B :=
  fun w => let (a, w') := m w in k a w'.

Notation "'do' x <- m ; k" := (bind m (fun x => k))
  (at level 10, x name, m at level 100, k at level 200).
Notation "m ;; k" := (bind m (fun _ => k))
  (at level 100, k at level 200, right associativity).

Definition modify (f : World -> World) : M unit := fun w => (tt, f w).
Definition gets {A} (f : World -> A) : M A := fun w => (f w, w).
Definition emit (e : event) : M unit := modify (emit_world e).
Definition tick : M nat := fun w => (clock w, tick_world w).
Definition when (b : bool) (m : M unit) : M unit := if b then m else ret tt.

Fixpoint for_each {A} (l : list A) (body : A -> M unit) : M unit :=
  match l with
  | [] => ret tt
  | x :: r => body x ;; for_each r body
  end.

Definition log_crit (fmt : string) (args : list string) : M unit := emit (EvLog LOG_CRIT fmt args).
Definition log_err (fmt : string) (args : list string) : M unit := emit (EvLog LOG_ERR fmt args).
Definition log_warning (fmt : string) (args : list string) : M unit := emit (EvLog LOG_WARNING fmt args).
Definition log_debug (fmt : string) (args : list string) : M unit := emit (EvLog LOG_DEBUG fmt args).

Definition errno_text (e : errno) : string :=
  match e with
  | ENOENT => "ENOENT" | EACCES => "EACCES" | EINVAL => "EINVAL" | EIO => "EIO"
  end.

Definition errno_eqb (a b : errno) : bool :=
  match a, b with
  | ENOENT, ENOENT | EACCES, EACCES | EINVAL, EINVAL | EIO, EIO => true
  | _, _ => false
  end.

(** open(2): a missing file fails with ENOENT. *)
Definition open_rdonly (w : World) (path : string) : errno + file :=
  match files w !! path with
  | None => inl ENOENT
  | Some f => match f_open_rd f with Some e => inl e | None => inr f end
  end.

Definition open_wronly (w : World) (path : string) : errno + file :=
  match files w !! path with
  | None => inl ENOENT
  | Some f => match f_open_wr f with Some e => inl e | None => inr f end
  end.

(** The file after the kernel has changed what it holds. *)
Definition with_data (data : string) (f : file) : file :=
  {| f_data := data; f_open_rd := f_open_rd f; f_read_fails := f_read_fails f;
     f_open_wr := f_open_wr f; f_write := f_write f |}.

Definition put_file (path : string) (f : file) (w : World) : World :=
  set_files (<[path := f]> (files w)) w.

(** The string without its first [n] characters. *)
Fixpoint str_drop (n : nat) (s : string) : string :=
  match n, s with
  | S n', String _ r => str_drop n' r
  | _, _ => s
  end.

(* ===================================================================== *)
(** * usb_moded-modesetting.c: value tracking and file primitives          *)
(* ===================================================================== *)

(** [modesetting_track_value] *)
Definition modesetting_track_value (path text : option string) : M unit :=
  fun w =>
    match tracked_values w, path with
    | Some tv, Some p =>
        match text with
        | Some t => (tt, set_tracked (Some (<[p := t]> tv)) w)
        | None => (tt, set_tracked (Some (delete p tv)) w)
        end
    | _, _ => (tt, w)
    end.

(** ** [modesetting_strip]

    The three inner loops of the C function are the three phases below;
    running off the end of the model string is reaching the terminator that
    the caller stored at [text[done]]. *)

Inductive strip_phase :=
| Leading   (* line 145: skipping blanks before the first word *)
| Copying   (* line 149: copying a word *)
| Skipping. (* line 150: skipping blanks after a word *)

Definition is_nul (c : ascii) : bool := Nat.eqb (nat_of_ascii c) 0.
(** [*src > 0 && *src <= 32] *)
Definition is_blank (c : ascii) : bool :=
  (Nat.ltb 0 (nat_of_ascii c) && Nat.leb (nat_of_ascii c) 32)%bool.

Fixpoint strip_from (ph : strip_phase) (src : string) : string :=
  match src with
  | EmptyString => EmptyString
  | String c r =>
      if is_nul c then EmptyString
      else if is_blank c then
        match ph with
        | Leading => strip_from Leading r
        | Copying | Skipping => strip_from Skipping r
        end
      else
        match ph with
        | Leading | Copying => String c (strip_from Copying r)
        | Skipping => String " " (String c (strip_from Copying r))
        end
  end.

Definition modesetting_strip (str : string) : string := strip_from Leading str.

(** ** [modesetting_read_from_file]

    [malloc] is taken to succeed; read(2) delivers the first [maxsize] bytes
    of the file at once. *)
Definition modesetting_read_from_file (path : string) (maxsize : nat) : M (option string) :=
  fun w =>
    match open_rdonly w path with
    | inl e =>
        if (negb (errno_eqb e ENOENT) && negb (errno_eqb e EACCES))%bool
        then (None, emit_world (EvLog LOG_WARNING "%s: open: %m" [path; errno_text e]) w)
        else (None, w)
    | inr f =>
        if f_read_fails f
        then (None, emit_world (EvLog LOG_WARNING "%s: read: %m" [path]) w)
        else (Some (modesetting_strip (String.substring 0 maxsize (f_data f))), w)
    end.

(** ** What the two files take from the rest of the build and the system

    Macros of headers that are not among the sources at hand, the
    conditional-compilation switches, configuration getters, the daemon's
    current mode, and the outcomes of calls that leave the process.  An
    outcome may depend on when the call is made: it is indexed by the value
    of [clock] at the call. *)
Record Env := {
  ANDROID0_FUNCTIONS : string;
  ANDROID0_ENABLE : string;
  MODULE_NONE : string;
  MODULE_MASS_STORAGE : string;
  MODULE_FILE_STORAGE : string;
  MODE_MASS_STORAGE : string;
  MODE_CHARGING : string;
  MODE_CHARGING_FALLBACK : string;
  APP_SYNC : bool;
  DEBIAN : bool;
  CONNMAN : bool;
  usbmoded_get_usb_mode_data : option modedata;
  usbmoded_get_usb_mode : string;
  configfs_in_use : bool;
  android_in_use : bool;
  modules_in_use : bool;
  config_find_sync : Z;
  config_find_mounts : option string;
  config_find_alt_mount : option string;
  config_get_android_vendor_id : option string;
  system_status : nat -> string -> Z;                 (* usbmoded_system *)
  realpath : string -> option string;
  popen_lines : nat -> string -> option (list string); (* usbmoded_popen + getline *)
  network_up_status : nat -> Z;
  appsync_activate_sync_status : nat -> Z;
  configfs_set_udc_ok : nat -> bool -> bool;
}.

Section Modesetting.

Variable env : Env.

(** The write loop of lines 243-256 of [modesetting_write_to_file_real],
    for the open file [f], with [text] still to be written at position
    [pos].  Every turn takes at least one byte, so the text is done after
    at most as many turns as it has bytes; [fuel] counts the turns that
    are left. *)
Fixpoint write_loop (fuel : nat) (path : string) (clear : bool) (f : file)
    (pos : nat) (text : string) : M Z :=
  match fuel with
  | O => ret 0
  | S fuel' =>
      if Nat.ltb 0 (String.length text) then
        match f_write f pos text (f_data f) with
        | WriteError e data =>
            modify (put_file path (with_data data f)) ;;
            (if (clear && errno_eqb e EINVAL)%bool
             then log_debug "write(%s): %m (expected failure)" [path; errno_text e]
             else log_warning "write(%s): %m" [path; errno_text e]) ;;
            ret (-1)
        | Written more data =>
            let n := Nat.min (S more) (String.length text) in
            modify (put_file path (with_data data f)) ;;
            write_loop fuel' path clear (with_data data f) (pos + n) (str_drop n text)
        end
      else ret 0
  end.

(** The loop from its start: the whole text at position 0, and one turn
    more than the text has bytes. *)
Definition write_all (path text : string) (clear : bool) (f : file) : M Z :=
  write_loop (S (String.length text)) path clear f 0 text.

(** [modesetting_write_to_file_real]; the [file], [line] and [func]
    arguments only decorate the debug message and are left out. *)
Definition modesetting_write_to_file_real (path text : option string) : M Z :=
  match text, path with
  | Some text0, Some path =>
      let clear :=
        (str_eqb path (ANDROID0_FUNCTIONS env) && (str_eqb text0 EmptyString || str_eqb text0 "none"))%bool in
      let text := if clear then "none" else text0 in
      do prev <- modesetting_read_from_file path 4096;
      when (bool_decide (is_Some prev))
           (modesetting_track_value (Some path) (Some (if clear then EmptyString else text))) ;;
      log_debug "WRITE '%s' : '%s' --> '%s'" [path; or_qqq prev; text] ;;
      do o <- gets (fun w => open_wronly w path);
      match o with
      | inl e => log_warning "open(%s): %m" [path; errno_text e] ;; ret (-1)
      | inr f => write_all path text clear f
      end
  | _, _ => ret (-1)
  end.

(** The [write_to_file] macro. *)
Definition write_to_file := modesetting_write_to_file_real.

(** ** [modesetting_verify_values] *)

(** Whether the table holds a value for the path. *)
Definition g_hash_table_contains (path : string) (w : World) : bool :=
  match tracked_values w with
  | Some tv => bool_decide (is_Some (tv !! path))
  | None => false
  end.

(** The body of the [while] loop, for one (key, value) pair.  The result
    tells whether a pair was removed from the table: line 130 hands the
    null pointer of a failed read to [modesetting_track_value], which then
    calls [g_hash_table_remove] (line 94). *)
Definition verify_entry (kv : string * string) : M bool :=
  let path := kv.1 in
  let text := kv.2 in
  do curr <- modesetting_read_from_file path 4096;
  if negb (g_strcmp0_eq (Some text) curr) then
    (match curr with
     | Some c =>
         if g_ascii_strcasecmp_eq text c
         then log_debug "unexpected change '%s' : '%s' -> '%s' (case diff only)"
                        [path; text; or_qqq curr]
         else log_warning "unexpected change '%s' : '%s' -> '%s'"
                          [path; text; or_qqq curr]
     | None => log_warning "unexpected change '%s' : '%s' -> '%s'"
                           [path; text; or_qqq curr]
     end) ;;
    do present <- gets (g_hash_table_contains path);
    modesetting_track_value (Some path) curr ;;
    ret (present && negb (bool_decide (is_Some curr)))%bool
  else ret false.

(** The [while] loop of lines 109-134 over the pairs that the iterator
    has yet to yield.  Replacing the value of a key that is in the table
    leaves the iterator valid.  Removing a pair does not: glib counts the
    changes of the table, [g_hash_table_iter_next] finds the count changed
    and returns FALSE (with a critical message of glib's own, which is not
    one of the engine's log calls), and the loop is left with the
    remaining pairs unvisited. *)
Fixpoint verify_pairs (pairs : list (string * string)) : M unit :=
  match pairs with
  | [] => ret tt
  | kv :: rest =>
      do removed <- verify_entry kv;
      if removed then ret tt else verify_pairs rest
  end.

(** [modesetting_verify_values].  The iterator yields the pairs of the
    table in an order of glib's choosing; [map_to_list] stands for it. *)
Definition modesetting_verify_values : M unit :=
  do tv <- gets tracked_values;
  match tv with
  | None => ret tt
  | Some m => verify_pairs (map_to_list m)
  end.

(* ===================================================================== *)
(** * usb_moded-modesetting.c: calls that leave the process               *)
(* ===================================================================== *)

Definition nl : string := String (ascii_of_nat 10) EmptyString.
Definition dquote : string := String (ascii_of_nat 34) EmptyString.

Definition usbmoded_system (command : string) : M Z :=
  do t <- tick;
  emit (EvSystem command) ;;
  ret (system_status env t command).

Definition usbmoded_sleep (seconds : nat) : M unit := emit (EvSleep seconds).
Definition usbmoded_msleep (msec : nat) : M unit := emit (EvMsleep msec).
Definition umdbus_send_state_signal (s : state_signal) : M unit := emit (EvStateSignal s).
Definition umdbus_send_error_signal (e : error_signal) : M unit := emit (EvErrorSignal e).
Definition call (c : extcall) : M unit := emit (EvCall c).

(** [access(path, R_OK) != -1] *)
Definition access_R_OK (path : string) : M bool :=
  gets (fun w => match open_rdonly w path with inr _ => true | inl _ => false end).

Definition network_up (data : modedata) : M Z :=
  do t <- tick;
  call (Network_up (network_interface data)) ;;
  ret (network_up_status env t).

Definition network_down (data : modedata) : M unit :=
  call (Network_down (network_interface data)).

Definition configfs_set_udc (enable : bool) : M bool :=
  do t <- tick;
  call (Configfs_set_udc enable) ;;
  ret (configfs_set_udc_ok env t enable).

Definition appsync_activate_sync (name : option string) : M Z :=
  do t <- tick;
  call (Appsync_activate_sync name) ;;
  ret (appsync_activate_sync_status env t).

(** glib: a new timeout source gets a fresh non-zero id. *)
Definition g_timeout_add_seconds (seconds : nat) (data : modedata) : M N :=
  fun w =>
    let id := N.succ (next_source w) in
    (id, emit_world (EvTimeoutAdd id seconds)
           (set_sources (sources w ++ [(id, data)]) id w)).

Definition g_source_remove (id : N) : M unit :=
  modify (fun w => set_sources (filter (fun s => s.1 <> id) (sources w)) (next_source w) w) ;;
  emit (EvSourceRemove id).

(* ===================================================================== *)
(** * usb_moded-modesetting.c: mass storage                               *)
(* ===================================================================== *)

(** [modesetting_report_mass_storage_blocker]; the header line of the lsof
    output is skipped. *)
Definition modesetting_report_mass_storage_blocker (mountpoint : string) (attempt : Z) : M unit :=
  let lsof_command := g_strconcat "lsof " mountpoint in
  do t <- tick;
  emit (EvPopen lsof_command) ;;
  match popen_lines env t lsof_command with
  | Some lines =>
      for_each (tail lines) (fun text =>
        let who := g_strsplit2_first text in
        log_err "Mass storage blocked by process %s\n" [or_null who] ;;
        umdbus_send_error_signal (BlockedBy who))
  | None => ret tt
  end ;;
  when (attempt =? 2) (log_err "Setting Mass storage blocked. Giving up.\n" []).

Definition lun_attr (i : Z) (attr : string) : string :=
  "/sys/devices/platform/musb_hdrc/gadget/gadget-lun" +:+ fmt_d i +:+ "/" +:+ attr.

Definition android_lun_file : string := "/sys/class/android_usb/f_mass_storage/lun/file".

(** Lines 299-311: make sure the module offers enough logical units.  The
    result is the value of [ret] afterwards; non-zero makes the caller
    return it. *)
Definition check_luns (mountpoints : Z) : M Z :=
  let command2 := lun_attr (mountpoints - 1) "file" in
  do ok <- access_R_OK command2;
  if negb ok then
    log_debug "%s does not exist, unloading and reloading mass_storage\n" [command2] ;;
    call (Modules_unload_module (MODULE_MASS_STORAGE env)) ;;
    let command2 := "modprobe " +:+ MODULE_MASS_STORAGE env +:+ " luns=" +:+ fmt_d mountpoints +:+ " " +:+ nl in
    log_debug "usb-load command = %s \n" [command2] ;;
    usbmoded_system command2
  else ret 0.

(** Lines 322-353, from the label [umount] on, for one mount point.

    [retries_left] is [3 - try]: the counter [try] starts at 0 and is only
    incremented under [try != 3], so the test [try != 3] is
    [retries_left <> 0].  The counter belongs to the whole function, not to
    the mount point: what is left is handed back with the result.

    [inl ret]: the function returns [ret]; [inr (ret, retries_left)]: the
    loop goes on. *)
Fixpoint umount_mountpoint (retries_left : nat) (mount mountpath : string)
  : M (Z + Z * nat) :=
  do r <- usbmoded_system (g_strconcat "mount | grep " mountpath);
  if r =? 0 then
    let command := g_strconcat "umount " mountpath in
    log_debug "unmount command = %s\n" [command] ;;
    do r <- usbmoded_system command;
    if nonzero r then
      match retries_left with
      | S retries_left' =>
          usbmoded_sleep 1 ;;
          log_err "Umount failed. Retrying\n" [] ;;
          modesetting_report_mass_storage_blocker mount 1 ;;
          umount_mountpoint retries_left' mount mountpath
      | O =>
          log_err "Unmounting %s failed\n" [mount] ;;
          modesetting_report_mass_storage_blocker mount 2 ;;
          umdbus_send_error_signal UMOUNT_ERROR ;;
          ret (inl r)
      end
    else ret (inr (r, retries_left))
  else
    (* already unmounted *)
    ret (inr (0, retries_left)).

(** Lines 314-354: the loop over the mount points. *)
Fixpoint umount_all (mounts : list string) (mount : string) (retries_left : nat) (r : Z)
  : M (Z + Z) :=
  match mounts with
  | [] => ret (inr r)
  | m :: rest =>
      let mountpath := default m (realpath env m) in
      do o <- umount_mountpoint retries_left mount mountpath;
      match o with
      | inl r' => ret (inl r')
      | inr (r', left') => umount_all rest mount left' r'
      end
  end.

(** Lines 358-379: the body of the second loop, for [mounts[i]]. *)
Definition activate_lun (data : modedata) (fua : Z) (mount : string) (i : Z) (m : string) : M unit :=
  if negb (streq (mode_module data) (MODULE_NONE env)) then
    let command2 := "echo " +:+ fmt_d fua +:+ "  > " +:+ lun_attr i "nofua" in
    log_debug "usb lun = %s active\n" [command2] ;;
    usbmoded_system command2 ;;
    let command2 := lun_attr i "file" in
    log_debug "usb lun = %s active\n" [command2] ;;
    write_to_file (Some command2) (Some m) ;;
    ret tt
  else
    write_to_file (Some (ANDROID0_ENABLE env)) (Some "0") ;;
    write_to_file (Some (ANDROID0_FUNCTIONS env)) (Some "mass_storage") ;;
    write_to_file (Some android_lun_file) (Some mount) ;;
    write_to_file (Some (ANDROID0_ENABLE env)) (Some "1") ;;
    ret tt.

Fixpoint for_each_from {A} (i : Z) (l : list A) (body : Z -> A -> M unit) : M unit :=
  match l with
  | [] => ret tt
  | x :: r => body i x ;; for_each_from (i + 1) r body
  end.

(** Lines 386-390. *)
Definition finish_mass_storage (r : Z) : M Z :=
  when (r =? 0) (umdbus_send_state_signal DATA_IN_USE) ;;
  ret r.

(** Lines 285-354 of [modesetting_set_mass_storage_mode]: announce the
    unmount, check the module, unmount.  [inl ret]: the function returns
    [ret] from here; [inr (mount, ret)]: it goes on to line 356 with the
    configured mount points, if any, and [ret]. *)
Definition prepare_mass_storage (data : modedata) : M (Z + option string * Z) :=
  umdbus_send_state_signal USB_PRE_UNMOUNT ;;
  match config_find_mounts env with
  | Some mount =>
      let mounts := g_strsplit mount "," in
      let mountpoints := Z.of_nat (length mounts) in
      do r <- (if negb (streq (mode_module data) (MODULE_NONE env))
               then check_luns mountpoints else ret 0);
      if nonzero r then ret (inl r)
      else
        do o <- umount_all mounts mount 3 r;
        match o with
        | inl r' => ret (inl r')
        | inr r' => ret (inr (Some mount, r'))
        end
  | None => ret (inr (None, 0))
  end.

(** [modesetting_set_mass_storage_mode] *)
Definition modesetting_set_mass_storage_mode (data : modedata) : M Z :=
  let fua := config_find_sync env in
  do o <- prepare_mass_storage data;
  match o with
  | inl r => ret r
  | inr (mount, r) =>
      (match mount with
       | Some mount =>
           usbmoded_sleep 1 ;;
           for_each_from 0 (g_strsplit mount ",") (activate_lun data fua mount)
       | None => ret tt
       end) ;;
      finish_mass_storage r
  end.

(** Lines 406-458: the body of the loop of
    [modesetting_unset_mass_storage_mode], for [mounts[i]]; [mount] is
    replaced by the alternative mount point once mounting has failed. *)
Definition remount_lun (data : option modedata) (i : Z) (m : string)
    (mount : option string) : M (option string * Z) :=
  let mountpath := default m (realpath env m) in
  do r <- usbmoded_system (g_strconcat "mount | grep " mountpath);
  do st <-
    (if nonzero r then
       let command := g_strconcat "mount " mountpath in
       log_debug "mount command = %s\n" [command] ;;
       do r <- usbmoded_system command;
       if nonzero r then
         log_err "Mounting %s failed\n" [or_null mount] ;;
         let mount' := config_find_alt_mount env in
         do r' <-
           (match mount' with
            | Some alt =>
                let command := g_strconcat "mount -t tmpfs tmpfs -o ro --size=512K " alt in
                log_debug "Total failure, mount ro tmpfs as fallback\n" [] ;;
                usbmoded_system command
            | None => ret r
            end);
         umdbus_send_error_signal RE_MOUNT_FAILED ;;
         ret (mount', r')
       else ret (mount, r)
     else ret (mount, r));
  (match data with
   | Some d =>
       when (streq (mode_module d) (MODULE_NONE env))
            (log_debug "Disable android mass storage\n" [] ;;
             write_to_file (Some android_lun_file) (Some "0") ;;
             write_to_file (Some (ANDROID0_ENABLE env)) (Some "0") ;;
             ret tt)
   | None =>
       let command2 := "echo " +:+ dquote +:+ dquote +:+ "  > " +:+ lun_attr i "file" in
       log_debug "usb lun = %s inactive\n" [command2] ;;
       usbmoded_system command2 ;;
       ret tt
   end) ;;
  ret st.

Fixpoint remount_all (data : option modedata) (i : Z) (mounts : list string)
    (mount : option string) (r : Z) : M Z :=
  match mounts with
  | [] => ret r
  | m :: rest =>
      do st <- remount_lun data i m mount;
      remount_all data (i + 1) rest st.1 st.2
  end.

(** [modesetting_unset_mass_storage_mode] *)
Definition modesetting_unset_mass_storage_mode (data : option modedata) : M Z :=
  match config_find_mounts env with
  | Some mount => remount_all data 0 (g_strsplit mount ",") (Some mount) 1
  | None => ret 1
  end.

(* ===================================================================== *)
(** * usb_moded-modesetting.c: dynamic modes                              *)
(* ===================================================================== *)

(** [modesetting_network_retry]: the timeout callback.  [false] is
    [G_SOURCE_REMOVE]. *)
Definition modesetting_network_retry (data : modedata) : M bool :=
  modify (set_delayed 0) ;;
  network_up data ;;
  ret false.

(** Lines 527-536. *)
Definition configfs_set (data : modedata) : M Z :=
  let id := config_get_android_vendor_id env in
  configfs_set_udc false ;;
  call (Configfs_set_productid (idProduct data)) ;;
  call (Configfs_set_vendorid
          (match idVendorOverride data with Some v => Some v | None => id end)) ;;
  call (Configfs_set_function (sysfs_value data)) ;;
  do ok <- configfs_set_udc true;
  ret (if ok then 0 else -1).

(** Lines 537-561; [ret] is 1 on entry. *)
Definition android_set (data : modedata) : M Z :=
  write_to_file (softconnect_path data) (softconnect_disconnect data) ;;
  do r <- (match android_extra_sysfs_value data with
           | Some _ => write_to_file (android_extra_sysfs_path data)
                                     (android_extra_sysfs_value data)
           | None => ret 1
           end);
  write_to_file (android_extra_sysfs_path2 data) (android_extra_sysfs_value2 data) ;;
  call (Android_set_productid (idProduct data)) ;;
  call (Android_set_vendorid (idVendorOverride data)) ;;
  write_to_file (sysfs_path data) (sysfs_value data) ;;
  if r =? 0 then write_to_file (softconnect_path data) (softconnect data)
  else ret r.

(** Lines 527-571: the backend's set routine. *)
Definition backend_set (data : modedata) : M Z :=
  if configfs_in_use env then configfs_set data
  else if android_in_use env then android_set data
  else if modules_in_use env then ret 0
  else log_crit "no backend is selected, can't set dynamic mode" [] ;; ret 1.

(** Lines 574-585; the result is the value of [network] afterwards.
    [g_snprintf] cuts the command to 255 characters. *)
Definition restart_network (data : modedata) : M Z :=
  if nonzero (network data) then
    if DEBIAN env then
      let ifname := or_null (network_interface data) in
      let command := String.substring 0 255 ("ifdown " +:+ ifname +:+ " ; ifup " +:+ ifname) in
      usbmoded_system command ;;
      ret 1
    else
      network_down data ;;
      network_up data
  else ret 1.

(** Lines 589-595. *)
Definition schedule_network_retry (data : modedata) : M unit :=
  log_debug "Retry setting up the network later\n" [] ;;
  do pending <- gets delayed_network;
  when (negb (N.eqb pending 0)) (g_source_remove pending) ;;
  do id <- g_timeout_add_seconds 3 data;
  modify (set_delayed id).

(** [modesetting_set_dynamic_mode] *)
Definition modesetting_set_dynamic_mode : M Z :=
  match usbmoded_get_usb_mode_data env with
  | None => ret 1
  | Some data =>
      if nonzero (mass_storage data) then modesetting_set_mass_storage_mode data
      else
        do sync_failed <-
          (if (APP_SYNC env && nonzero (appsync data))%bool then
             do s <- appsync_activate_sync (mode_name data);
             if nonzero s then log_debug "Appsync failure" [] ;; ret true
             else ret false
           else ret false);
        if sync_failed then ret 1
        else
          do r <- backend_set data;
          do net <- restart_network data;
          when (nonzero net && nonzero (network data)) (schedule_network_retry data) ;;
          when (nonzero (nat_ data) || nonzero (dhcp_server data))
               (call (Network_set_up_dhcpd (mode_name data))) ;;
          when (nonzero (appsync data) && (r =? 0))
               (usbmoded_msleep 350 ;;
                call (Appsync_activate_sync_post (mode_name data))) ;;
          (match connman_tethering data with
           | Some service => when (CONNMAN env) (call (Connman_set_tethering service true))
           | None => ret tt
           end) ;;
          when (nonzero r) (umdbus_send_error_signal MODE_SETTING_FAILED) ;;
          ret r
  end.

(** Lines 657-672. *)
Definition android_unset (data : modedata) : M unit :=
  write_to_file (softconnect_path data) (softconnect_disconnect data) ;;
  write_to_file (sysfs_path data) (sysfs_reset_value data) ;;
  (match idVendorOverride data with
   | Some _ => call (Android_set_vendorid (config_get_android_vendor_id env))
   | None => ret tt
   end) ;;
  write_to_file (softconnect_path data) (softconnect data) ;;
  ret tt.

(** Lines 652-678: the backend's unset routine. *)
Definition backend_unset (data : modedata) : M unit :=
  if configfs_in_use env then ret tt
  else if android_in_use env then android_unset data
  else if modules_in_use env then ret tt
  else log_crit "no backend is selected, can't unset dynamic mode" [].

(** Lines 626-630. *)
Definition cancel_network_retry : M unit :=
  do pending <- gets delayed_network;
  when (negb (N.eqb pending 0))
       (g_source_remove pending ;; modify (set_delayed 0)).

(** [modesetting_unset_dynamic_mode] *)
Definition modesetting_unset_dynamic_mode : M unit :=
  cancel_network_retry ;;
  match usbmoded_get_usb_mode_data env with
  | None => ret tt
  | Some data =>
      if streq (mode_name data) (MODE_MASS_STORAGE env) then
        modesetting_unset_mass_storage_mode (Some data) ;; ret tt
      else
        (match connman_tethering data with
         | Some service => when (CONNMAN env) (call (Connman_set_tethering service false))
         | None => ret tt
         end) ;;
        when (nonzero (network data)) (network_down data) ;;
        backend_unset data
  end.

(** [modesetting_cleanup] *)
Definition modesetting_cleanup (module : option string) : M Z :=
  log_debug "Cleaning up mode\n" [] ;;
  match module with
  | None => log_warning "No module found to unload. Skipping cleanup\n" [] ;; ret 0
  | Some module =>
      when (APP_SYNC env) (call (Appsync_stop false)) ;;
      if (str_eqb module (MODULE_MASS_STORAGE env) || str_eqb module (MODULE_FILE_STORAGE env))%bool
      then
        if (str_eqb (MODE_CHARGING env) (usbmoded_get_usb_mode env)
            || str_eqb (MODE_CHARGING_FALLBACK env) (usbmoded_get_usb_mode env))%bool
        then ret 0
        else modesetting_unset_mass_storage_mode None ;; ret 0
      else if bool_decide (is_Some (usbmoded_get_usb_mode_data env))
      then modesetting_unset_dynamic_mode ;; ret 0
      else ret 0
  end.

(** [modesetting_init] *)
Definition modesetting_init : M unit :=
  do tv <- gets tracked_values;
  match tv with
  | None => modify (set_tracked (Some ∅))
  | Some _ => ret tt
  end.

(** [modesetting_quit] *)
Definition modesetting_quit : M unit :=
  do tv <- gets tracked_values;
  match tv with
  | Some _ => modify (set_tracked None)
  | None => ret tt
  end.

(** glib's main loop dispatching the timeout source [id]: the callback runs
    with the data it was registered with, and the source is destroyed when
    the callback returns [false]. *)
Definition dispatch_timeout (id : N) : M unit :=
  do pending <- gets sources;
  match List.find (fun s => N.eqb s.1 id) pending with
  | Some s =>
      do again <- modesetting_network_retry s.2;
      when (negb again)
           (modify (fun w => set_sources (filter (fun s => s.1 <> id) (sources w))
                                         (next_source w) w))
  | None => ret tt
  end.

End Modesetting.

(* ===================================================================== *)
(** * usb_moded-dyn-config.c                                              *)
(* ===================================================================== *)

(** Group and key names of [usb_moded-dyn-config.h], kept symbolic. *)
Inductive kf_group := MODE_ENTRY | MODE_OPTIONS_ENTRY.

Inductive kf_key :=
| MODE_NAME_KEY | MODE_MODULE_KEY | MODE_NEEDS_APPSYNC_KEY | MODE_MASS_STORAGE_KEY
| MODE_NETWORK_KEY | MODE_NETWORK_INTERFACE_KEY
| MODE_SYSFS_PATH | MODE_SYSFS_VALUE | MODE_SYSFS_RESET_VALUE
| MODE_ANDROID_EXTRA_SYSFS_PATH | MODE_ANDROID_EXTRA_SYSFS_PATH2
| MODE_ANDROID_EXTRA_SYSFS_PATH3 | MODE_ANDROID_EXTRA_SYSFS_PATH4
| MODE_ANDROID_EXTRA_SYSFS_VALUE | MODE_ANDROID_EXTRA_SYSFS_VALUE2
| MODE_ANDROID_EXTRA_SYSFS_VALUE3 | MODE_ANDROID_EXTRA_SYSFS_VALUE4
| MODE_IDPRODUCT | MODE_IDVENDOROVERRIDE | MODE_HAS_NAT | MODE_HAS_DHCP_SERVER
| MODE_CONNMAN_TETHERING.

#[global] Instance kf_group_eq_dec : EqDecision kf_group.
Proof. solve_decision. Defined.

#[global] Instance kf_key_eq_dec : EqDecision kf_key.
Proof. solve_decision. Defined.

(** A parsed key file, seen through the two glib getters the loader uses:
    [g_key_file_get_string] yields null for a missing key,
    [g_key_file_get_integer] yields 0 for a missing or malformed one. *)
Record GKeyFile := {
  g_key_file_get_string : kf_group -> kf_key -> option string;
  g_key_file_get_integer : kf_group -> kf_key -> Z;
}.

(** Lines 131-165 of [modedata_load]: the zeroed object with every field
    taken from the key file.  [connman] is the CONNMAN compilation switch. *)
Definition modedata_fields (connman : bool) (kf : GKeyFile) : modedata :=
  let gs := g_key_file_get_string kf in
  let gi := g_key_file_get_integer kf in
  {| mode_name := gs MODE_ENTRY MODE_NAME_KEY;
     mode_module := gs MODE_ENTRY MODE_MODULE_KEY;
     appsync := gi MODE_ENTRY MODE_NEEDS_APPSYNC_KEY;
     mass_storage := gi MODE_ENTRY MODE_MASS_STORAGE_KEY;
     network := gi MODE_ENTRY MODE_NETWORK_KEY;
     network_interface := gs MODE_ENTRY MODE_NETWORK_INTERFACE_KEY;
     sysfs_path := gs MODE_OPTIONS_ENTRY MODE_SYSFS_PATH;
     sysfs_value := gs MODE_OPTIONS_ENTRY MODE_SYSFS_VALUE;
     sysfs_reset_value := gs MODE_OPTIONS_ENTRY MODE_SYSFS_RESET_VALUE;
     android_extra_sysfs_path := gs MODE_OPTIONS_ENTRY MODE_ANDROID_EXTRA_SYSFS_PATH;
     android_extra_sysfs_path2 := gs MODE_OPTIONS_ENTRY MODE_ANDROID_EXTRA_SYSFS_PATH2;
     android_extra_sysfs_path3 := gs MODE_OPTIONS_ENTRY MODE_ANDROID_EXTRA_SYSFS_PATH3;
     android_extra_sysfs_path4 := gs MODE_OPTIONS_ENTRY MODE_ANDROID_EXTRA_SYSFS_PATH4;
     android_extra_sysfs_value := gs MODE_OPTIONS_ENTRY MODE_ANDROID_EXTRA_SYSFS_VALUE;
     android_extra_sysfs_value2 := gs MODE_OPTIONS_ENTRY MODE_ANDROID_EXTRA_SYSFS_VALUE2;
     android_extra_sysfs_value3 := gs MODE_OPTIONS_ENTRY MODE_ANDROID_EXTRA_SYSFS_VALUE3;
     android_extra_sysfs_value4 := gs MODE_OPTIONS_ENTRY MODE_ANDROID_EXTRA_SYSFS_VALUE4;
     idProduct := gs MODE_OPTIONS_ENTRY MODE_IDPRODUCT;
     idVendorOverride := gs MODE_OPTIONS_ENTRY MODE_IDVENDOROVERRIDE;
     nat_ := gi MODE_OPTIONS_ENTRY MODE_HAS_NAT;
     dhcp_server := gi MODE_OPTIONS_ENTRY MODE_HAS_DHCP_SERVER;
     connman_tethering :=
       if connman then gs MODE_OPTIONS_ENTRY MODE_CONNMAN_TETHERING else None;
     (* left zeroed by calloc *)
     softconnect_path := None;
     softconnect := None;
     softconnect_disconnect := None |}.

(** Lines 137-138 and 172-207 of [modedata_load]: the checks on the object
    just filled in.  The result is the object pointer or null, with the
    messages logged on the way. *)
Definition modedata_validate (filename : string) (list_item : modedata)
  : option modedata * list event :=
  let log1 :=
    [EvLog LOG_DEBUG "Dynamic mode name = %s\n" [or_null (mode_name list_item)];
     EvLog LOG_DEBUG "Dynamic mode module = %s\n" [or_null (mode_module list_item)]] in
  if (bool_decide (mode_name list_item = None)
      || bool_decide (mode_module list_item = None))%bool then
    (None, log1 ++ [EvLog LOG_ERR "%s: mode_name or mode_module not defined" [filename]])
  else if (nonzero (network list_item)
           && bool_decide (network_interface list_item = None))%bool then
    (None, log1 ++ [EvLog LOG_ERR "%s: network not fully defined" [filename]])
  else if ((bool_decide (is_Some (sysfs_path list_item))
            && negb (bool_decide (is_Some (sysfs_value list_item))))
           || (bool_decide (is_Some (sysfs_reset_value list_item))
               && negb (bool_decide (is_Some (sysfs_path list_item)))))%bool then
    (None, log1 ++ [EvLog LOG_ERR "%s: sysfs_value not fully defined" [filename]])
  else
    (Some list_item, log1 ++ [EvLog LOG_DEBUG "%s: successfully loaded" [filename]]).

(** [modedata_load].  [settingsfile] is what [g_key_file_load_from_file]
    made of the file, [None] when it could not be read. *)
Definition modedata_load (connman : bool) (filename : string) (settingsfile : option GKeyFile)
  : option modedata * list event :=
  match settingsfile with
  | None => (None, [EvLog LOG_ERR "%s: can't read mode configuration file" [filename]])
  | Some kf => modedata_validate filename (modedata_fields connman kf)
  end.

(** [g_strcmp0]: a null pointer sorts before every string; otherwise
    [strcmp], which compares unsigned bytes.  Only the sign of the result
    is specified, so the result is -1, 0 or 1. *)
Definition g_strcmp0 (a b : option string) : Z :=
  match a, b with
  | None, None => 0
  | None, Some _ => -1
  | Some _, None => 1
  | Some x, Some y =>
      match String.compare x y with
      | Lt => -1
      | Eq => 0
      | Gt => 1
      end
  end.

(** [modedata_sort_cb] *)
Definition modedata_sort_cb (a b : modedata) : Z :=
  g_strcmp0 (mode_name a) (mode_name b).

(** glib's [g_list_sort], by its contract: a stable sort, in which an
    element stays before every later element that does not compare smaller.
    The result of a stable sort is unique, so this insertion from the
    right yields the list the library's merge sort yields for a consistent
    comparison. *)
Fixpoint sorted_insert {A} (compare_func : A -> A -> Z) (x : A) (l : list A) : list A :=
  match l with
  | [] => [x]
  | y :: r =>
      if compare_func x y <=? 0 then x :: y :: r
      else y :: sorted_insert compare_func x r
  end.

Definition g_list_sort {A} (l : list A) (compare_func : A -> A -> Z) : list A :=
  foldr (sorted_insert compare_func) [] l.

(** What [modelist_load] takes from the build and the file system: the
    directory macros of [usb_moded-dyn-config.h], the CONNMAN switch, the
    names [g_dir_read_name] yields for a directory that [g_dir_open] can
    open, and what [g_key_file_load_from_file] makes of a file. *)
Record ConfEnv := {
  DIAG_DIR_PATH : string;
  MODE_DIR_PATH : string;
  CONNMAN_enabled : bool;
  g_dir_names : string -> option (list string);
  g_key_file_load_from_file : string -> option GKeyFile;
}.

(** Lines 254-266 of [modelist_load]: the loop over the directory entries,
    with the list built so far. *)
Fixpoint modelist_read (cenv : ConfEnv) (dir : string) (names : list string)
    (modelist : list modedata) : list modedata * list event :=
  match names with
  | [] => (modelist, [])
  | dirname :: rest =>
      let full_filename := dir +:+ "/" +:+ dirname in
      let loaded := modedata_load (CONNMAN_enabled cenv) full_filename
                      (g_key_file_load_from_file cenv full_filename) in
      let modelist' :=
        match loaded.1 with
        | Some list_item => modelist ++ [list_item]
        | None => modelist
        end in
      let more := modelist_read cenv dir rest modelist' in
      (more.1, EvLog LOG_DEBUG "Read file %s\n" [dirname] :: loaded.2 ++ more.2)
  end.

(** [modelist_load] *)
Definition modelist_load (cenv : ConfEnv) (diag : Z) : list modedata * list event :=
  let dir := if nonzero diag then DIAG_DIR_PATH cenv else MODE_DIR_PATH cenv in
  let read :=
    match g_dir_names cenv dir with
    | Some names => modelist_read cenv dir names []
    | None =>
        ([], [EvLog LOG_DEBUG "Mode confdir open failed or file is incomplete/invalid.\n" []])
    end in
  (g_list_sort read.1 modedata_sort_cb, read.2).

(* ===================================================================== *)
(** * Notions used to state the properties                                *)
(* ===================================================================== *)

(** The value tracked for a path, if any. *)
Definition tracked (w : World) (p : string) : option string :=
  match tracked_values w with
  | Some tv => tv !! p
  | None => None
  end.

(** A computation leaves the world related to where it started. *)
Definition keeps (R : World -> World -> Prop) {A} (m : M A) : Prop :=
  forall w, R w (m w).2.

(** Relations that compose along a run, and those among them that the
    clock and the events accepted by [ok] cannot break. *)
Class Pre (R : World -> World -> Prop) : Prop := {
  pre_refl : forall w, R w w;
  pre_trans : forall a b c, R a b -> R b c -> R a c;
}.

Class Tolerates (R : World -> World -> Prop) (ok : event -> bool) : Prop := {
  tol_pre :: Pre R;
  tol_emit : forall e w, ok e = true -> R w (emit_world e w);
  tol_tick : forall w, R w (tick_world w);
}.

Definition any_event (e : event) : bool := true.
Definition is_log (e : event) : bool :=
  match e with EvLog _ _ _ => true | _ => false end.

(** The run only appends events, all of them accepted by [ok], and touches
    nothing else but the clock. *)
Definition adds (ok : event -> bool) (w w' : World) : Prop :=
  exists l, trace w' = trace w ++ l /\ forallb ok l = true.

Definition same_timers (w w' : World) : Prop :=
  sources w' = sources w /\ delayed_network w' = delayed_network w.

Definition same_file (p : string) (w w' : World) : Prop :=
  files w' !! p = files w !! p.

Definition same_files (w w' : World) : Prop := files w' = files w.

Definition same_tracked (p : string) (w w' : World) : Prop :=
  tracked w' p = tracked w p.

(** The events a computation adds to the trace. *)
Definition emitted {A} (m : M A) (w : World) : list event :=
  drop (length (trace w)) (trace (m w).2).

(** ** The read contract, in the words of the specification

    Every maximal run of blanks becomes one space, and the blanks at
    either end go.  What a blank is differs between the claim as it is
    stated and as it is amended, so the normalisation takes it as a
    parameter. *)

Section CollapseAndTrim.

Variable blank : ascii -> bool.





End CollapseAndTrim.










(** ** The descriptor invariants of the data model *)
Definition descriptor_invariants (d : modedata) : Prop :=
  is_Some (mode_name d) /\ is_Some (mode_module d) /\
  (network d <> 0 -> is_Some (network_interface d)) /\
  (is_Some (sysfs_path d) -> is_Some (sysfs_value d)) /\
  (is_Some (sysfs_reset_value d) -> is_Some (sysfs_path d)).

(** ** The tracker agrees with the files *)

(** What a bounded read of the path yields now. *)
Definition live (w : World) (p : string) : option string :=
  (modesetting_read_from_file p 4096 w).1.

Definition tracker_agrees (w : World) : Prop :=
  forall p t, tracked w p = Some t -> live w p = Some t.

(** ** The pending network retry *)

(** The handle [delayed_network] and glib's pending sources tell the same
    story: no source when the handle is 0, else exactly the source it
    names. *)
Definition timer_inv (w : World) : Prop :=
  if N.eqb (delayed_network w) 0 then sources w = []
  else exists data, sources w = [(delayed_network w, data)].

Definition timer_step (w w' : World) : Prop := timer_inv w -> timer_inv w'.

(** What the daemon and glib's main loop can ask of the engine, each in the
    environment of its moment. *)
Inductive engine_call :=
| Activate (env : Env)                              (* modesetting_set_dynamic_mode *)
| Deactivate (env : Env)                            (* modesetting_unset_dynamic_mode *)
| Cleanup (env : Env) (module : option string)      (* modesetting_cleanup *)
| TimeoutFires (env : Env) (id : N)                 (* the main loop dispatches a source *)
| VerifyValues                                      (* modesetting_verify_values *)
| Init                                              (* modesetting_init *)
| Quit.                                             (* modesetting_quit *)

Definition run_call (c : engine_call) (w : World) : World :=
  match c with
  | Activate env => (modesetting_set_dynamic_mode env w).2
  | Deactivate env => (modesetting_unset_dynamic_mode env w).2
  | Cleanup env module => (modesetting_cleanup env module w).2
  | TimeoutFires env id => (dispatch_timeout env id w).2
  | VerifyValues => (modesetting_verify_values w).2
  | Init => (modesetting_init w).2
  | Quit => (modesetting_quit w).2
  end.

Definition run_calls (cs : list engine_call) (w : World) : World :=
  foldl (fun w c => run_call c w) w cs.

(** ** What the gadget is asked to do

    Of a run, the write attempts (each is announced by the WRITE debug
    message, after the null check and before the file is opened) and the
    calls of the vendor id setter, in order. *)
Inductive gadget_action :=
| WriteAttempt (path text : string)
| SetVendorId (id : option string).

Definition write_fmt : string := "WRITE '%s' : '%s' --> '%s'".

Definition action_of (e : event) : list gadget_action :=
  match e with
  | EvLog LOG_DEBUG fmt [path; _; text] =>
      if str_eqb fmt write_fmt then [WriteAttempt path text] else []
  | EvCall (Android_set_vendorid id) => [SetVendorId id]
  | _ => []
  end.

Definition gadget_actions (l : list event) : list gadget_action :=
  flat_map action_of l.

Definition no_action (e : event) : bool :=
  match action_of e with [] => true | _ => false end.

(** The text that reaches the file: the function list is cleared by
    writing the token none. *)
Definition written_text (env : Env) (path text : string) : string :=
  if (str_eqb path (ANDROID0_FUNCTIONS env)
      && (str_eqb text EmptyString || str_eqb text "none"))%bool
  then "none" else text.

(** A write is attempted only when both the path and the text are there. *)
Definition attempt (env : Env) (path text : option string) : list gadget_action :=
  match path, text with
  | Some p, Some t => [WriteAttempt p (written_text env p t)]
  | _, _ => []
  end.

Definition acts (l : list gadget_action) (w w' : World) : Prop :=
  exists evs, trace w' = trace w ++ evs /\ gadget_actions evs = l.

(** ** Counting events *)

Definition is_system (command : string) (e : event) : bool :=
  match e with
  | EvSystem c => str_eqb c command
  | _ => false
  end.

Definition count_if (f : event -> bool) (l : list event) : nat :=
  length (List.filter f l).

(** The unmount attempts made for a mount path. *)
Definition umount_attempts (mountpath : string) (l : list event) : nat :=
  count_if (is_system (g_strconcat "umount " mountpath)) l.

Definition is_data_in_use (e : event) : bool :=
  match e with
  | EvStateSignal DATA_IN_USE => true
  | _ => false
  end.

Definition not_data_in_use (e : event) : bool := negb (is_data_in_use e).

Definition not_system (e : event) : bool :=
  match e with
  | EvSystem _ => false
  | _ => true
  end.

(** The run appended events that hold [attempts] unmount attempts for the
    mount path and end with the unmount-error signal. *)
Definition gave_up (mountpath : string) (attempts : nat) (w w' : World) : Prop :=
  exists evs, trace w' = trace w ++ evs /\
              umount_attempts mountpath evs = attempts /\
              last evs = Some (EvErrorSignal UMOUNT_ERROR).

(* ===================================================================== *)
(** * Concrete scenarios                                                   *)
(* ===================================================================== *)

(** The store of a sysfs attribute: it takes the buffer of a write whole,
    as the new value. *)
Definition sysfs_store (pos : nat) (bytes data : string) : write_result :=
  Written (String.length bytes) bytes.

(** A regular file: the bytes replace what is at the position, the rest
    stays. *)
Definition in_place (pos : nat) (bytes data : string) : write_result :=
  Written (String.length bytes)
    (String.substring 0 pos data +:+ bytes +:+ str_drop (pos + String.length bytes) data).

(** A regular file on a device that takes two bytes at a time. *)
Definition in_place_by_two (pos : nat) (bytes data : string) : write_result :=
  Written 1
    (String.substring 0 pos data +:+ String.substring 0 2 bytes
     +:+ str_drop (pos + Nat.min 2 (String.length bytes)) data).

(** An attribute that can be read and written. *)
Definition plain_file (data : string) : file :=
  {| f_data := data; f_open_rd := None; f_read_fails := false;
     f_open_wr := None; f_write := sysfs_store |}.

Definition regular_file (data : string) : file :=
  {| f_data := data; f_open_rd := None; f_read_fails := false;
     f_open_wr := None; f_write := in_place |}.

Definition functions_path : string := "/sys/class/android_usb/android0/functions".
Definition enable_path : string := "/sys/class/android_usb/android0/enable".
Definition wceis_path : string := "/sys/class/android_usb/android0/f_rndis/wceis".

(** An android-backend device on which every external call succeeds. *)
Definition android_env (data : option modedata) (mounts : option string) : Env :=
  {| ANDROID0_FUNCTIONS := functions_path;
     ANDROID0_ENABLE := enable_path;
     MODULE_NONE := "none";
     MODULE_MASS_STORAGE := "g_mass_storage";
     MODULE_FILE_STORAGE := "g_file_storage";
     MODE_MASS_STORAGE := "mass_storage";
     MODE_CHARGING := "charging_only";
     MODE_CHARGING_FALLBACK := "charging_only_fallback";
     APP_SYNC := true;
     DEBIAN := false;
     CONNMAN := false;
     usbmoded_get_usb_mode_data := data;
     usbmoded_get_usb_mode := default "undefined" (data ≫= mode_name);
     configfs_in_use := false;
     android_in_use := true;
     modules_in_use := false;
     config_find_sync := 0;
     config_find_mounts := mounts;
     config_find_alt_mount := None;
     config_get_android_vendor_id := Some "18d1";
     system_status := fun _ _ => 0;
     realpath := fun _ => None;
     popen_lines := fun _ _ => None;
     network_up_status := fun _ => 0;
     appsync_activate_sync_status := fun _ => 0;
     configfs_set_udc_ok := fun _ _ => true |}.

(** A mode that programs the function list only, as most mode files do. *)
Definition mtp_mode : modedata :=
  {| mode_name := Some "mtp_mode";
     mode_module := Some "none";
     appsync := 0;
     network := 0;
     mass_storage := 0;
     network_interface := None;
     sysfs_path := Some functions_path;
     sysfs_value := Some "mtp";
     sysfs_reset_value := None;
     android_extra_sysfs_path := None;
     android_extra_sysfs_value := None;
     android_extra_sysfs_path2 := None;
     android_extra_sysfs_value2 := None;
     android_extra_sysfs_path3 := None;
     android_extra_sysfs_value3 := None;
     android_extra_sysfs_path4 := None;
     android_extra_sysfs_value4 := None;
     idProduct := Some "0A05";
     idVendorOverride := None;
     nat_ := 0;
     dhcp_server := 0;
     connman_tethering := None;
     softconnect_path := Some enable_path;
     softconnect := Some "1";
     softconnect_disconnect := Some "0" |}.

(** The gadget attributes of an android kernel, freshly booted. *)
Definition android_files : gmap string file :=
  <[functions_path := plain_file "none"]>
  (<[enable_path := plain_file "0"]>
  (<[wceis_path := plain_file "0"]> ∅)).


Definition boot_world (fs : gmap string file) : World :=
  {| tracked_values := Some ∅; delayed_network := 0%N; files := fs;
     sources := []; next_source := 0%N; clock := 0%nat; trace := [] |}.

(** Mode files, as the key file getters present them. *)
Definition key_file (strings : list (kf_group * kf_key * string))
    (integers : list (kf_group * kf_key * Z)) : GKeyFile :=
  {| g_key_file_get_string := fun g k =>
       snd <$> List.find (fun e => bool_decide (e.1 = (g, k))) strings;
     g_key_file_get_integer := fun g k =>
       default 0 (snd <$> List.find (fun e => bool_decide (e.1 = (g, k))) integers) |}.

Definition network_without_interface : GKeyFile :=
  key_file [(MODE_ENTRY, MODE_NAME_KEY, "developer_mode");
            (MODE_ENTRY, MODE_MODULE_KEY, "none");
            (MODE_OPTIONS_ENTRY, MODE_SYSFS_VALUE, "rndis")]
           [(MODE_ENTRY, MODE_NETWORK_KEY, 1)].

Definition reset_without_path : GKeyFile :=
  key_file [(MODE_ENTRY, MODE_NAME_KEY, "host_mode");
            (MODE_ENTRY, MODE_MODULE_KEY, "none");
            (MODE_OPTIONS_ENTRY, MODE_SYSFS_VALUE, "host");
            (MODE_OPTIONS_ENTRY, MODE_SYSFS_RESET_VALUE, "peripheral")]
           [].

Definition path_without_value : GKeyFile :=
  key_file [(MODE_ENTRY, MODE_NAME_KEY, "host_mode");
            (MODE_ENTRY, MODE_MODULE_KEY, "none");
            (MODE_OPTIONS_ENTRY, MODE_SYSFS_PATH, "/sys/class/usb/otg/mode")]
           [].

(** The tracker expects upper-case hex digits where the kernel reports
    lower-case ones, and a function list that has meanwhile been changed
    behind the engine's back. *)
Definition drifted_world : World :=
  {| tracked_values :=
       Some (<["/sys/idProduct" := "0A02"]> (<[functions_path := "mtp"]> ∅));
     delayed_network := 0%N;
     files := <["/sys/idProduct" := plain_file ("0a02" +:+ nl)]>
              (<[functions_path := plain_file ("rndis,adb" +:+ nl)]> ∅);
     sources := []; next_source := 0%N; clock := 0%nat; trace := [] |}.

(** Two tracked attributes that are both gone from the file system. *)
Definition two_missing_world : World :=
  {| tracked_values := Some (<["/sys/a" := "1"]> (<["/sys/b" := "1"]> ∅));
     delayed_network := 0%N;
     files := ∅;
     sources := []; next_source := 0%N; clock := 0%nat; trace := [] |}.

(** A network mode that also sets an extra attribute. *)
Definition rndis_mode : modedata :=
  {| mode_name := Some "developer_mode";
     mode_module := Some "none";
     appsync := 0;
     network := 1;
     mass_storage := 0;
     network_interface := Some "rndis0";
     sysfs_path := Some functions_path;
     sysfs_value := Some "rndis";
     sysfs_reset_value := Some "none";
     android_extra_sysfs_path := Some wceis_path;
     android_extra_sysfs_value := Some "1";
     android_extra_sysfs_path2 := None;
     android_extra_sysfs_value2 := None;
     android_extra_sysfs_path3 := None;
     android_extra_sysfs_value3 := None;
     android_extra_sysfs_path4 := None;
     android_extra_sysfs_value4 := None;
     idProduct := Some "0A02";
     idVendorOverride := None;
     nat_ := 0;
     dhcp_server := 0;
     connman_tethering := None;
     softconnect_path := Some enable_path;
     softconnect := Some "1";
     softconnect_disconnect := Some "0" |}.

(** The same device while the interface refuses to come up. *)
Definition network_failing (e : Env) : Env :=
  {| ANDROID0_FUNCTIONS := ANDROID0_FUNCTIONS e;
     ANDROID0_ENABLE := ANDROID0_ENABLE e;
     MODULE_NONE := MODULE_NONE e;
     MODULE_MASS_STORAGE := MODULE_MASS_STORAGE e;
     MODULE_FILE_STORAGE := MODULE_FILE_STORAGE e;
     MODE_MASS_STORAGE := MODE_MASS_STORAGE e;
     MODE_CHARGING := MODE_CHARGING e;
     MODE_CHARGING_FALLBACK := MODE_CHARGING_FALLBACK e;
     APP_SYNC := APP_SYNC e;
     DEBIAN := DEBIAN e;
     CONNMAN := CONNMAN e;
     usbmoded_get_usb_mode_data := usbmoded_get_usb_mode_data e;
     usbmoded_get_usb_mode := usbmoded_get_usb_mode e;
     configfs_in_use := configfs_in_use e;
     android_in_use := android_in_use e;
     modules_in_use := modules_in_use e;
     config_find_sync := config_find_sync e;
     config_find_mounts := config_find_mounts e;
     config_find_alt_mount := config_find_alt_mount e;
     config_get_android_vendor_id := config_get_android_vendor_id e;
     system_status := system_status e;
     realpath := realpath e;
     popen_lines := popen_lines e;
     network_up_status := fun _ => 1;
     appsync_activate_sync_status := appsync_activate_sync_status e;
     configfs_set_udc_ok := configfs_set_udc_ok e |}.

(** The same device with other exit statuses of the commands it runs. *)
Definition with_system_status (status : nat -> string -> Z) (e : Env) : Env :=
  {| ANDROID0_FUNCTIONS := ANDROID0_FUNCTIONS e;
     ANDROID0_ENABLE := ANDROID0_ENABLE e;
     MODULE_NONE := MODULE_NONE e;
     MODULE_MASS_STORAGE := MODULE_MASS_STORAGE e;
     MODULE_FILE_STORAGE := MODULE_FILE_STORAGE e;
     MODE_MASS_STORAGE := MODE_MASS_STORAGE e;
     MODE_CHARGING := MODE_CHARGING e;
     MODE_CHARGING_FALLBACK := MODE_CHARGING_FALLBACK e;
     APP_SYNC := APP_SYNC e;
     DEBIAN := DEBIAN e;
     CONNMAN := CONNMAN e;
     usbmoded_get_usb_mode_data := usbmoded_get_usb_mode_data e;
     usbmoded_get_usb_mode := usbmoded_get_usb_mode e;
     configfs_in_use := configfs_in_use e;
     android_in_use := android_in_use e;
     modules_in_use := modules_in_use e;
     config_find_sync := config_find_sync e;
     config_find_mounts := config_find_mounts e;
     config_find_alt_mount := config_find_alt_mount e;
     config_get_android_vendor_id := config_get_android_vendor_id e;
     system_status := status;
     realpath := realpath e;
     popen_lines := popen_lines e;
     network_up_status := network_up_status e;
     appsync_activate_sync_status := appsync_activate_sync_status e;
     configfs_set_udc_ok := configfs_set_udc_ok e |}.

Definition rndis_env : Env := network_failing (android_env (Some rndis_mode) None).

(** The android gadget without the attribute of the rndis function. *)
Definition android_files_without_functions : gmap string file :=
  <[enable_path := plain_file "0"]> (<[wceis_path := plain_file "0"]> ∅).

(** The mass-storage mode of an android device. *)
Definition mass_storage_mode : modedata :=
  {| mode_name := Some "mass_storage";
     mode_module := Some "none";
     appsync := 0;
     network := 0;
     mass_storage := 1;
     network_interface := None;
     sysfs_path := None;
     sysfs_value := None;
     sysfs_reset_value := None;
     android_extra_sysfs_path := None;
     android_extra_sysfs_value := None;
     android_extra_sysfs_path2 := None;
     android_extra_sysfs_value2 := None;
     android_extra_sysfs_path3 := None;
     android_extra_sysfs_value3 := None;
     android_extra_sysfs_path4 := None;
     android_extra_sysfs_value4 := None;
     idProduct := None;
     idVendorOverride := None;
     nat_ := 0;
     dhcp_server := 0;
     connman_tethering := None;
     softconnect_path := Some enable_path;
     softconnect := Some "1";
     softconnect_disconnect := Some "0" |}.

(** One mount point, mounted, which unmounts at once. *)
Definition one_mount_env : Env :=
  android_env (Some mass_storage_mode) (Some "/media/a").

(** Two mount points, both mounted.  A process lets go of the first one
    only after the first unmount attempt; the second one stays busy. *)
Definition busy_status (t : nat) (command : string) : Z :=
  if str_eqb command "umount /media/a" then (if Nat.leb t 1 then 1 else 0)
  else if str_eqb command "umount /media/b" then 1
  else 0.

Definition two_mounts_env : Env :=
  {| ANDROID0_FUNCTIONS := functions_path;
     ANDROID0_ENABLE := enable_path;
     MODULE_NONE := "none";
     MODULE_MASS_STORAGE := "g_mass_storage";
     MODULE_FILE_STORAGE := "g_file_storage";
     MODE_MASS_STORAGE := "mass_storage";
     MODE_CHARGING := "charging_only";
     MODE_CHARGING_FALLBACK := "charging_only_fallback";
     APP_SYNC := true;
     DEBIAN := false;
     CONNMAN := false;
     usbmoded_get_usb_mode_data := Some mass_storage_mode;
     usbmoded_get_usb_mode := "mass_storage";
     configfs_in_use := false;
     android_in_use := true;
     modules_in_use := false;
     config_find_sync := 0;
     config_find_mounts := Some "/media/a,/media/b";
     config_find_alt_mount := None;
     config_get_android_vendor_id := Some "18d1";
     system_status := busy_status;
     realpath := fun _ => None;
     popen_lines := fun _ _ => None;
     network_up_status := fun _ => 0;
     appsync_activate_sync_status := fun _ => 0;
     configfs_set_udc_ok := fun _ _ => true |}.

(** One mount point that stays mounted and busy. *)
Definition always_busy_status (t : nat) (command : string) : Z :=
  if str_eqb command "umount /media/a" then 1 else 0.

(** The function list is being cleared: the rule of lines 218-223. *)
Definition clears (env : Env) (path text : string) : bool :=
  (str_eqb path (ANDROID0_FUNCTIONS env)
   && (str_eqb text EmptyString || str_eqb text "none"))%bool.

(** The value the tracker is given for a write: the text that is written,
    or the empty string when the function list is cleared. *)
Definition tracked_text (env : Env) (path text : string) : string :=
  if clears env path text then EmptyString else written_text env path text.

Definition is_warning_or_worse (e : event) : bool :=
  match e with
  | EvLog LOG_WARNING _ _ | EvLog LOG_ERR _ _ | EvLog LOG_CRIT _ _ => true
  | _ => false
  end.

(** The function list of an android kernel, as the comment of lines
    207-216 has it: the name of a function that does not exist is answered
    with EINVAL, and clears the list all the same. *)
Definition functions_store (pos : nat) (bytes data : string) : write_result :=
  if str_eqb bytes "none" then WriteError EINVAL EmptyString
  else Written (String.length bytes) bytes.

Definition einval_file : file :=
  {| f_data := "mtp" +:+ nl; f_open_rd := None; f_read_fails := false;
     f_open_wr := None; f_write := functions_store |}.

Definition refusing_functions : gmap string file :=
  <[functions_path := einval_file]> (<[enable_path := plain_file "0"]> ∅).

(** One mode does not sort after the other. *)
Definition name_le (a b : modedata) : Prop := modedata_sort_cb a b <= 0.

(** A mode directory with one good file between two bad ones and a
    second good file whose name sorts first. *)
Definition good_key_file (name : string) : GKeyFile :=
  key_file [(MODE_ENTRY, MODE_NAME_KEY, name);
            (MODE_ENTRY, MODE_MODULE_KEY, "none");
            (MODE_OPTIONS_ENTRY, MODE_SYSFS_VALUE, "mtp")]
           [].

Definition sample_conf : ConfEnv :=
  {| DIAG_DIR_PATH := "/etc/usb-moded/diag";
     MODE_DIR_PATH := "/etc/usb-moded/dyn-modes";
     CONNMAN_enabled := false;
     g_dir_names := fun dir =>
       if str_eqb dir "/etc/usb-moded/dyn-modes"
       then Some ["broken.ini"; "pc_suite.ini"; "host.ini"; "mtp.ini"]
       else None;
     g_key_file_load_from_file := fun file =>
       if str_eqb file "/etc/usb-moded/dyn-modes/pc_suite.ini"
       then Some (good_key_file "pc_suite")
       else if str_eqb file "/etc/usb-moded/dyn-modes/mtp.ini"
       then Some (good_key_file "mtp_mode")
       else if str_eqb file "/etc/usb-moded/dyn-modes/host.ini"
       then Some reset_without_path
       else None |}.

(** ** Kinds of events, and further scenarios *)

(** An error message, as [log_err] writes it. *)
Definition is_error_log (e : event) : bool :=
  match e with
  | EvLog LOG_ERR _ _ => true
  | _ => false
  end.

Definition is_error_signal (e : event) : bool :=
  match e with
  | EvErrorSignal _ => true
  | _ => false
  end.

(** The signal sent for one line of the lsof output: it names the first
    word of the line. *)
Definition blocked_by (text : string) : event :=
  EvErrorSignal (BlockedBy (g_strsplit2_first text)).

(** The world after a run of events has been recorded. *)
Definition emit_all (l : list event) (w : World) : World :=
  foldl (fun w e => emit_world e w) w l.

(** A mode file that names the function list and its value. *)
Definition mtp_key_file : GKeyFile :=
  key_file [(MODE_ENTRY, MODE_NAME_KEY, "mtp_mode");
            (MODE_ENTRY, MODE_MODULE_KEY, "none");
            (MODE_OPTIONS_ENTRY, MODE_SYSFS_PATH, functions_path);
            (MODE_OPTIONS_ENTRY, MODE_SYSFS_VALUE, "mtp");
            (MODE_OPTIONS_ENTRY, MODE_IDPRODUCT, "0A05")]
           [].

Definition is_mode_setting_failed (e : event) : bool :=
  match e with
  | EvErrorSignal MODE_SETTING_FAILED => true
  | _ => false
  end.

(** An unmount command handed to the shell. *)
Definition is_umount (e : event) : bool :=
  match e with
  | EvSystem command => String.prefix "umount " command
  | _ => false
  end.

Definition not_mode_setting_failed (e : event) : bool := negb (is_mode_setting_failed e).

Definition not_umount (e : event) : bool := negb (is_umount e).

(** What the sweep counts as a change worth a warning: the file can no
    longer be read, or what it holds differs from the expected text by
    more than the case of letters. *)
Definition drifted (text : string) (curr : option string) : bool :=
  match curr with
  | Some c => negb (g_ascii_strcasecmp_eq text c)
  | None => true
  end.

(** The table of tracked values is allocated after the run exactly if it
    was before. *)
Definition same_allocation (w w' : World) : Prop :=
  is_Some (tracked_values w') <-> is_Some (tracked_values w).

(** The calls that are not the engine's set-up and tear-down. *)
Definition keeps_table (c : engine_call) : bool :=
  match c with
  | Init | Quit => false
  | _ => true
  end.

(** ** The steps of the mass-storage enable sequence

    What the environment makes of the steps whose result the routine
    looks at. *)

(** Line 304. *)
Definition modprobe_command (env : Env) (mountpoints : Z) : string :=
  "modprobe " +:+ MODULE_MASS_STORAGE env +:+ " luns=" +:+ fmt_d mountpoints +:+ " " +:+ nl.

(** Lines 296-310: the exit status of the module reload, when one is made:
    mount points are configured, the mode uses a discrete module and the
    file attribute of the last logical unit cannot be read. *)
Definition module_reload_status (env : Env) (data : modedata) (w : World) : option Z :=
  match config_find_mounts env with
  | Some mount =>
      let mountpoints := Z.of_nat (length (g_strsplit mount ",")) in
      if streq (mode_module data) (MODULE_NONE env) then None
      else
        match open_rdonly w (lun_attr (mountpoints - 1) "file") with
        | inr _ => None
        | inl _ => Some (system_status env (clock w) (modprobe_command env mountpoints))
        end
  | None => None
  end.

(** Lines 317-321: the paths that are unmounted. *)
Definition mount_paths (env : Env) : list string :=
  match config_find_mounts env with
  | Some mount => List.map (fun m => default m (realpath env m)) (g_strsplit mount ",")
  | None => []
  end.

Definition no_unmount_error (e : event) : bool :=
  match e with
  | EvErrorSignal UMOUNT_ERROR => false
  | _ => true
  end.

(** A regular file, whatever the size of the slices the device takes:
    the bytes that a write takes replace what is at the position, and the
    rest of the file stays. *)
Definition overwrites_in_place (f : file) : Prop :=
  forall pos bytes data,
    exists more,
      f_write f pos bytes data =
        Written more
          (let n := Nat.min (S more) (String.length bytes) in
           String.substring 0 pos data +:+ String.substring 0 n bytes
           +:+ str_drop (pos + n) data).

(* ===================================================================== *)
(** * Running computations: general facts                                 *)
(* ===================================================================== *)

Section Keeps.

Context (R : World -> World -> Prop) `{!Pre R}.

Lemma keeps_ret {A} (a : A) : keeps R (ret a).
Proof. intros w. apply pre_refl. Qed.

Lemma keeps_bind {A B} (m : M A) (k : A -> M B) :
  keeps R m -> (forall a, keeps R (k a)) -> keeps R (bind m k).
Proof.
  intros Hm Hk w. unfold bind. specialize (Hm w).
  destruct (m w) as [a w1]. eapply pre_trans; [exact Hm | apply Hk].
Qed.

Lemma keeps_gets {A} (f : World -> A) : keeps R (gets f).
Proof. intros w. apply pre_refl. Qed.

Lemma keeps_when (b : bool) (m : M unit) : keeps R m -> keeps R (when b m).
Proof. intros Hm. destruct b; [exact Hm | apply keeps_ret]. Qed.

Lemma keeps_for_each {A} (l : list A) (body : A -> M unit) :
  (forall x, keeps R (body x)) -> keeps R (for_each l body).
Proof.
  intros Hb. induction l as [|x l IH]; simpl.
  - apply keeps_ret.
  - apply keeps_bind; [apply Hb | intros _; exact IH].
Qed.

Lemma keeps_for_each_from {A} (l : list A) (body : Z -> A -> M unit) :
  (forall i x, keeps R (body i x)) -> forall i, keeps R (for_each_from i l body).
Proof.
  intros Hb. induction l as [|x l IH]; intros i; simpl.
  - apply keeps_ret.
  - apply keeps_bind; [apply Hb | intros _; apply IH].
Qed.

Lemma keeps_modify (f : World -> World) : (forall w, R w (f w)) -> keeps R (modify f).
Proof. intros Hf w. apply Hf. Qed.

End Keeps.

Section KeepsTolerates.

Context (R : World -> World -> Prop) (ok : event -> bool) `{!Tolerates R ok}.

Lemma keeps_emit (e : event) : ok e = true -> keeps R (emit e).
Proof. intros He w. by apply tol_emit. Qed.

Lemma keeps_tick : keeps R tick.
Proof. intros w. apply tol_tick. Qed.

Lemma keeps_read_from_file (path : string) (maxsize : nat) :
  (forall e, is_log e = true -> ok e = true) ->
  keeps R (modesetting_read_from_file path maxsize).
Proof.
  intros Hlog w. unfold modesetting_read_from_file.
  destruct (open_rdonly w path) as [e|f].
  - destruct (negb (errno_eqb e ENOENT) && negb (errno_eqb e EACCES))%bool; simpl;
      [apply tol_emit; by apply Hlog | apply pre_refl].
  - destruct (f_read_fails f); simpl; [apply tol_emit; by apply Hlog | apply pre_refl].
Qed.

End KeepsTolerates.

#[global] Instance same_timers_frame : Tolerates same_timers any_event.
Proof. repeat split; try done; unfold same_timers in *; intros; intuition congruence. Qed.

#[global] Instance same_file_frame (p : string) : Tolerates (same_file p) any_event.
Proof. repeat split; try done; unfold same_file in *; intros; congruence. Qed.

#[global] Instance same_files_frame : Tolerates same_files any_event.
Proof. repeat split; try done; unfold same_files in *; intros; congruence. Qed.

#[global] Instance same_tracked_frame (p : string) : Tolerates (same_tracked p) any_event.
Proof. repeat split; try done; unfold same_tracked in *; intros; congruence. Qed.

#[global] Instance adds_tolerates (ok : event -> bool) : Tolerates (adds ok) ok.
Proof.
  split; [split|..].
  - intros w. exists []. by rewrite app_nil_r.
  - intros a b c [l1 [H1 F1]] [l2 [H2 F2]]. exists (l1 ++ l2). split.
    + by rewrite H2, H1, app_assoc.
    + by rewrite forallb_app, F1, F2.
  - intros e w He. exists [e]. simpl. by rewrite He.
  - intros w. exists []. simpl. by rewrite app_nil_r.
Qed.

Lemma adds_unchanged (ok : event -> bool) (f : World -> World) :
  (forall w, trace (f w) = trace w) -> keeps (adds ok) (modify f).
Proof. intros Hf w. exists []. simpl. by rewrite Hf, app_nil_r. Qed.

Lemma bind_run {A B} (m : M A) (k : A -> M B) (w : World) :
  bind m k w = k (m w).1 (m w).2.
Proof. unfold bind. by destruct (m w). Qed.

Lemma emitted_spec {A} (m : M A) (w : World) (l : list event) :
  trace (m w).2 = trace w ++ l -> emitted m w = l.
Proof. intros H. unfold emitted. rewrite H. by rewrite drop_app_length. Qed.

(* ===================================================================== *)
(** * The value tracker and the file primitives                           *)
(* ===================================================================== *)

Ltac cls :=
  match goal with
  | |- Pre _ => typeclasses eauto
  | |- Tolerates _ _ => typeclasses eauto
  end.

Ltac ok_event :=
  solve [ reflexivity
        | intros; reflexivity
        | match goal with H : forall e, _ -> ?ok e = true |- ?ok _ = true =>
            apply H; first [reflexivity | discriminate] end
        | auto ].

Ltac keeps_go :=
  repeat first
    [ apply keeps_ret; cls
    | apply keeps_gets; cls
    | eapply keeps_tick; cls
    | eapply keeps_emit; [cls.. | ok_event]
    | eapply keeps_read_from_file; [cls.. | ok_event]
    | apply keeps_when; [cls.. |]
    | apply keeps_bind; [cls.. | | intros ?]
    | apply keeps_for_each; [cls.. | intros ?]
    | apply keeps_for_each_from; [cls.. | intros ? ?]
    | progress cbv zeta
    | match goal with |- keeps _ (if ?b then _ else _) => destruct b end
    | match goal with |- keeps _ (match ?x with _ => _ end) => destruct x end ].

Lemma track_value_same_timers (path text : option string) :
  keeps same_timers (modesetting_track_value path text).
Proof.
  intros w. unfold modesetting_track_value.
  destruct (tracked_values w), path, text; simpl; by split.
Qed.


Lemma track_value_adds (ok : event -> bool) (path text : option string) :
  keeps (adds ok) (modesetting_track_value path text).
Proof.
  intros w. exists []. rewrite app_nil_r. split; [|done].
  unfold modesetting_track_value.
  by destruct (tracked_values w), path, text.
Qed.


(** C8, as amended.  [modesetting_track_value] always returns, touches
    nothing but the table, and leaves even that alone when the table is
    not allocated or the path is the null pointer; for every other path,
    the empty string included, the entry for the path becomes the given
    text (present: inserted or replaced; null: removed) and no other entry
    changes. *)
Theorem track_value_contract (path text : option string) (w : World) :
  let w' := (modesetting_track_value path text w).2 in
  files w' = files w /\ trace w' = trace w /\
  sources w' = sources w /\ delayed_network w' = delayed_network w /\
  match tracked_values w, path with
  | Some tv, Some p =>
      exists tv', tracked_values w' = Some tv' /\
                  tv' !! p = text /\
                  forall q, q <> p -> tv' !! q = tv !! q
  | _, _ => w' = w
  end.
Proof.
  unfold modesetting_track_value.
  destruct (tracked_values w) as [tv|] eqn:E, path as [p|]; simpl;
    try (rewrite ?E; by repeat split).
  destruct text as [t|]; simpl; repeat split; eexists; (split; [reflexivity|]); split.
  - apply lookup_insert_eq.
  - intros q Hq. by apply lookup_insert_ne.
  - apply lookup_delete_eq.
  - intros q Hq. by apply lookup_delete_ne.
Qed.

(** C8, as stated, at the empty path: the empty string is not the null
    pointer; the call records the text under it, and a later call with a
    null text removes the entry again. *)
Lemma track_value_empty_path_is_a_key :
  let w := boot_world ∅ in
  let w1 := (modesetting_track_value (Some EmptyString) (Some "1") w).2 in
  let w2 := (modesetting_track_value (Some EmptyString) None w1).2 in
  (tracked_values w = Some ∅) /\
  (tracked w EmptyString = None) /\
  (tracked w1 EmptyString = Some "1") /\
  (tracked_values w1 = Some (<[EmptyString := "1"]> ∅)) /\
  (tracked w2 EmptyString = None).
Proof. vm_compute. by repeat split. Qed.

(** The write loop keeps what a change of the file at the path and the
    messages keep. *)
Lemma keeps_write_loop (R : World -> World -> Prop) (ok : event -> bool)
    `{!Tolerates R ok} (path : string) (clear : bool) :
  (forall lvl fmt a b, ok (EvLog lvl fmt [a; b]) = true) ->
  (forall g, keeps R (modify (put_file path g))) ->
  forall fuel f pos text, keeps R (write_loop fuel path clear f pos text).
Proof.
  intros Hlog Hput. induction fuel as [|fuel IH]; intros f pos text; cbn [write_loop].
  - apply keeps_ret; cls.
  - destruct (Nat.ltb 0 (String.length text)); [|apply keeps_ret; cls].
    destruct (f_write f pos text (f_data f)) as [e data | more data].
    + apply keeps_bind; [cls | apply Hput | intros _].
      apply keeps_bind; [cls | | intros _; apply keeps_ret; cls].
      unfold log_debug, log_warning.
      destruct (clear && errno_eqb e EINVAL)%bool;
        (eapply keeps_emit; [cls | apply Hlog]).
    + cbv zeta. apply keeps_bind; [cls | apply Hput | intros _; apply IH].
Qed.

Lemma keeps_write_all (R : World -> World -> Prop) (ok : event -> bool)
    `{!Tolerates R ok} (path text : string) (clear : bool) (f : file) :
  (forall lvl fmt a b, ok (EvLog lvl fmt [a; b]) = true) ->
  (forall g, keeps R (modify (put_file path g))) ->
  keeps R (write_all path text clear f).
Proof. intros Hlog Hput. by apply (keeps_write_loop R ok). Qed.

Section WriteToFile.

Variable env : Env.

Lemma write_to_file_same_timers (path text : option string) :
  keeps same_timers (modesetting_write_to_file_real env path text).
Proof.
  unfold modesetting_write_to_file_real.
  destruct text, path; keeps_go; try apply track_value_same_timers.
  apply (keeps_write_all same_timers any_event); [done|].
  intros g w. by split.
Qed.



Lemma write_to_file_adds (ok : event -> bool) (path text : option string) :
  (forall e, is_log e = true -> ok e = true) ->
  keeps (adds ok) (modesetting_write_to_file_real env path text).
Proof.
  intros Hok.
  unfold modesetting_write_to_file_real, log_debug, log_warning.
  destruct text, path as [q|]; keeps_go; try apply track_value_adds.
  apply (keeps_write_all (adds ok) ok); [intros; by apply Hok|].
  intros g. apply adds_unchanged. intros w; done.
Qed.

End WriteToFile.





(* ===================================================================== *)
(** * The bounded read                                                    *)
(* ===================================================================== *)


Section CollapseFacts.

Variable blank : ascii -> bool.
Hypothesis Hspace : blank " " = true.





End CollapseFacts.




Section SameBlanks.

Variables b1 b2 : ascii -> bool.
Variable ok : ascii -> bool.
Hypothesis Hagree : forall c, ok c = true -> b1 c = b2 c.
Hypothesis Hok_space : ok " " = true.





End SameBlanks.






(* ===================================================================== *)
(** * Loading mode descriptors                                            *)
(* ===================================================================== *)

Lemma nonzero_true (z : Z) : nonzero z = true <-> z <> 0.
Proof. unfold nonzero. destruct (Z.eqb_spec z 0); simpl; split; congruence. Qed.

Lemma is_Some_None_false {A} : ~ is_Some (@None A).
Proof. intros [? [=]]. Qed.

Lemma modedata_validate_spec (filename : string) (item : modedata) :
  let r := modedata_validate filename item in
  (~ descriptor_invariants item ->
     r.1 = None /\ exists fmt args, last r.2 = Some (EvLog LOG_ERR fmt args)) /\
  (descriptor_invariants item -> r.1 = Some item) /\
  (forall d, r.1 = Some d -> d = item /\ descriptor_invariants d).
Proof.
  unfold modedata_validate, descriptor_invariants.
  destruct item as [name module ? net ? ifname path value reset
                      ? ? ? ? ? ? ? ? ? ? ? ? ? ? ? ?].
  cbn [mode_name mode_module network network_interface sysfs_path sysfs_value
       sysfs_reset_value].
  pose proof (@is_Some_None_false string) as HN.
  assert (HS : forall x : string, is_Some (Some x)) by eauto.
  destruct name, module, ifname, path, value, reset, (nonzero net) eqn:Enet;
    try apply nonzero_true in Enet;
    try (apply not_true_iff_false in Enet; rewrite nonzero_true in Enet);
    cbn [andb orb negb];
    repeat (first [ rewrite bool_decide_eq_true_2 by (first [done | apply HS])
                  | rewrite bool_decide_eq_false_2 by (first [done | apply HN]) ]);
    cbn [andb orb negb fst snd app last].
  all: split; [| split].
  all: try (intros _; split; [reflexivity | by eexists _, _]).
  all: try solve [intros d [=]].
  all: try (intros (H1 & H2 & H3 & H4 & H5);
            solve [ done
                  | exfalso; apply HN;
                    first [ by apply H3 | apply H4; apply HS | apply H5; apply HS ] ]).
  all: try (intros d [= <-]; split; [reflexivity|]).
  all: try (intros Hn; exfalso; apply Hn).
  all: try reflexivity.
  all: repeat split; try apply HS; try (intros; apply HS); try (intros; exfalso; tauto).
Qed.

(** C7.  [modedata_load] yields a descriptor only if the fields read from
    the key file satisfy the descriptor invariants, and then yields exactly
    those fields; when an invariant is violated (no name or module, network
    without an interface, [sysfs_path] without [sysfs_value],
    [sysfs_reset_value] without [sysfs_path]) it yields null and its last
    message is an error.  A file that cannot be read yields null too. *)
Theorem modedata_load_validates (connman : bool) (filename : string) (kf : GKeyFile) :
  let item := modedata_fields connman kf in
  let r := modedata_load connman filename (Some kf) in
  (~ descriptor_invariants item ->
     r.1 = None /\ exists fmt args, last r.2 = Some (EvLog LOG_ERR fmt args)) /\
  (descriptor_invariants item -> r.1 = Some item) /\
  (forall d, r.1 = Some d -> d = item /\ descriptor_invariants d) /\
  (modedata_load connman filename None).1 = None.
Proof.
  cbv zeta. unfold modedata_load.
  destruct (modedata_validate_spec filename (modedata_fields connman kf))
    as (H1 & H2 & H3).
  split; [exact H1|]. split; [exact H2|]. split; [exact H3|]. reflexivity.
Qed.

Lemma modedata_load_validates_witness :
  (modedata_load false "developer_mode.ini" (Some network_without_interface)).1 = None /\
  (modedata_load false "host_mode.ini" (Some reset_without_path)).1 = None /\
  (modedata_load false "host_mode.ini" (Some path_without_value)).1 = None.
Proof.
  split; [|split].
  - destruct (modedata_load_validates false "developer_mode.ini" network_without_interface)
      as (H & _).
    apply H. intros (_ & _ & Hn & _). by destruct Hn as [? [=]].
  - destruct (modedata_load_validates false "host_mode.ini" reset_without_path)
      as (H & _).
    apply H. intros (_ & _ & _ & _ & Hn). destruct Hn as [? [=]]. by eexists.
  - destruct (modedata_load_validates false "host_mode.ini" path_without_value)
      as (H & _).
    apply H. intros (_ & _ & _ & Hn & _). destruct Hn as [? [=]]. by eexists.
Defined.

(* ===================================================================== *)
(** * The drift sweep                                                     *)
(* ===================================================================== *)

Lemma live_same_files (w w' : World) (p : string) :
  files w' = files w -> live w' p = live w p.
Proof.
  intros Hf. unfold live, modesetting_read_from_file, open_rdonly. rewrite Hf.
  destruct (files w !! p) as [f|]; [|done].
  destruct (f_open_rd f) as [e|].
  - by destruct (negb (errno_eqb e ENOENT) && negb (errno_eqb e EACCES))%bool.
  - by destruct (f_read_fails f).
Qed.

(** A read that yields a value logs nothing. *)
Lemma read_some_silent (p : string) (w : World) (t : string) :
  live w p = Some t -> modesetting_read_from_file p 4096 w = (Some t, w).
Proof.
  unfold live, modesetting_read_from_file.
  destruct (open_rdonly w p) as [e|f].
  - by destruct (negb (errno_eqb e ENOENT) && negb (errno_eqb e EACCES))%bool.
  - destruct (f_read_fails f); [done|]. simpl. by intros [= ->].
Qed.

Lemma read_result (p : string) (w : World) :
  (modesetting_read_from_file p 4096 w).1 = live w p /\
  same_files w (modesetting_read_from_file p 4096 w).2 /\
  tracked_values (modesetting_read_from_file p 4096 w).2 = tracked_values w.
Proof.
  unfold live, same_files, modesetting_read_from_file.
  destruct (open_rdonly w p) as [e|f].
  - by destruct (negb (errno_eqb e ENOENT) && negb (errno_eqb e EACCES))%bool.
  - by destruct (f_read_fails f).
Qed.

Lemma str_eqb_refl (a : string) : str_eqb a a = true.
Proof. unfold str_eqb. by apply bool_decide_eq_true_2. Qed.

Lemma g_strcmp0_eq_spec (a b : option string) : g_strcmp0_eq a b = true <-> a = b.
Proof.
  unfold g_strcmp0_eq, str_eqb. destruct a, b; try (split; congruence).
  rewrite bool_decide_eq_true. split; congruence.
Qed.

Lemma keeps_verify_pairs (R : World -> World -> Prop) `{!Pre R}
    (pairs : list (string * string)) :
  (forall kv, keeps R (verify_entry kv)) -> keeps R (verify_pairs pairs).
Proof.
  intros H. induction pairs as [|kv rest IH]; cbn [verify_pairs]; [by apply keeps_ret|].
  apply keeps_bind; [done | apply H |]. intros [|]; [by apply keeps_ret | exact IH].
Qed.

Lemma contains_spec (p : string) (w : World) :
  g_hash_table_contains p w = bool_decide (is_Some (tracked w p)).
Proof.
  unfold g_hash_table_contains, tracked. destruct (tracked_values w); [done|].
  symmetry. apply bool_decide_eq_false_2, is_Some_None_false.
Qed.

(** One turn of the loop: the files stay, and the entry of the path is what
    a read yields now; the pair is removed exactly when the read yields
    nothing. *)
Lemma verify_entry_step (p t : string) (w : World) (tv : gmap string string) :
  tracked_values w = Some tv -> tv !! p = Some t ->
  let r := verify_entry (p, t) w in
  files r.2 = files w /\
  r.1 = negb (bool_decide (is_Some (live w p))) /\
  exists tv', tracked_values r.2 = Some tv' /\
              tv' !! p = live w p /\
              forall q, q <> p -> tv' !! q = tv !! q.
Proof.
  intros Htv Hp. unfold verify_entry. cbn [fst snd]. unfold bind.
  destruct (read_result p w) as (Hr & Hf & Ht).
  destruct (modesetting_read_from_file p 4096 w) as [curr w0]. simpl in Hr, Hf, Ht.
  subst curr. unfold same_files in Hf. rewrite Htv in Ht.
  destruct (g_strcmp0_eq (Some t) (live w p)) eqn:Ecmp; cbn [negb].
  - apply g_strcmp0_eq_spec in Ecmp. simpl. split; [done|]. rewrite <- Ecmp.
    split; [by rewrite bool_decide_eq_true_2 by eauto|].
    exists tv. by repeat split.
  - destruct (live w p) as [c|] eqn:El; [destruct (g_ascii_strcasecmp_eq t c)|];
      unfold log_debug, log_warning, emit, modify, gets, modesetting_track_value,
        g_hash_table_contains;
      cbn [emit_world tracked_values fst snd]; rewrite Ht;
      cbn [fst snd files tracked_values set_tracked emit_world ret];
      rewrite Hp;
      (split; [done|]); (split; [by rewrite ?(bool_decide_eq_true_2 (is_Some (Some t)))
                                       by eauto|]);
      eexists; (split; [done|]); split.
    all: first [ apply lookup_insert_eq | apply lookup_delete_eq
               | intros q Hq; by apply lookup_insert_ne
               | intros q Hq; by apply lookup_delete_ne ].
Qed.

(** As long as the files can be read the loop visits every pair. *)
Lemma verify_loop (l : list (string * string)) :
  forall (w : World) (tv : gmap string string),
    tracked_values w = Some tv ->
    NoDup l.*1 ->
    (forall p t, (p, t) ∈ l -> tv !! p = Some t) ->
    (forall p t, (p, t) ∈ l -> is_Some (live w p)) ->
    let w' := (verify_pairs l w).2 in
    files w' = files w /\
    exists tv', tracked_values w' = Some tv' /\
                forall q, tv' !! q = if decide (q ∈ l.*1) then live w q else tv !! q.
Proof.
  induction l as [|[p t] l IH]; intros w tv Htv Hnd Hin Hlive.
  - simpl. split; [done|]. exists tv. split; [done|]. intros q.
    destruct (decide (q ∈ [])) as [H|_]; [by apply elem_of_nil in H | done].
  - cbn [verify_pairs fmap list_fmap fst] in *. rewrite bind_run.
    apply NoDup_cons in Hnd as [Hp Hnd].
    destruct (verify_entry_step p t w tv Htv) as (Hf1 & Hr1 & tv1 & Htv1 & Hp1 & Hq1).
    { apply Hin. by left. }
    assert (Hlp : is_Some (live w p)) by (apply (Hlive p t); by left).
    rewrite Hr1, (bool_decide_eq_true_2 (is_Some (live w p)) Hlp). cbn [negb].
    set (w1 := (verify_entry (p, t) w).2) in *.
    destruct (IH w1 tv1 Htv1 Hnd) as (Hf2 & tv2 & Htv2 & Hq2).
    { intros q u Hqu. rewrite Hq1.
      - apply Hin. by right.
      - intros ->. apply Hp. by apply (list_elem_of_fmap_2 fst) in Hqu. }
    { intros q u Hqu. rewrite (live_same_files w w1) by done. eapply Hlive. by right. }
    split; [congruence|]. exists tv2. split; [done|]. intros q. rewrite Hq2.
    rewrite (live_same_files w w1) by done.
    destruct (decide (q ∈ l.*1)) as [Hq|Hq].
    + rewrite decide_True; [done | by right].
    + destruct (decide (q = p)) as [->|Hne].
      * rewrite decide_True by (by left). done.
      * rewrite decide_False; [by apply Hq1|].
        intros [?|?]%elem_of_cons; contradiction.
Qed.

(** Where the tracker agrees with the files, the loop does nothing. *)
Lemma verify_loop_noop (l : list (string * string)) (w : World) :
  tracker_agrees w ->
  (forall p t, (p, t) ∈ l -> tracked w p = Some t) ->
  verify_pairs l w = (tt, w).
Proof.
  intros Hag. induction l as [|[p t] l IH]; intros Hin; [done|].
  cbn [verify_pairs]. unfold verify_entry at 1. cbn [fst snd]. unfold bind.
  rewrite (read_some_silent p w t) by (apply Hag, Hin; by left).
  cbn [g_strcmp0_eq]. rewrite str_eqb_refl. cbn [negb ret].
  apply IH. intros q u Hqu. apply Hin. by right.
Qed.

(** A pair whose file cannot be read is removed, and with that the loop is
    over: the pairs after it are not looked at. *)
Lemma verify_pairs_stops (kv : string * string) (rest : list (string * string))
    (w : World) :
  g_hash_table_contains kv.1 w = true -> live w kv.1 = None ->
  verify_pairs (kv :: rest) w = (tt, (verify_entry kv w).2).
Proof.
  intros Hc Hl. cbn [verify_pairs]. rewrite bind_run.
  assert (Hr : (verify_entry kv w).1 = true); [|by rewrite Hr].
  unfold verify_entry. cbv zeta. rewrite bind_run.
  destruct (read_result kv.1 w) as (Hr & _ & Ht). rewrite Hr, Hl.
  cbn [g_strcmp0_eq negb]. rewrite !bind_run. cbn [gets ret fst snd].
  unfold g_hash_table_contains in *. unfold log_warning. cbn [emit modify snd emit_world tracked_values].
  rewrite Ht, Hc. by rewrite bool_decide_eq_false_2 by apply is_Some_None_false.
Qed.

Lemma track_value_same_files (path text : option string) :
  keeps same_files (modesetting_track_value path text).
Proof.
  intros w. unfold same_files, modesetting_track_value.
  by destruct (tracked_values w), path, text.
Qed.

Lemma verify_values_same_files : keeps same_files modesetting_verify_values.
Proof.
  unfold modesetting_verify_values.
  apply keeps_bind; [cls | apply keeps_gets; cls | intros [m|]; [|apply keeps_ret; cls]].
  apply keeps_verify_pairs; [cls|]. intros kv.
  unfold verify_entry, log_debug, log_warning. keeps_go.
  all: apply track_value_same_files.
Qed.

(** C6.  Where every tracked file can be read, the sweep does what is
    claimed: afterwards every tracked entry holds what a read of its path
    yields and no entry is invented, so a second sweep right after the
    first changes nothing and logs nothing.  No sweep touches a file.  But
    a tracked file that cannot be read ends the sweep: its pair is removed
    while the iterator is in use, and the pairs after it are not looked
    at.  With two tracked attributes gone, the first sweep warns about one
    of them and removes it; the second sweep finds the other, warns and
    changes the table again. *)
Theorem verify_values_stops_at_removal :
  (forall w,
     let w1 := (modesetting_verify_values w).2 in
     ((forall p t, tracked w p = Some t -> is_Some (live w p)) ->
      (forall p expected, tracked w p = Some expected -> tracked w1 p = live w p) /\
      (forall p, tracked w p = None -> tracked w1 p = None) /\
      modesetting_verify_values w1 = (tt, w1)) /\
     files w1 = files w) /\
  (forall kv rest w,
     g_hash_table_contains kv.1 w = true -> live w kv.1 = None ->
     verify_pairs (kv :: rest) w = (tt, (verify_entry kv w).2)) /\
  (let w1 := (modesetting_verify_values two_missing_world).2 in
   let w2 := (modesetting_verify_values w1).2 in
   count_if is_warning_or_worse (emitted modesetting_verify_values two_missing_world)
   = 1%nat /\
   (tracked w1 "/sys/a" = None /\ tracked w1 "/sys/b" = Some "1" \/
    tracked w1 "/sys/a" = Some "1" /\ tracked w1 "/sys/b" = None) /\
   count_if is_warning_or_worse (emitted modesetting_verify_values w1) = 1%nat /\
   tracked_values w2 = Some ∅).
Proof.
  split; [|split].
  - intros w. cbv zeta. split; [|apply verify_values_same_files].
    intros Hreadable.
    unfold modesetting_verify_values. rewrite bind_run. cbn [gets fst snd].
    destruct (tracked_values w) as [tv|] eqn:Htv.
    2: { cbn [ret snd]. unfold tracked. rewrite Htv. split; [done|]. split; [done|].
         rewrite bind_run. cbn [gets fst snd]. by rewrite Htv. }
    destruct (verify_loop (map_to_list tv) w tv Htv) as (Hf & tv' & Htv' & Hq).
    { apply NoDup_fst_map_to_list. }
    { intros p t. by rewrite elem_of_map_to_list. }
    { intros p t Hin. apply (Hreadable p t). unfold tracked. rewrite Htv.
      by apply elem_of_map_to_list. }
    assert (Hdom : forall q, q ∈ (map_to_list tv).*1 <-> is_Some (tv !! q)).
    { intros q. rewrite list_elem_of_fmap. split.
      - intros ([q' t] & -> & Hin). apply elem_of_map_to_list in Hin. eauto.
      - intros [t Ht]. exists (q, t). split; [done|]. by apply elem_of_map_to_list. }
    set (w1 := (verify_pairs (map_to_list tv) w).2) in *.
    assert (Hlook : forall q, tracked w1 q
                              = if decide (is_Some (tv !! q)) then live w q else None).
    { intros q. unfold tracked. rewrite Htv', Hq.
      destruct (decide (q ∈ (map_to_list tv).*1)) as [Hin|Hin].
      - rewrite decide_True; [done | by apply Hdom].
      - assert (Hn : ~ is_Some (tv !! q)) by (by rewrite <- Hdom).
        rewrite decide_False by done. by apply eq_None_not_Some. }
    split; [|split].
    + intros p e. unfold tracked at 1. rewrite Htv. intros Hp.
      rewrite Hlook, decide_True; eauto.
    + intros p. unfold tracked at 1. rewrite Htv. intros Hp.
      rewrite Hlook, decide_False; [done|]. rewrite Hp. apply is_Some_None_false.
    + rewrite bind_run. cbn [gets fst snd]. rewrite Htv'. apply verify_loop_noop.
      * intros q t. rewrite Hlook. rewrite (live_same_files w w1) by done.
        by destruct (decide (is_Some (tv !! q))).
      * intros p t Hin. apply elem_of_map_to_list in Hin.
        unfold tracked. by rewrite Htv'.
  - apply verify_pairs_stops.
  - cbv zeta. split; [reflexivity|]. split; [|split; reflexivity].
    vm_compute. first [left; split; reflexivity | right; split; reflexivity].
Qed.

Lemma verify_values_stops_at_removal_witness :
  let w1 := (modesetting_verify_values drifted_world).2 in
  tracked w1 "/sys/idProduct" = Some "0a02" /\
  tracked w1 functions_path = Some "rndis,adb" /\
  modesetting_verify_values w1 = (tt, w1).
Proof.
  destruct verify_values_stops_at_removal as (H & _ & _).
  destruct (H drifted_world) as (H0 & _).
  destruct H0 as (H1 & _ & H4).
  { intros p t. unfold tracked, drifted_world. cbn [tracked_values].
    intros Hp. apply lookup_insert_Some in Hp as [[<- _] | [_ Hp]]; [by eexists|].
    apply lookup_insert_Some in Hp as [[<- _] | [_ Hp]]; [by eexists | done]. }
  split; [|split].
  - apply (H1 "/sys/idProduct" "0A02"). reflexivity.
  - apply (H1 functions_path "mtp"). reflexivity.
  - exact H4.
Defined.

(* ===================================================================== *)
(** * What the engine's routines leave alone                              *)
(* ===================================================================== *)

Ltac ok_log :=
  let e := fresh "e" in
  let He := fresh "He" in
  intros e He; destruct e; try discriminate He;
  match goal with
  | H : forall e, _ -> ?ok e = true |- ?ok _ = true => apply H; discriminate
  | _ => reflexivity
  end.

Ltac keeps_with tac :=
  repeat first
    [ assumption
    | tac
    | match goal with H : forall p t, keeps _ (write_to_file _ p t) |- _ => apply H end
    | apply keeps_ret; cls
    | apply keeps_gets; cls
    | eapply keeps_tick; cls
    | eapply keeps_emit; [cls.. | first [ok_event | assumption]]
    | eapply keeps_read_from_file; [cls.. | ok_log]
    | apply keeps_when; [cls.. |]
    | apply keeps_bind; [cls.. | | intros ?]
    | apply keeps_for_each; [cls.. | intros ?]
    | apply keeps_for_each_from; [cls.. | intros ? ?]
    | progress cbv zeta
    | match goal with |- keeps _ (if ?b then _ else _) => destruct b end
    | match goal with |- keeps _ (match ?x with _ => _ end) => destruct x end ].

Ltac keeps_more := keeps_with fail.

Section EngineKeeps.

Context (env : Env) (R : World -> World -> Prop) (ok : event -> bool) `{!Tolerates R ok}.

(** Every event but the data-in-use signal is fine, and so are file writes. *)
Hypothesis Hok : forall e, e <> EvStateSignal DATA_IN_USE -> ok e = true.
Hypothesis Hwrite : forall p t, keeps R (write_to_file env p t).

Lemma keeps_system (command : string) : keeps R (usbmoded_system env command).
Proof. unfold usbmoded_system. keeps_more. Qed.

Lemma keeps_call (c : extcall) : keeps R (call c).
Proof. unfold call. keeps_more. Qed.

Lemma keeps_report_blocker (mountpoint : string) (attempt : Z) :
  keeps R (modesetting_report_mass_storage_blocker env mountpoint attempt).
Proof.
  unfold modesetting_report_mass_storage_blocker, log_err, umdbus_send_error_signal.
  keeps_more.
Qed.

Lemma keeps_check_luns (mountpoints : Z) : keeps R (check_luns env mountpoints).
Proof.
  unfold check_luns, access_R_OK, log_debug. keeps_more;
    first [apply keeps_call | apply keeps_system].
Qed.

Lemma keeps_umount_mountpoint (retries_left : nat) (mount mountpath : string) :
  keeps R (umount_mountpoint env retries_left mount mountpath).
Proof.
  induction retries_left as [|n IH]; cbn [umount_mountpoint];
    unfold log_debug, log_err, usbmoded_sleep, umdbus_send_error_signal;
    keeps_more; first [apply keeps_system | apply keeps_report_blocker].
Qed.

Lemma keeps_umount_all (mounts : list string) (mount : string) :
  forall (retries_left : nat) (r : Z),
    keeps R (umount_all env mounts mount retries_left r).
Proof.
  induction mounts as [|m rest IH]; intros retries_left r; cbn [umount_all].
  - keeps_more.
  - apply keeps_bind; [cls | apply keeps_umount_mountpoint |].
    intros [r' | [r' left']]; [keeps_more | apply IH].
Qed.

Lemma keeps_activate_lun (data : modedata) (fua : Z) (mount : string) (i : Z) (m : string) :
  keeps R (activate_lun env data fua mount i m).
Proof.
  unfold activate_lun, log_debug. keeps_more; apply keeps_system.
Qed.

Lemma keeps_remount_lun (data : option modedata) (i : Z) (m : string) (mount : option string) :
  keeps R (remount_lun env data i m mount).
Proof.
  unfold remount_lun, log_debug, log_err, umdbus_send_error_signal.
  keeps_more; apply keeps_system.
Qed.

Lemma keeps_remount_all (data : option modedata) (mounts : list string) :
  forall (i : Z) (mount : option string) (r : Z),
    keeps R (remount_all env data i mounts mount r).
Proof.
  induction mounts as [|m rest IH]; intros i mount r; cbn [remount_all].
  - keeps_more.
  - apply keeps_bind; [cls | apply keeps_remount_lun | intros st; apply IH].
Qed.

Lemma keeps_unset_mass_storage (data : option modedata) :
  keeps R (modesetting_unset_mass_storage_mode env data).
Proof.
  unfold modesetting_unset_mass_storage_mode.
  destruct (config_find_mounts env); [apply keeps_remount_all | keeps_more].
Qed.

Lemma keeps_network_up (data : modedata) : keeps R (network_up env data).
Proof. unfold network_up. keeps_more. Qed.

Lemma keeps_backend_set (data : modedata) : keeps R (backend_set env data).
Proof.
  unfold backend_set, configfs_set, android_set, configfs_set_udc, log_crit.
  keeps_more; apply keeps_call.
Qed.

Lemma keeps_backend_unset (data : modedata) : keeps R (backend_unset env data).
Proof.
  unfold backend_unset, android_unset, log_crit.
  keeps_more; apply keeps_call.
Qed.

Lemma keeps_restart_network (data : modedata) : keeps R (restart_network env data).
Proof.
  unfold restart_network, network_down.
  keeps_more; first [apply keeps_system | apply keeps_call | apply keeps_network_up].
Qed.

Lemma keeps_prepare_mass_storage (data : modedata) :
  keeps R (prepare_mass_storage env data).
Proof.
  unfold prepare_mass_storage, umdbus_send_state_signal.
  keeps_with ltac:(first [ apply keeps_check_luns | apply keeps_umount_all ]).
Qed.

(** Lines 356-379: programming the logical units. *)
Lemma keeps_activate_luns (data : modedata) (mount : string) :
  keeps R (usbmoded_sleep 1 ;;
           for_each_from 0 (g_strsplit mount ",")
             (activate_lun env data (config_find_sync env) mount)).
Proof.
  unfold usbmoded_sleep. keeps_with ltac:(apply keeps_activate_lun).
Qed.

Hypothesis Hdiu : ok (EvStateSignal DATA_IN_USE) = true.

Lemma keeps_set_mass_storage (data : modedata) :
  keeps R (modesetting_set_mass_storage_mode env data).
Proof.
  unfold modesetting_set_mass_storage_mode, finish_mass_storage,
    umdbus_send_state_signal.
  keeps_with ltac:(first [ apply keeps_prepare_mass_storage | apply keeps_activate_luns ]).
Qed.

End EngineKeeps.

(* ===================================================================== *)
(** * The pending network retry                                           *)
(* ===================================================================== *)

#[global] Instance timer_step_tolerates : Tolerates timer_step any_event.
Proof.
  split; [split|..]; unfold timer_step.
  - auto.
  - auto.
  - intros e w _ H. exact H.
  - intros w H. exact H.
Qed.

Lemma same_timers_timer_inv (w w' : World) :
  same_timers w w' -> timer_inv w -> timer_inv w'.
Proof. unfold same_timers, timer_inv. intros [-> ->]. done. Qed.

Lemma keeps_timer_step {A} (m : M A) : keeps same_timers m -> keeps timer_step m.
Proof. intros H w. unfold timer_step. apply same_timers_timer_inv, H. Qed.

Lemma timer_inv_length (w : World) : timer_inv w -> (length (sources w) <= 1)%nat.
Proof.
  unfold timer_inv. destruct (N.eqb (delayed_network w) 0).
  - intros ->. simpl. lia.
  - intros [d ->]. simpl. lia.
Qed.

Lemma filter_other_source (id : N) (data : modedata) :
  filter (fun s : N * modedata => s.1 <> id) [(id, data)] = [].
Proof. cbn. rewrite decide_False; [done|]. simpl. tauto. Qed.

(** Cancelling the source that the handle names leaves no source. *)
Lemma cancel_pending (w : World) :
  timer_inv w -> delayed_network w <> 0%N ->
  sources (g_source_remove (delayed_network w) w).2 = [].
Proof.
  unfold timer_inv. intros Hinv Hne.
  apply N.eqb_neq in Hne. rewrite Hne in Hinv. destruct Hinv as [d Hd].
  unfold g_source_remove, bind, modify, emit. cbn. rewrite Hd.
  apply filter_other_source.
Qed.

Lemma g_source_remove_fields (id : N) (w : World) :
  delayed_network (g_source_remove id w).2 = delayed_network w /\
  next_source (g_source_remove id w).2 = next_source w.
Proof. done. Qed.

(** Lines 589-595: whatever was pending, afterwards exactly the new source
    is, and the handle names it. *)
Lemma schedule_network_retry_spec (data : modedata) (w : World) :
  timer_inv w ->
  let w' := (schedule_network_retry data w).2 in
  delayed_network w' <> 0%N /\ sources w' = [(delayed_network w', data)].
Proof.
  intros Hinv. unfold timer_inv in Hinv.
  unfold schedule_network_retry, log_debug, bind, emit, modify, gets,
    g_source_remove, g_timeout_add_seconds.
  cbn -[filter]. destruct (N.eqb (delayed_network w) 0) eqn:E; cbn -[filter].
  - rewrite Hinv. split; [lia | done].
  - destruct Hinv as [d ->]. rewrite filter_other_source. split; [lia | done].
Qed.

Lemma schedule_network_retry_step (data : modedata) :
  keeps timer_step (schedule_network_retry data).
Proof.
  intros w Hinv. destruct (schedule_network_retry_spec data w Hinv) as [Hne Hs].
  unfold timer_inv. apply N.eqb_neq in Hne. rewrite Hne. eauto.
Qed.

(** Lines 626-630: afterwards nothing is pending. *)
Lemma cancel_network_retry_spec (w : World) :
  timer_inv w ->
  let w' := (cancel_network_retry w).2 in
  delayed_network w' = 0%N /\ sources w' = [].
Proof.
  intros Hinv. unfold timer_inv in Hinv.
  unfold cancel_network_retry, bind, gets, g_source_remove, modify, emit.
  cbn -[filter]. destruct (N.eqb (delayed_network w) 0) eqn:E; cbn -[filter].
  - apply N.eqb_eq in E. done.
  - destruct Hinv as [d ->]. by rewrite filter_other_source.
Qed.

Section TimerKeeps.

Variable env : Env.

Lemma write_to_file_timer_step (p t : option string) :
  keeps timer_step (write_to_file env p t).
Proof. apply keeps_timer_step, write_to_file_same_timers. Qed.

Lemma verify_values_same_timers : keeps same_timers modesetting_verify_values.
Proof.
  unfold modesetting_verify_values.
  apply keeps_bind; [cls | apply keeps_gets; cls | intros [m|]; [|apply keeps_ret; cls]].
  apply keeps_verify_pairs; [cls|]. intros kv.
  unfold verify_entry, log_debug, log_warning.
  keeps_with ltac:(apply track_value_same_timers).
Qed.

Lemma unset_rest_same_timers (data : modedata) :
  keeps same_timers
    (if streq (mode_name data) (MODE_MASS_STORAGE env) then
       modesetting_unset_mass_storage_mode env (Some data) ;; ret tt
     else
       (match connman_tethering data with
        | Some service => when (CONNMAN env) (call (Connman_set_tethering service false))
        | None => ret tt
        end) ;;
       when (nonzero (network data)) (network_down data) ;;
       backend_unset env data).
Proof.
  unfold network_down, call.
  keeps_with ltac:(first
    [ eapply keeps_unset_mass_storage; first [cls | done | apply write_to_file_same_timers]
    | eapply keeps_backend_unset; first [cls | done | apply write_to_file_same_timers] ]).
Qed.

(** Deactivation: nothing is pending afterwards. *)
Lemma unset_dynamic_mode_spec (w : World) :
  timer_inv w ->
  let w' := (modesetting_unset_dynamic_mode env w).2 in
  delayed_network w' = 0%N /\ sources w' = [].
Proof.
  intros Hinv. unfold modesetting_unset_dynamic_mode.
  destruct (cancel_network_retry_spec w Hinv) as [Hc1 Hc2].
  rewrite bind_run. set (w1 := (cancel_network_retry w).2) in *.
  destruct (usbmoded_get_usb_mode_data env) as [data|]; [|by split].
  destruct (unset_rest_same_timers data w1) as [Hs Hd].
  split; congruence.
Qed.

Lemma unset_dynamic_mode_step : keeps timer_step (modesetting_unset_dynamic_mode env).
Proof.
  intros w Hinv. destruct (unset_dynamic_mode_spec w Hinv) as [Hd Hs].
  unfold timer_inv. by rewrite Hd, Hs.
Qed.

Lemma set_dynamic_mode_step : keeps timer_step (modesetting_set_dynamic_mode env).
Proof.
  unfold modesetting_set_dynamic_mode, appsync_activate_sync, call, log_debug,
    usbmoded_msleep, umdbus_send_error_signal.
  keeps_with ltac:(first
    [ apply schedule_network_retry_step
    | eapply keeps_set_mass_storage; first [cls | done | apply write_to_file_timer_step]
    | eapply keeps_backend_set; first [cls | done | apply write_to_file_timer_step]
    | eapply keeps_restart_network; first [cls | done | apply write_to_file_timer_step] ]).
Qed.

Lemma cleanup_step (module : option string) :
  keeps timer_step (modesetting_cleanup env module).
Proof.
  unfold modesetting_cleanup, call, log_debug, log_warning.
  keeps_with ltac:(first
    [ apply unset_dynamic_mode_step
    | eapply keeps_unset_mass_storage; first [cls | done | apply write_to_file_timer_step] ]).
Qed.

Lemma dispatch_timeout_step (id : N) : keeps timer_step (dispatch_timeout env id).
Proof.
  intros w Hinv. unfold dispatch_timeout. unfold bind at 1. cbn [gets].
  unfold timer_inv in Hinv.
  destruct (N.eqb (delayed_network w) 0) eqn:E.
  - rewrite Hinv. cbn. unfold timer_inv. by rewrite E, Hinv.
  - destruct Hinv as [d Hd]. rewrite Hd. cbn [List.find fst].
    destruct (N.eqb (delayed_network w) id) eqn:Eid.
    + apply N.eqb_eq in Eid. subst id.
      unfold modesetting_network_retry, network_up, call, bind, modify, emit, tick.
      cbn. rewrite Hd, filter_other_source. done.
    + cbn. unfold timer_inv. rewrite E. eauto.
Qed.

End TimerKeeps.

Lemma run_call_step (c : engine_call) (w : World) : timer_step w (run_call c w).
Proof.
  destruct c as [env|env|env module|env id| | |]; cbn [run_call].
  - apply set_dynamic_mode_step.
  - apply unset_dynamic_mode_step.
  - apply cleanup_step.
  - apply dispatch_timeout_step.
  - apply keeps_timer_step, verify_values_same_timers.
  - unfold modesetting_init, bind, gets, modify.
    destruct (tracked_values w); intros H; exact H.
  - unfold modesetting_quit, bind, gets, modify.
    destruct (tracked_values w); intros H; exact H.
Qed.

Lemma run_calls_inv (cs : list engine_call) :
  forall w, timer_inv w -> timer_inv (run_calls cs w).
Proof.
  induction cs as [|c cs IH]; intros w Hinv; [exact Hinv|].
  cbn [run_calls foldl]. apply IH. by apply run_call_step.
Qed.

(** C5.  Starting with nothing pending, after any sequence of
    activations, deactivations, clean-ups, sweeps and timer dispatches at
    most one timeout source is pending, and it is the one the handle
    [delayed_network] names.  Scheduling a retry twice in a row leaves
    exactly the second one pending, and deactivation leaves none. *)
Theorem one_pending_network_retry (cs : list engine_call) (w : World)
    (Hinv : timer_inv w) :
  (timer_inv (run_calls cs w) /\ (length (sources (run_calls cs w)) <= 1)%nat) /\
  (forall d1 d2,
     let w2 := (schedule_network_retry d2 (schedule_network_retry d1 (run_calls cs w)).2).2 in
     delayed_network w2 <> 0%N /\ sources w2 = [(delayed_network w2, d2)]) /\
  (forall env,
     let w' := (modesetting_unset_dynamic_mode env (run_calls cs w)).2 in
     delayed_network w' = 0%N /\ sources w' = []).
Proof.
  pose proof (run_calls_inv cs w Hinv) as H.
  split; [split; [exact H | by apply timer_inv_length]|]. split.
  - intros d1 d2. apply schedule_network_retry_spec.
    by apply schedule_network_retry_step.
  - intros env. by apply unset_dynamic_mode_spec.
Qed.

Lemma one_pending_network_retry_witness :
  let w := run_calls [Init; Activate rndis_env; Activate rndis_env;
                      TimeoutFires rndis_env 1; Activate rndis_env]
                     (boot_world android_files) in
  (timer_inv w /\ (length (sources w) <= 1)%nat) /\
  sources w = [(3%N, rndis_mode)] /\
  sources (modesetting_unset_dynamic_mode rndis_env w).2 = [].
Proof.
  destruct (one_pending_network_retry
              [Init; Activate rndis_env; Activate rndis_env;
               TimeoutFires rndis_env 1; Activate rndis_env]
              (boot_world android_files)) as (H1 & _ & H3).
  - reflexivity.
  - split; [exact H1|]. split; [vm_compute; reflexivity|].
    apply (H3 rndis_env).
Defined.

(* ===================================================================== *)
(** * The android backend's set routine                                   *)
(* ===================================================================== *)

(** The [if] of line 544 is the only place where the android branch
    assigns [ret] before the device is enabled again. *)
Lemma android_set_without_extra (env : Env) (data : modedata) (w : World) :
  android_extra_sysfs_value data = None -> (android_set env data w).1 = 1.
Proof.
  intros Hextra. unfold android_set. rewrite Hextra.
  repeat (rewrite bind_run; cbn [ret fst snd]).
  reflexivity.
Qed.

(** C1 (the code at two inputs).  On a device where every write succeeds, a
    mode without the first extra attribute has its function list written
    and still fails: the set routine returns 1, leaves the gadget
    soft-disconnected and signals the failure.  On a device where the
    attribute of the primary path is missing, so that the primary write
    fails, a mode with the extra attribute succeeds.  In general the set
    routine fails for every mode without the extra attribute. *)
Theorem android_set_not_gated_by_primary_write :
  (let e := android_env (Some mtp_mode) None in
   let w := boot_world android_files in
   let r := modesetting_set_dynamic_mode e w in
   r.1 = 1 /\
   f_data <$> files r.2 !! functions_path = Some "mtp" /\
   f_data <$> files r.2 !! enable_path = Some "0" /\
   last (trace r.2) = Some (EvErrorSignal MODE_SETTING_FAILED)) /\
  (let e := android_env (Some rndis_mode) None in
   let w := boot_world android_files_without_functions in
   let r := modesetting_set_dynamic_mode e w in
   (write_to_file e (sysfs_path rndis_mode) (sysfs_value rndis_mode) w).1 = -1 /\
   r.1 = 0 /\
   f_data <$> files r.2 !! enable_path = Some "1") /\
  (forall env data w,
     android_extra_sysfs_value data = None -> (android_set env data w).1 = 1).
Proof.
  split; [|split].
  - vm_compute. by repeat split.
  - vm_compute. by repeat split.
  - apply android_set_without_extra.
Qed.

(* ===================================================================== *)
(** * The android backend's unset routine                                 *)
(* ===================================================================== *)

Lemma gadget_actions_quiet (evs : list event) :
  forallb no_action evs = true -> gadget_actions evs = [].
Proof.
  induction evs as [|e evs IH]; [done|]. cbn [forallb gadget_actions flat_map].
  intros [He Hevs]%andb_true_iff. unfold no_action in He.
  destruct (action_of e); [by apply IH | done].
Qed.

Lemma acts_quiet (w w' : World) : adds no_action w w' -> acts [] w w'.
Proof. intros (evs & Ht & Hq). exists evs. split; [done | by apply gadget_actions_quiet]. Qed.

Lemma acts_app (l1 l2 : list gadget_action) (a b c : World) :
  acts l1 a b -> acts l2 b c -> acts (l1 ++ l2) a c.
Proof.
  intros (e1 & H1 & A1) (e2 & H2 & A2). exists (e1 ++ e2). split.
  - by rewrite H2, H1, app_assoc.
  - unfold gadget_actions in *. by rewrite flat_map_app, A1, A2.
Qed.

Lemma acts_bind {A B} (l1 l2 : list gadget_action) (m : M A) (k : A -> M B) (w : World) :
  acts l1 w (m w).2 ->
  acts l2 (m w).2 (k (m w).1 (m w).2).2 ->
  acts (l1 ++ l2) w (bind m k w).2.
Proof. rewrite bind_run. apply acts_app. Qed.

Lemma acts_emitted {A} (m : M A) (l : list gadget_action) (w : World) :
  acts l w (m w).2 -> gadget_actions (emitted m w) = l.
Proof. intros (evs & Ht & Ha). by rewrite (emitted_spec m w evs). Qed.

Lemma keeps_run (R : World -> World -> Prop) {A} (m : M A) (w : World) :
  keeps R m -> R w (m w).2.
Proof. intros H. apply H. Qed.

Lemma read_from_file_quiet (path : string) (maxsize : nat) :
  keeps (adds no_action) (modesetting_read_from_file path maxsize).
Proof.
  intros w. unfold modesetting_read_from_file.
  destruct (open_rdonly w path) as [e|f].
  - destruct (negb (errno_eqb e ENOENT) && negb (errno_eqb e EACCES))%bool; simpl.
    + by eexists [_].
    + exists []. by rewrite app_nil_r.
  - destruct (f_read_fails f); simpl.
    + by eexists [_].
    + exists []. by rewrite app_nil_r.
Qed.

(** One call of [write_to_file] is one attempt, or none. *)
Lemma write_to_file_acts (env : Env) (path text : option string) (w : World) :
  acts (attempt env path text) w (write_to_file env path text w).2.
Proof.
  unfold write_to_file, modesetting_write_to_file_real, attempt.
  destruct text as [t|], path as [p|];
    try (apply acts_quiet; apply pre_refl).
  cbv zeta. fold (written_text env p t).
  apply (acts_bind [] [_]); [apply acts_quiet, (keeps_run (adds no_action)), read_from_file_quiet|].
  apply (acts_bind [] [_]).
  { apply acts_quiet, (keeps_run (adds no_action)). apply keeps_when; [cls|]. apply track_value_adds. }
  apply (acts_bind [_] []).
  { eexists [_]. split; reflexivity. }
  apply acts_quiet, (keeps_run (adds no_action)). unfold log_warning.
  apply keeps_bind; [cls | apply keeps_gets; cls | intros [e|f]; [keeps_go|]].
  apply (keeps_write_all (adds no_action) no_action); [by intros []|].
  intros g. apply adds_unchanged. done.
Qed.

Lemma set_vendorid_acts (id : option string) (w : World) :
  acts [SetVendorId id] w (call (Android_set_vendorid id) w).2.
Proof. eexists [_]. by split. Qed.


(* ===================================================================== *)
(** * Enabling mass storage                                               *)
(* ===================================================================== *)

Lemma usbmoded_system_run (env : Env) (command : string) (w : World) :
  usbmoded_system env command w
  = (system_status env (clock w) command, emit_world (EvSystem command) (tick_world w)).
Proof. reflexivity. Qed.

Lemma nonzero_false (z : Z) : nonzero z = false <-> z = 0.
Proof. unfold nonzero. destruct (Z.eqb_spec z 0); simpl; split; congruence. Qed.

Section MassStorage.

Variable env : Env.

(** An unmount either bails out with a non-zero code or leaves [ret] at 0. *)
Lemma umount_mountpoint_result (mount mountpath : string) (n : nat) :
  forall w,
    match (umount_mountpoint env n mount mountpath w).1 with
    | inl e => e <> 0
    | inr (r, _) => r = 0
    end.
Proof.
  induction n as [|n IH]; intros w; cbn [umount_mountpoint];
    rewrite bind_run; cbv beta;
    (destruct (_ =? 0); [|done]);
    rewrite bind_run; cbv beta; rewrite bind_run; cbv beta;
    (destruct (nonzero _) eqn:Enz; [| by apply nonzero_false in Enz]).
  - repeat (rewrite bind_run; cbv beta). cbn [ret fst]. by apply nonzero_true.
  - repeat (rewrite bind_run; cbv beta). apply IH.
Qed.

Lemma umount_all_result (mount : string) (mounts : list string) :
  forall (n : nat) (w : World),
    match (umount_all env mounts mount n 0 w).1 with
    | inl e => e <> 0
    | inr r => r = 0
    end.
Proof.
  induction mounts as [|m rest IH]; intros n w; cbn [umount_all]; [done|].
  rewrite bind_run; cbv beta.
  pose proof (umount_mountpoint_result mount (default m (realpath env m)) n w) as H.
  destruct (umount_mountpoint env n mount (default m (realpath env m)) w).1
    as [e | [r n']]; [done|].
  subst r. apply IH.
Qed.

Lemma prepare_mass_storage_result (data : modedata) (w : World) :
  match (prepare_mass_storage env data w).1 with
  | inl e => e <> 0
  | inr (_, r) => r = 0
  end.
Proof.
  unfold prepare_mass_storage. rewrite bind_run; cbv beta.
  destruct (config_find_mounts env) as [mount|]; [|done].
  cbv zeta. rewrite bind_run; cbv beta.
  destruct (nonzero _) eqn:Enz; [by apply nonzero_true in Enz|].
  apply nonzero_false in Enz. rewrite Enz.
  rewrite bind_run; cbv beta.
  match goal with
  | |- context [umount_all env ?ms ?m ?n 0 ?w0] =>
      pose proof (umount_all_result m ms n w0) as H
  end.
  by destruct (umount_all env _ mount 3 0 _).1.
Qed.

Lemma not_data_in_use_ok (e : event) :
  e <> EvStateSignal DATA_IN_USE -> not_data_in_use e = true.
Proof. by destruct e as [| [] | | | | | | | |]. Qed.

Lemma write_to_file_quiet (p t : option string) :
  keeps (adds not_data_in_use) (write_to_file env p t).
Proof. apply write_to_file_adds. by intros []. Qed.

Lemma quiet_not_in (w w' : World) :
  adds not_data_in_use w w' ->
  exists evs, trace w' = trace w ++ evs /\ ~ In (EvStateSignal DATA_IN_USE) evs.
Proof.
  intros (evs & Ht & Hq). exists evs. split; [done|]. intros Hin.
  rewrite forallb_forall in Hq. by apply Hq in Hin.
Qed.

End MassStorage.

(** C2, as stated, on a device whose kernel offers no backing-file
    attribute for the mass-storage function: the mount point is unmounted,
    the write of the backing file fails, the gadget is enabled without
    sharing anything, and the routine still returns 0 and emits the
    data-in-use signal. *)
Lemma mass_storage_enable_ignores_programming :
  let w := boot_world android_files in
  let r := modesetting_set_dynamic_mode one_mount_env w in
  (write_to_file one_mount_env (Some android_lun_file) (Some "/media/a") w).1 = -1 /\
  r.1 = 0 /\
  trace r.2 =
    [EvStateSignal USB_PRE_UNMOUNT;
     EvSystem "mount | grep /media/a";
     EvLog LOG_DEBUG "unmount command = %s\n" ["umount /media/a"];
     EvSystem "umount /media/a";
     EvSleep 1;
     EvLog LOG_DEBUG write_fmt [enable_path; "0"; "0"];
     EvLog LOG_DEBUG write_fmt [functions_path; "none"; "mass_storage"];
     EvLog LOG_DEBUG write_fmt [android_lun_file; "???"; "/media/a"];
     EvLog LOG_WARNING "open(%s): %m" [android_lun_file; "ENOENT"];
     EvLog LOG_DEBUG write_fmt [enable_path; "0"; "1"];
     EvStateSignal DATA_IN_USE] /\
  files r.2 !! android_lun_file = None.
Proof. vm_compute. by repeat split. Qed.

(* ===================================================================== *)
(** * The unmount retries                                                 *)
(* ===================================================================== *)

Lemma count_if_app (f : event -> bool) (a b : list event) :
  count_if f (a ++ b) = (count_if f a + count_if f b)%nat.
Proof. unfold count_if. by rewrite List.filter_app, length_app. Qed.

Lemma count_if_none (f : event -> bool) (l : list event) :
  forallb (fun e => negb (f e)) l = true -> count_if f l = 0%nat.
Proof.
  unfold count_if. induction l as [|e l IH]; [done|]. cbn [forallb List.filter].
  intros [He Hl]%andb_true_iff. apply negb_true_iff in He. rewrite He. by apply IH.
Qed.

Lemma no_system_no_attempts (mountpath : string) (l : list event) :
  forallb not_system l = true -> umount_attempts mountpath l = 0%nat.
Proof.
  intros H. apply count_if_none. rewrite forallb_forall in *.
  intros e He. specialize (H e He). by destruct e.
Qed.

Lemma grep_is_no_umount (mountpath : string) :
  str_eqb (g_strconcat "mount | grep " mountpath) (g_strconcat "umount " mountpath) = false.
Proof. unfold str_eqb. by apply bool_decide_eq_false_2. Qed.

Lemma report_blocker_no_system (env : Env) (mountpoint : string) (attempt : Z) :
  keeps (adds not_system) (modesetting_report_mass_storage_blocker env mountpoint attempt).
Proof.
  unfold modesetting_report_mass_storage_blocker, log_err, umdbus_send_error_signal.
  keeps_go.
Qed.

Section Umount.

Variable env : Env.
Variables mount mountpath : string.

(** The mount point is mounted whenever it is looked at, and unmounting it
    fails whenever it is tried. *)
Hypothesis Hmounted :
  forall t, system_status env t (g_strconcat "mount | grep " mountpath) = 0.
Hypothesis Hbusy :
  forall t, system_status env t (g_strconcat "umount " mountpath) <> 0.

(** With [n] retries left the unmount is attempted [n + 1] times; then the
    routine signals the unmount error and makes the function return a
    non-zero code.  A fresh counter has 3 retries left: 4 attempts. *)
Lemma umount_mountpoint_gives_up (n : nat) :
  forall w,
    let r := umount_mountpoint env n mount mountpath w in
    (exists e, r.1 = inl e /\ e <> 0) /\ gave_up mountpath (S n) w r.2.
Proof.
  induction n as [|n IH]; intros w; cbv zeta; cbn [umount_mountpoint];
    rewrite bind_run, usbmoded_system_run; cbv beta; cbn [fst snd];
    rewrite Hmounted; cbn [Z.eqb];
    rewrite bind_run; cbv beta; rewrite bind_run, usbmoded_system_run; cbv beta;
    cbn [fst snd];
    match goal with
    | |- context [nonzero (system_status env ?t ?c)] =>
        pose proof (Hbusy t) as Hr; set (code := system_status env t c) in *;
        apply nonzero_true in Hr as Hnz; rewrite Hnz
    end.
  - repeat (rewrite bind_run; cbv beta). cbn [ret fst snd].
    split; [by exists code|].
    match goal with
    | |- context [modesetting_report_mass_storage_blocker env mount 2 ?x] =>
        destruct (report_blocker_no_system env mount 2 x) as (evs & Ht & Hq);
        set (w1 := (modesetting_report_mass_storage_blocker env mount 2 x).2) in *
    end.
    eexists ([_; _; _; _] ++ evs ++ [_]). split; [|split].
    + cbn. rewrite Ht. cbn. by rewrite <- !app_assoc.
    + unfold umount_attempts. rewrite !count_if_app.
      fold (umount_attempts mountpath evs). rewrite no_system_no_attempts by done.
      unfold count_if. cbn [List.filter is_system].
      by rewrite grep_is_no_umount, str_eqb_refl.
    + by rewrite !last_app.
  - repeat (rewrite bind_run; cbv beta).
    match goal with
    | |- context [modesetting_report_mass_storage_blocker env mount 1 ?x] =>
        destruct (report_blocker_no_system env mount 1 x) as (evs & Ht & Hq);
        set (w1 := (modesetting_report_mass_storage_blocker env mount 1 x).2) in *
    end.
    destruct (IH w1) as (He & evs' & Ht' & Hc' & Hl').
    split; [exact He|].
    eexists ([_; _; _; _; _] ++ evs ++ evs'). split; [|split].
    + rewrite Ht', Ht. cbn. by rewrite <- !app_assoc.
    + unfold umount_attempts in *. rewrite !count_if_app, Hc'.
      fold (umount_attempts mountpath evs). rewrite no_system_no_attempts by done.
      unfold count_if. cbn [List.filter is_system].
      by rewrite grep_is_no_umount, str_eqb_refl.
    + rewrite !last_app, Hl'. done.
Qed.

End Umount.

Lemma umount_mountpoint_gives_up_witness :
  forall w,
    gave_up "/media/a" 4 w
      (umount_mountpoint
         (with_system_status always_busy_status one_mount_env)
         3 "/media/a" "/media/a" w).2.
Proof.
  intros w.
  apply (umount_mountpoint_gives_up
           (with_system_status always_busy_status one_mount_env)
           "/media/a" "/media/a").
  - intros t. reflexivity.
  - intros t. discriminate.
Defined.

(** C4 (the code at one input).  Two mount points are configured, both
    mounted.  Unmounting the first fails once and then succeeds; the
    second stays mounted and its unmount fails every time.  The retry
    counter is not reset for the second mount point: it is unmounted 3
    times, not 4, before the routine signals the unmount error and
    returns failure. *)
Theorem umount_retry_budget_is_shared :
  let r := modesetting_set_dynamic_mode two_mounts_env (boot_world android_files) in
  (forall t, system_status two_mounts_env t "mount | grep /media/b" = 0) /\
  (forall t, system_status two_mounts_env t "umount /media/b" = 1) /\
  umount_attempts "/media/a" (trace r.2) = 2%nat /\
  umount_attempts "/media/b" (trace r.2) = 3%nat /\
  r.1 = 1 /\
  last (trace r.2) = Some (EvErrorSignal UMOUNT_ERROR).
Proof.
  cbv zeta. split; [|split].
  - intros t. reflexivity.
  - intros t. reflexivity.
  - vm_compute. by repeat split.
Qed.

(* ===================================================================== *)
(** * The list of modes                                                   *)
(* ===================================================================== *)

Lemma ascii_compare_refl (a : ascii) : Ascii.compare a a = Eq.
Proof. unfold Ascii.compare. apply N.compare_refl. Qed.

Lemma string_compare_le_trans (x : string) :
  forall y z,
    String.compare x y <> Gt -> String.compare y z <> Gt -> String.compare x z <> Gt.
Proof.
  induction x as [|a x IH]; intros [|b y] [|c z]; simpl; try congruence.
  destruct (Ascii.compare a b) eqn:Eab; try congruence;
    destruct (Ascii.compare b c) eqn:Ebc; try congruence.
  - apply Ascii.compare_eq_iff in Eab, Ebc. subst. rewrite ascii_compare_refl. apply IH.
  - apply Ascii.compare_eq_iff in Eab. subst. rewrite Ebc. congruence.
  - apply Ascii.compare_eq_iff in Ebc. subst. rewrite Eab. congruence.
  - unfold Ascii.compare in *. rewrite N.compare_lt_iff in Eab, Ebc.
    assert (H : (N_of_ascii a ?= N_of_ascii c)%N = Lt) by (apply N.compare_lt_iff; lia).
    rewrite H. congruence.
Qed.

Lemma g_strcmp0_le_iff (a b : option string) :
  g_strcmp0 a b <= 0 <->
  match a, b with
  | None, _ => True
  | Some _, None => False
  | Some x, Some y => String.compare x y <> Gt
  end.
Proof.
  unfold g_strcmp0. destruct a as [x|], b as [y|]; try (split; intros; lia || done).
  destruct (String.compare x y); split; intros; lia || congruence.
Qed.

Lemma g_strcmp0_total (a b : option string) : g_strcmp0 a b <= 0 \/ g_strcmp0 b a <= 0.
Proof.
  rewrite !g_strcmp0_le_iff. destruct a as [x|], b as [y|]; try tauto.
  rewrite (String.compare_antisym x y). destruct (String.compare y x); simpl;
    [left | right | left]; congruence.
Qed.

Lemma name_le_trans (a b c : modedata) : name_le a b -> name_le b c -> name_le a c.
Proof.
  unfold name_le, modedata_sort_cb. rewrite !g_strcmp0_le_iff.
  destruct (mode_name a), (mode_name b), (mode_name c); try tauto.
  apply string_compare_le_trans.
Qed.

Section ListSort.

Context {A : Type} (compare_func : A -> A -> Z).

Let le (a b : A) : Prop := compare_func a b <= 0.

Hypothesis le_total : forall a b, le a b \/ le b a.

Lemma sorted_insert_perm (x : A) (l : list A) :
  Permutation (sorted_insert compare_func x l) (x :: l).
Proof.
  induction l as [|y r IH]; simpl; [done|].
  destruct (compare_func x y <=? 0); [done|].
  rewrite IH. apply perm_swap.
Qed.

Lemma g_list_sort_perm (l : list A) : Permutation (g_list_sort l compare_func) l.
Proof.
  unfold g_list_sort. induction l as [|x l IH]; simpl; [done|].
  by rewrite sorted_insert_perm, IH.
Qed.

Lemma sorted_insert_sorted (x : A) (l : list A) :
  Sorted.Sorted le l -> Sorted.Sorted le (sorted_insert compare_func x l).
Proof.
  induction 1 as [|y r Hs IH Hhd]; simpl; [by repeat constructor|].
  destruct (Z.leb_spec (compare_func x y) 0) as [Hle|Hgt].
  - constructor; [by constructor | by constructor].
  - constructor; [exact IH|].
    destruct r as [|z r]; simpl.
    + constructor. destruct (le_total x y) as [H|H]; [unfold le in H; lia | exact H].
    + destruct (compare_func x z <=? 0).
      * constructor. destruct (le_total x y) as [H|H]; [unfold le in H; lia | exact H].
      * constructor. by inversion Hhd.
Qed.

Lemma g_list_sort_sorted (l : list A) : Sorted.Sorted le (g_list_sort l compare_func).
Proof.
  unfold g_list_sort. induction l as [|x l IH]; simpl; [constructor|].
  by apply sorted_insert_sorted.
Qed.

End ListSort.

(** What the loop over the directory entries returns: the list so far, then
    the objects of the files that load, in directory order. *)
Lemma modelist_read_spec (cenv : ConfEnv) (dir : string) (names : list string) :
  forall modelist,
    (modelist_read cenv dir names modelist).1
    = modelist ++
      omap (fun dirname =>
              (modedata_load (CONNMAN_enabled cenv) (dir +:+ "/" +:+ dirname)
                 (g_key_file_load_from_file cenv (dir +:+ "/" +:+ dirname))).1)
           names.
Proof.
  induction names as [|dirname rest IH]; intros modelist; simpl.
  - by rewrite app_nil_r.
  - rewrite IH. destruct (modedata_load _ _ _).1; [by rewrite <- app_assoc | done].
Qed.

Lemma modedata_load_invariants (connman : bool) (filename : string)
    (settingsfile : option GKeyFile) (d : modedata) :
  (modedata_load connman filename settingsfile).1 = Some d -> descriptor_invariants d.
Proof.
  unfold modedata_load. destruct settingsfile as [kf|]; [|done].
  intros H.
  destruct (modedata_validate_spec filename (modedata_fields connman kf)) as (_ & _ & Hv).
  by destruct (Hv d H).
Qed.

(** X1.  The list of modes is sorted by name, bytewise, and every mode in it
    satisfies the descriptor invariants. *)
Theorem modelist_load_sorted_valid (cenv : ConfEnv) (diag : Z) :
  Sorted.StronglySorted name_le (modelist_load cenv diag).1 /\
  Forall descriptor_invariants (modelist_load cenv diag).1.
Proof.
  unfold modelist_load. cbv zeta. cbn [fst]. split.
  - apply Sorted.Sorted_StronglySorted.
    + intros a b c. apply name_le_trans.
    + apply g_list_sort_sorted. intros a b. apply g_strcmp0_total.
  - apply Forall_forall. intros d Hd. rewrite g_list_sort_perm in Hd.
    destruct (g_dir_names cenv _) as [names|]; [|by apply elem_of_nil in Hd].
    rewrite modelist_read_spec in Hd. cbn [app] in Hd.
    apply list_elem_of_omap in Hd. destruct Hd as (dirname & _ & Hload).
    by apply modedata_load_invariants in Hload.
Qed.

(** X2.  The list of modes holds exactly the objects of the directory entries
    that load, each as often as it occurs: a file that fails to load or to
    validate is skipped and takes no other file with it.  The directory is
    the diagnostic one exactly when [diag] is non-zero, and a directory
    that cannot be opened gives the empty list. *)
Theorem modelist_load_keeps_valid_files (cenv : ConfEnv) (diag : Z) :
  let dir := if nonzero diag then DIAG_DIR_PATH cenv else MODE_DIR_PATH cenv in
  match g_dir_names cenv dir with
  | Some names =>
      Permutation (modelist_load cenv diag).1
        (omap (fun dirname =>
                 (modedata_load (CONNMAN_enabled cenv) (dir +:+ "/" +:+ dirname)
                    (g_key_file_load_from_file cenv (dir +:+ "/" +:+ dirname))).1)
              names)
  | None => (modelist_load cenv diag).1 = []
  end.
Proof.
  cbv zeta. unfold modelist_load. cbv zeta. cbn [fst].
  destruct (g_dir_names cenv _) as [names|]; [|done].
  rewrite g_list_sort_perm, modelist_read_spec. done.
Qed.

Example modelist_load_sample :
  mode_name <$> (modelist_load sample_conf 0).1 = [Some "mtp_mode"; Some "pc_suite"].
Proof. reflexivity. Qed.

(* ===================================================================== *)
(** * More on the file primitives                                         *)
(* ===================================================================== *)

Lemma strip_from_cons (ph : strip_phase) (c : ascii) (r : string) :
  strip_from ph (String c r) =
    if is_nul c then EmptyString
    else if is_blank c then
      match ph with
      | Leading => strip_from Leading r
      | Copying | Skipping => strip_from Skipping r
      end
    else
      match ph with
      | Leading | Copying => String c (strip_from Copying r)
      | Skipping => String " " (String c (strip_from Copying r))
      end.
Proof. reflexivity. Qed.

Lemma strip_from_idempotent (s : string) :
  strip_from Leading (strip_from Leading s) = strip_from Leading s /\
  strip_from Copying (strip_from Copying s) = strip_from Copying s /\
  strip_from Copying (strip_from Skipping s) = strip_from Skipping s.
Proof.
  induction s as [|c r (IHl & IHc & IHs)]; [done|].
  rewrite !(strip_from_cons _ c r).
  destruct (is_nul c) eqn:Hn; [done|].
  destruct (is_blank c) eqn:Hb; [done|].
  rewrite !strip_from_cons, Hn, Hb.
  change (is_nul " ") with false. change (is_blank " ") with true. cbv iota.
  rewrite ?strip_from_cons, ?Hn, ?Hb. by rewrite IHc.
Qed.

(** X3.  Stripping twice is stripping once: what [modesetting_strip] returns is
    already stripped. *)
Theorem modesetting_strip_idempotent (s : string) :
  modesetting_strip (modesetting_strip s) = modesetting_strip s.
Proof. apply strip_from_idempotent. Qed.

(** The write loop returns 0 or -1. *)
Lemma write_loop_code (path : string) (clear : bool) :
  forall fuel f pos text w,
    (write_loop fuel path clear f pos text w).1 = 0 \/
    (write_loop fuel path clear f pos text w).1 = -1.
Proof.
  induction fuel as [|fuel IH]; intros f pos text w; cbn [write_loop]; [by left|].
  destruct (Nat.ltb 0 (String.length text)); [|by left].
  destruct (f_write f pos text (f_data f)) as [e data | more data].
  - right. rewrite !bind_run. done.
  - cbv zeta. rewrite bind_run. apply IH.
Qed.

(** It touches the file at the path only, and only what that file holds. *)
Lemma write_loop_files (path : string) (clear : bool) :
  forall fuel f pos text w,
    files (write_loop fuel path clear f pos text w).2 = files w \/
    exists data, files (write_loop fuel path clear f pos text w).2
                 = <[path := with_data data f]> (files w).
Proof.
  induction fuel as [|fuel IH]; intros f pos text w; cbn [write_loop]; [by left|].
  destruct (Nat.ltb 0 (String.length text)); [|by left].
  destruct (f_write f pos text (f_data f)) as [e data | more data].
  - right. exists data. rewrite !bind_run.
    by destruct (clear && errno_eqb e EINVAL)%bool.
  - cbv zeta. rewrite bind_run. cbn [modify fst snd]. right.
    destruct (IH (with_data data f) (pos + Nat.min (S more) (String.length text))%nat
                (str_drop (Nat.min (S more) (String.length text)) text)
                (put_file path (with_data data f) w)) as [-> | [data' ->]].
    + by exists data.
    + exists data'. unfold put_file. cbn [files set_files].
      rewrite insert_insert_eq. done.
Qed.

Lemma str_drop_length (n : nat) (s : string) :
  String.length (str_drop n s) = (String.length s - n)%nat.
Proof.
  revert s. induction n as [|n IH]; intros [|c r]; cbn [str_drop String.length]; try lia.
  rewrite IH. lia.
Qed.

(** Fuel beyond the length of the text is never used: the loop is done
    when the text is. *)
Lemma write_loop_fuel (path : string) (clear : bool) :
  forall fuel1 fuel2 f pos text w,
    (String.length text < fuel1)%nat -> (String.length text < fuel2)%nat ->
    write_loop fuel1 path clear f pos text w = write_loop fuel2 path clear f pos text w.
Proof.
  induction fuel1 as [|fuel1 IH]; intros fuel2 f pos text w H1 H2; [lia|].
  destruct fuel2 as [|fuel2]; [lia|]. cbn [write_loop].
  destruct (Nat.ltb 0 (String.length text)) eqn:Hpos; [|done].
  apply Nat.ltb_lt in Hpos.
  destruct (f_write f pos text (f_data f)) as [e data | more data]; [done|].
  cbv zeta. rewrite !bind_run.
  set (n := Nat.min (S more) (String.length text)).
  assert (Hn : (String.length (str_drop n text) < String.length text)%nat).
  { rewrite str_drop_length. subst n. lia. }
  apply IH; lia.
Qed.

(** Nothing is written for the empty text. *)
Lemma write_all_empty (path : string) (clear : bool) (f : file) (w : World) :
  write_all path EmptyString clear f w = (0, w).
Proof. reflexivity. Qed.

(** The kernel takes the text in one write. *)
Lemma write_all_whole (path text : string) (clear : bool) (f : file) (w : World)
    (more : nat) (data : string) :
  text <> EmptyString ->
  f_write f 0 text (f_data f) = Written more data ->
  (String.length text <= S more)%nat ->
  write_all path text clear f w = (0, put_file path (with_data data f) w).
Proof.
  intros Hne Hw Hlen. unfold write_all. cbn [write_loop].
  assert (Hpos : Nat.ltb 0 (String.length text) = true).
  { destruct text; [done | reflexivity]. }
  rewrite Hpos, Hw. cbv zeta. rewrite bind_run. cbn [modify fst snd].
  rewrite Nat.min_r by lia.
  assert (Hd : str_drop (String.length text) text = EmptyString).
  { clear. induction text as [|c r IH]; [done | exact IH]. }
  rewrite Hd. by destruct (String.length text).
Qed.

(** The kernel refuses the first write. *)
Lemma write_all_error (path text : string) (clear : bool) (f : file) (w : World)
    (e : errno) (data : string) :
  text <> EmptyString ->
  f_write f 0 text (f_data f) = WriteError e data ->
  write_all path text clear f w =
    (-1, emit_world
           (if (clear && errno_eqb e EINVAL)%bool
            then EvLog LOG_DEBUG "write(%s): %m (expected failure)" [path; errno_text e]
            else EvLog LOG_WARNING "write(%s): %m" [path; errno_text e])
           (put_file path (with_data data f) w)).
Proof.
  intros Hne Hw. unfold write_all. cbn [write_loop].
  assert (Hpos : Nat.ltb 0 (String.length text) = true).
  { destruct text; [done | reflexivity]. }
  rewrite Hpos, Hw. rewrite !bind_run.
  by destruct (clear && errno_eqb e EINVAL)%bool.
Qed.

Lemma write_loop_same_tracked (path : string) (clear : bool) :
  forall fuel f pos text w,
    tracked_values (write_loop fuel path clear f pos text w).2 = tracked_values w.
Proof.
  induction fuel as [|fuel IH]; intros f pos text w; cbn [write_loop]; [done|].
  destruct (Nat.ltb 0 (String.length text)); [|done].
  destruct (f_write f pos text (f_data f)) as [e data | more data].
  - rewrite !bind_run. by destruct (clear && errno_eqb e EINVAL)%bool.
  - cbv zeta. rewrite bind_run. by rewrite IH.
Qed.


Lemma append_cons (x : ascii) (a b : string) : String x a +:+ b = String x (a +:+ b).
Proof. reflexivity. Qed.

Lemma append_assoc (a b c : string) : (a +:+ b) +:+ c = a +:+ (b +:+ c).
Proof. induction a as [|x a IH]; [done|]. by rewrite !append_cons, IH. Qed.

Lemma append_length (a b : string) :
  String.length (a +:+ b) = (String.length a + String.length b)%nat.
Proof.
  induction a as [|x a IH]; [done|]. rewrite append_cons. cbn [String.length].
  by rewrite IH.
Qed.

Lemma substring_prefix (a b : string) :
  String.substring 0 (String.length a) (a +:+ b) = a.
Proof.
  induction a as [|x a IH]; [by destruct b|].
  rewrite append_cons. cbn [String.length String.substring]. by rewrite IH.
Qed.

Lemma str_drop_prefix (a b : string) (n : nat) :
  str_drop (String.length a + n) (a +:+ b) = str_drop n b.
Proof.
  induction a as [|x a IH]; [done|].
  rewrite append_cons. cbn [String.length Nat.add str_drop]. exact IH.
Qed.

Lemma substring_str_drop (n : nat) (t : string) :
  String.substring 0 n t +:+ str_drop n t = t.
Proof.
  revert t. induction n as [|n IH]; intros [|x t]; try done.
  cbn [String.substring str_drop]. by rewrite append_cons, IH.
Qed.

Lemma str_drop_str_drop (a b : nat) (s : string) :
  str_drop a (str_drop b s) = str_drop (b + a) s.
Proof.
  revert s. induction b as [|b IH]; intros s; [done|].
  destruct s as [|x s]; [by destruct a|]. cbn [str_drop Nat.add]. apply IH.
Qed.

Lemma substring_length (n : nat) (t : string) :
  (n <= String.length t)%nat -> String.length (String.substring 0 n t) = n.
Proof.
  revert t. induction n as [|n IH]; intros [|x t]; cbn [String.length String.substring];
    try done; try lia.
  intros H. rewrite IH; lia.
Qed.

(** The write loop on a regular file: what has been written stays, the
    text follows it, and what the file held beyond the text stays too,
    whatever the slices. *)
Lemma write_loop_in_place (path : string) (clear : bool) :
  forall fuel f pos text w written rest,
    overwrites_in_place f ->
    (String.length text < fuel)%nat ->
    files w !! path = Some f ->
    f_data f = written +:+ rest -> String.length written = pos ->
    let r := write_loop fuel path clear f pos text w in
    r.1 = 0 /\
    exists data,
      files r.2 = <[path := with_data data f]> (files w) /\
      data = written +:+ text +:+ str_drop (String.length text) rest.
Proof.
  induction fuel as [|fuel IH]; intros f pos text w written rest Hip Hfuel Hfile Hdata Hpos;
    [lia|].
  cbv zeta. cbn [write_loop].
  assert (Hsame : with_data (f_data f) f = f) by (by destruct f).
  destruct (Nat.ltb 0 (String.length text)) eqn:Hlen.
  2: { apply Nat.ltb_ge in Hlen. destruct text; [|cbn in Hlen; lia].
       cbn [ret fst snd]. split; [done|]. exists (f_data f). split.
       - rewrite Hsame. symmetry. by apply insert_id.
       - by rewrite Hdata. }
  apply Nat.ltb_lt in Hlen.
  destruct (Hip pos text (f_data f)) as [more Hw]. rewrite Hw. cbv zeta.
  set (n := Nat.min (S more) (String.length text)) in *.
  set (data := String.substring 0 pos (f_data f) +:+ String.substring 0 n text
               +:+ str_drop (pos + n) (f_data f)) in *.
  assert (Hn : (n <= String.length text)%nat) by (subst n; lia).
  assert (Hdata' : data = (written +:+ String.substring 0 n text) +:+ str_drop n rest).
  { subst data. rewrite Hdata, <- Hpos, substring_prefix, str_drop_prefix.
    by rewrite append_assoc. }
  rewrite bind_run. cbn [modify fst snd].
  destruct (IH (with_data data f) (pos + n)%nat (str_drop n text)
              (put_file path (with_data data f) w)
              (written +:+ String.substring 0 n text) (str_drop n rest))
    as (Hr & data' & Hfiles & Hd').
  - intros p b d. apply (Hip p b d).
  - rewrite str_drop_length. subst n. lia.
  - unfold put_file. cbn [files set_files]. apply lookup_insert_eq.
  - exact Hdata'.
  - rewrite append_length, substring_length by done. lia.
  - split; [exact Hr|]. exists data'. split.
    + rewrite Hfiles. unfold put_file. cbn [files set_files].
      by rewrite insert_insert_eq.
    + rewrite Hd', str_drop_length, str_drop_str_drop, append_assoc.
      rewrite <- (append_assoc (String.substring 0 n text)), substring_str_drop.
      do 2 f_equal. f_equal. lia.
Qed.

Lemma substring_all (s : string) : String.substring 0 (String.length s) s = s.
Proof.
  induction s as [|x s IH]; [done|]. cbn [String.length String.substring]. by rewrite IH.
Qed.

Lemma substring_min (k : nat) (s : string) :
  String.substring 0 (Nat.min k (String.length s)) s = String.substring 0 k s.
Proof.
  revert s. induction k as [|k IH]; intros [|x s]; try done.
  cbn [String.length Nat.min String.substring]. by rewrite IH.
Qed.

(** The two regular files of the scenarios are overwritten in place. *)
Lemma regular_file_in_place (data : string) : overwrites_in_place (regular_file data).
Proof.
  intros pos bytes d. exists (String.length bytes). cbn [regular_file f_write in_place].
  cbv zeta. rewrite Nat.min_r by lia. by rewrite substring_all.
Qed.

Lemma in_place_by_two_in_place (f : file) :
  f_write f = in_place_by_two -> overwrites_in_place f.
Proof.
  intros Hw pos bytes d. exists 1%nat. rewrite Hw. unfold in_place_by_two.
  cbv zeta. by rewrite substring_min.
Qed.

Section WriteEffect.

Variable env : Env.
Variables path text : string.

(** Before the file is opened for writing only the tracker and the trace
    have changed. *)
Lemma write_to_file_unfold (w : World) :
  exists w3,
    files w3 = files w /\
    sources w3 = sources w /\ delayed_network w3 = delayed_network w /\
    tracked_values w3 =
      match live w path, tracked_values w with
      | Some _, Some tv => Some (<[path := tracked_text env path text]> tv)
      | _, tv => tv
      end /\
    write_to_file env (Some path) (Some text) w =
      match open_wronly w path with
      | inl e =>
          (-1, emit_world (EvLog LOG_WARNING "open(%s): %m" [path; errno_text e]) w3)
      | inr f =>
          write_all path (written_text env path text) (clears env path text) f w3
      end.
Proof.
  unfold write_to_file, modesetting_write_to_file_real. cbv zeta.
  unfold live. rewrite bind_run.
  destruct (read_result path w) as (_ & Hf1 & Ht1). unfold same_files in Hf1.
  assert (Hs1 : sources (modesetting_read_from_file path 4096 w).2 = sources w /\
                delayed_network (modesetting_read_from_file path 4096 w).2
                = delayed_network w).
  { destruct (keeps_read_from_file same_timers any_event path 4096
                (fun _ _ => eq_refl) w) as [? ?]. by split. }
  set (prev := (modesetting_read_from_file path 4096 w).1) in *.
  set (w1 := (modesetting_read_from_file path 4096 w).2) in *.
  rewrite bind_run.
  set (w2 := (when _ _ w1).2).
  assert (H2 : files w2 = files w /\ sources w2 = sources w /\
               delayed_network w2 = delayed_network w /\
               tracked_values w2 =
                 match prev, tracked_values w with
                 | Some _, Some tv => Some (<[path := tracked_text env path text]> tv)
                 | _, tv => tv
                 end).
  { subst w2. unfold tracked_text, written_text, clears.
    destruct Hs1 as [Hs1 Hd1]. destruct prev as [c|].
    - rewrite bool_decide_eq_true_2 by eauto. cbn [when].
      unfold modesetting_track_value. rewrite Ht1.
      destruct (tracked_values w); cbn; by rewrite ?Hf1, ?Hs1, ?Hd1, ?Ht1.
    - rewrite bool_decide_eq_false_2 by apply is_Some_None_false. cbn [when ret snd].
      by rewrite Hf1, Ht1. }
  clearbody w2. destruct H2 as (Hf2 & Hs2 & Hd2 & Ht2).
  rewrite bind_run. unfold log_debug at 1. cbn [emit modify fst snd].
  match goal with |- context [emit_world ?e w2] => exists (emit_world e w2) end.
  repeat split; try done.
  rewrite bind_run. cbn [gets fst snd]. unfold open_wronly.
  cbn [files emit_world]. rewrite Hf2.
  destruct (files w !! path) as [f|]; [destruct (f_open_wr f)|]; reflexivity.
Qed.


(** X4.  What a write does to the files.  The result is 0 or -1.  No file
    is created or removed, and no file but the one at the path changes.
    A file that is missing or cannot be opened for writing gives -1 and
    leaves the files as they are; the empty text gives 0 and writes
    nothing.  Otherwise the file is offered the whole text at position 0
    (the token none when the function list is cleared), and what it holds
    afterwards is the kernel's answer: when the kernel takes the text in
    one write the result is 0, when it refuses the write the result is -1,
    and in both cases the file holds what the kernel made of the bytes.
    The file is not truncated and the loop offers what is left of the text
    at the position it has reached: a regular file holds the text followed
    by what it held beyond the length of the text, in however many slices
    the device takes the bytes. *)
Theorem write_to_file_result (w : World) :
  let r := write_to_file env (Some path) (Some text) w in
  let t := written_text env path text in
  (r.1 = 0 \/ r.1 = -1) /\
  (forall q, q <> path -> files r.2 !! q = files w !! q) /\
  (is_Some (files r.2 !! path) <-> is_Some (files w !! path)) /\
  match files w !! path with
  | None => r.1 = -1 /\ files r.2 = files w
  | Some f =>
      match f_open_wr f with
      | Some _ => r.1 = -1 /\ files r.2 = files w
      | None =>
          (t = EmptyString -> r.1 = 0 /\ files r.2 = files w) /\
          (forall more data,
             t <> EmptyString ->
             f_write f 0 t (f_data f) = Written more data ->
             (String.length t <= S more)%nat ->
             r.1 = 0 /\ files r.2 = <[path := with_data data f]> (files w)) /\
          (forall e data,
             t <> EmptyString ->
             f_write f 0 t (f_data f) = WriteError e data ->
             r.1 = -1 /\ files r.2 = <[path := with_data data f]> (files w)) /\
          (overwrites_in_place f ->
           r.1 = 0 /\
           files r.2 =
             <[path := with_data (t +:+ str_drop (String.length t) (f_data f)) f]>
               (files w))
      end
  end.
Proof.
  cbv zeta. destruct (write_to_file_unfold w) as (w3 & Hf & _ & _ & _ & ->).
  unfold open_wronly.
  destruct (files w !! path) as [f|] eqn:Efile.
  2: { cbn [fst snd files emit_world]. rewrite Hf, Efile. by repeat split; auto. }
  destruct (f_open_wr f) as [e|] eqn:Eopen.
  { cbn [fst snd files emit_world]. rewrite Hf, Efile. by repeat split; auto. }
  set (t := written_text env path text).
  set (c := clears env path text).
  split; [apply write_loop_code|].
  assert (Hfiles : files (write_all path t c f w3).2 = files w \/
                   exists data, files (write_all path t c f w3).2
                                = <[path := with_data data f]> (files w)).
  { rewrite <- Hf. apply write_loop_files. }
  split; [|split; [|split; [|split; [|split]]]].
  - intros q Hq. destruct Hfiles as [-> | [data ->]]; [done|].
    by apply lookup_insert_ne.
  - destruct Hfiles as [-> | [data ->]]; [done|].
    rewrite lookup_insert_eq. split; eauto.
  - intros ->. rewrite write_all_empty. cbn [fst snd]. by rewrite Hf.
  - intros more data Hne Hw Hlen.
    rewrite (write_all_whole path t c f w3 more data Hne Hw Hlen).
    unfold put_file. cbn [fst snd files set_files]. by rewrite Hf.
  - intros e data Hne Hw.
    rewrite (write_all_error path t c f w3 e data Hne Hw).
    unfold put_file. cbn [fst snd files set_files emit_world]. by rewrite Hf.
  - intros Hip.
    destruct (write_loop_in_place path c (S (String.length t)) f 0%nat t w3
                EmptyString (f_data f) Hip) as (Hr & data & Hd & ->);
      [lia | by rewrite Hf | done | done |].
    split; [exact Hr|]. unfold write_all. by rewrite Hd, Hf.
Qed.

(** X5.  The tracker is told before the write is tried: when the file could be
    read, the path is tracked with the written text (the empty string when
    the function list is cleared), whether or not the write then succeeds;
    when it could not be read, nothing is tracked. *)
Theorem write_to_file_tracks_readable (w : World) :
  let w' := (write_to_file env (Some path) (Some text) w).2 in
  tracked w' path =
    match live w path, tracked_values w with
    | Some _, Some _ => Some (tracked_text env path text)
    | _, _ => tracked w path
    end.
Proof.
  cbv zeta. destruct (write_to_file_unfold w) as (w3 & _ & _ & _ & Ht & ->).
  assert (Hgoal : tracked w3 path =
            match live w path, tracked_values w with
            | Some _, Some _ => Some (tracked_text env path text)
            | _, _ => tracked w path
            end).
  { unfold tracked. rewrite Ht.
    destruct (live w path), (tracked_values w); try done. apply lookup_insert_eq. }
  rewrite <- Hgoal. unfold tracked.
  destruct (open_wronly w path) as [e|f]; [done|].
  unfold write_all. by rewrite write_loop_same_tracked.
Qed.

End WriteEffect.

(** The source opens the file without O_TRUNC: on a regular file the
    bytes beyond the text survive, however the kernel slices the writes. *)
Example write_to_file_in_place :
  let w := boot_world (<["/tmp/f" := regular_file "rndis,adb"]> ∅) in
  let r := write_to_file (android_env None None) (Some "/tmp/f") (Some "mtp") w in
  r.1 = 0 /\ f_data <$> files r.2 !! "/tmp/f" = Some "mtpis,adb".
Proof. vm_compute. by split. Qed.

Example write_to_file_in_slices :
  let f := {| f_data := "rndis,adb"; f_open_rd := None; f_read_fails := false;
              f_open_wr := None; f_write := in_place_by_two |} in
  let w := boot_world (<["/tmp/f" := f]> ∅) in
  let r := write_to_file (android_env None None) (Some "/tmp/f") (Some "mtp") w in
  r.1 = 0 /\ f_data <$> files r.2 !! "/tmp/f" = Some "mtpis,adb".
Proof. vm_compute. by split. Qed.

(** X6.  Clearing the function list (writing the empty string or none to
    [ANDROID0_FUNCTIONS]) on a kernel that answers EINVAL: the token none
    is what the file is offered, the result is -1, the failure is logged
    at debug level only, and the path is tracked with the empty string.
    What the file holds afterwards is the kernel's doing; the tracker
    agrees with a read of the file exactly when the kernel has cleared the
    list in spite of the error, as the comment of lines 207-216 expects. *)
Theorem clearing_functions_fails_quietly (env : Env) (text : string) (w : World)
    (f : file) (tv : gmap string string) (data : string)
    (Htext : text = EmptyString \/ text = "none")
    (Hfile : files w !! ANDROID0_FUNCTIONS env = Some f)
    (Hrd : f_open_rd f = None) (Hread : f_read_fails f = false)
    (Hwr : f_open_wr f = None)
    (Herr : f_write f 0 "none" (f_data f) = WriteError EINVAL data)
    (Htv : tracked_values w = Some tv) :
  let r := write_to_file env (Some (ANDROID0_FUNCTIONS env)) (Some text) w in
  r.1 = -1 /\
  emitted (write_to_file env (Some (ANDROID0_FUNCTIONS env)) (Some text)) w =
    [EvLog LOG_DEBUG write_fmt
       [ANDROID0_FUNCTIONS env; modesetting_strip (String.substring 0 4096 (f_data f));
        "none"];
     EvLog LOG_DEBUG "write(%s): %m (expected failure)"
       [ANDROID0_FUNCTIONS env; "EINVAL"]] /\
  tracked r.2 (ANDROID0_FUNCTIONS env) = Some EmptyString /\
  files r.2 = <[ANDROID0_FUNCTIONS env := with_data data f]> (files w) /\
  live r.2 (ANDROID0_FUNCTIONS env)
  = Some (modesetting_strip (String.substring 0 4096 data)) /\
  (live r.2 (ANDROID0_FUNCTIONS env) = tracked r.2 (ANDROID0_FUNCTIONS env) <->
   modesetting_strip (String.substring 0 4096 data) = EmptyString).
Proof.
  assert (Hclear : (str_eqb (ANDROID0_FUNCTIONS env) (ANDROID0_FUNCTIONS env)
                    && (str_eqb text EmptyString || str_eqb text "none"))%bool = true).
  { rewrite str_eqb_refl. destruct Htext as [-> | ->]; reflexivity. }
  cbv zeta.
  assert (Hrun : write_to_file env (Some (ANDROID0_FUNCTIONS env)) (Some text) w =
    (-1, emit_world (EvLog LOG_DEBUG "write(%s): %m (expected failure)"
                       [ANDROID0_FUNCTIONS env; "EINVAL"])
           (put_file (ANDROID0_FUNCTIONS env) (with_data data f)
              (emit_world (EvLog LOG_DEBUG write_fmt
                             [ANDROID0_FUNCTIONS env;
                              modesetting_strip (String.substring 0 4096 (f_data f));
                              "none"])
                 (set_tracked (Some (<[ANDROID0_FUNCTIONS env := EmptyString]> tv)) w))))).
  { unfold write_to_file, modesetting_write_to_file_real. cbv zeta.
    rewrite Hclear.
    unfold bind, modesetting_read_from_file, open_rdonly. rewrite Hfile, Hrd, Hread.
    rewrite bool_decide_eq_true_2 by eauto. cbn [when].
    unfold modesetting_track_value. rewrite Htv.
    unfold log_debug, emit, modify, gets, open_wronly. cbn [files set_tracked emit_world].
    rewrite Hfile, Hwr.
    rewrite (write_all_error _ "none" true f _ EINVAL data); [done | done | exact Herr]. }
  unfold emitted. rewrite Hrun. cbn [fst snd].
  split; [done|]. split.
  { cbn. rewrite <- app_assoc, drop_app_length. done. }
  assert (Htr : forall w0, tracked_values w0 = Some (<[ANDROID0_FUNCTIONS env := EmptyString]> tv) ->
                           tracked w0 (ANDROID0_FUNCTIONS env) = Some EmptyString).
  { intros w0 H0. unfold tracked. rewrite H0. apply lookup_insert_eq. }
  assert (Hlv : forall w0, files w0 = <[ANDROID0_FUNCTIONS env := with_data data f]> (files w) ->
                  live w0 (ANDROID0_FUNCTIONS env)
                  = Some (modesetting_strip (String.substring 0 4096 data))).
  { intros w0 H0. unfold live, modesetting_read_from_file, open_rdonly.
    rewrite H0, lookup_insert_eq. cbn [with_data f_open_rd].
    rewrite Hrd. cbn [with_data f_read_fails f_data]. by rewrite Hread. }
  split; [by apply Htr|]. split; [done|]. split; [by apply Hlv|].
  rewrite Hlv, Htr by done. split; congruence.
Qed.

Lemma clearing_functions_fails_quietly_witness :
  let r := write_to_file (android_env None None) (Some functions_path) (Some EmptyString)
             (boot_world refusing_functions) in
  r.1 = -1 /\
  emitted (write_to_file (android_env None None) (Some functions_path) (Some EmptyString))
          (boot_world refusing_functions)
  = [EvLog LOG_DEBUG write_fmt [functions_path; "mtp"; "none"];
     EvLog LOG_DEBUG "write(%s): %m (expected failure)" [functions_path; "EINVAL"]] /\
  tracked r.2 functions_path = Some EmptyString /\
  f_data <$> files r.2 !! functions_path = Some EmptyString /\
  live r.2 functions_path = tracked r.2 functions_path.
Proof.
  cbv zeta.
  destruct (clearing_functions_fails_quietly (android_env None None) EmptyString
              (boot_world refusing_functions) einval_file ∅ EmptyString
              (or_introl eq_refl) eq_refl eq_refl eq_refl eq_refl eq_refl eq_refl)
    as (H1 & H2 & H3 & H4 & H5 & H6).
  split; [exact H1|]. split; [exact H2|]. split; [exact H3|].
  split; [|exact (proj2 H6 eq_refl)].
  exact (f_equal (fun m : gmap string file => f_data <$> m !! functions_path) H4).
Defined.

(* ===================================================================== *)
(** * Cleaning up                                                         *)
(* ===================================================================== *)

(** X7.  [modesetting_cleanup] has one result, 0: whatever happens while the
    storage is mounted back or the mode is unset, the caller is told that
    the clean-up went well.  Without a module it only logs, and after
    charging with a storage module it runs no command and touches no
    file. *)
Theorem cleanup_never_fails (env : Env) (module : option string) (w : World) :
  (modesetting_cleanup env module w).1 = 0 /\
  modesetting_cleanup env None w =
    (0, emit_world (EvLog LOG_WARNING "No module found to unload. Skipping cleanup\n" [])
          (emit_world (EvLog LOG_DEBUG "Cleaning up mode\n" []) w)) /\
  (forall m,
     module = Some m ->
     m = MODULE_MASS_STORAGE env \/ m = MODULE_FILE_STORAGE env ->
     usbmoded_get_usb_mode env = MODE_CHARGING env \/
     usbmoded_get_usb_mode env = MODE_CHARGING_FALLBACK env ->
     emitted (modesetting_cleanup env module) w =
       EvLog LOG_DEBUG "Cleaning up mode\n" [] ::
       (if APP_SYNC env then [EvCall (Appsync_stop false)] else []) /\
     files (modesetting_cleanup env module w).2 = files w /\
     tracked_values (modesetting_cleanup env module w).2 = tracked_values w).
Proof.
  split; [|split].
  - unfold modesetting_cleanup. rewrite bind_run. destruct module as [m|].
    + rewrite bind_run.
      destruct (str_eqb m (MODULE_MASS_STORAGE env) || str_eqb m (MODULE_FILE_STORAGE env))%bool.
      * destruct (str_eqb (MODE_CHARGING env) (usbmoded_get_usb_mode env)
                  || str_eqb (MODE_CHARGING_FALLBACK env) (usbmoded_get_usb_mode env))%bool;
          [done | by rewrite bind_run].
      * destruct (bool_decide _); [by rewrite bind_run | done].
    + by rewrite bind_run.
  - reflexivity.
  - intros m -> Hm Hmode.
    assert (Hs : (str_eqb m (MODULE_MASS_STORAGE env)
                  || str_eqb m (MODULE_FILE_STORAGE env))%bool = true).
    { destruct Hm as [-> | ->]; rewrite str_eqb_refl; [done | apply orb_true_r]. }
    assert (Hc : (str_eqb (MODE_CHARGING env) (usbmoded_get_usb_mode env)
                  || str_eqb (MODE_CHARGING_FALLBACK env) (usbmoded_get_usb_mode env))%bool
                 = true).
    { destruct Hmode as [-> | ->]; rewrite str_eqb_refl; [done | apply orb_true_r]. }
    unfold emitted, modesetting_cleanup. rewrite Hs, Hc.
    unfold bind, log_debug, call, emit, modify, when.
    destruct (APP_SYNC env); cbn.
    + rewrite <- app_assoc, drop_app_length. done.
    + rewrite drop_app_length. done.
Qed.

(* ===================================================================== *)
(** * The rejected mode files                                             *)
(* ===================================================================== *)

(** One error message for a file that is rejected, none for one that
    loads. *)
Lemma modedata_load_one_error (connman : bool) (filename : string)
    (settingsfile : option GKeyFile) :
  count_if is_error_log (modedata_load connman filename settingsfile).2 =
    match (modedata_load connman filename settingsfile).1 with
    | Some _ => 0%nat
    | None => 1%nat
    end.
Proof.
  unfold modedata_load, modedata_validate. destruct settingsfile as [kf|]; [|done].
  repeat match goal with
         | |- context [if ?b then _ else _] =>
             match type of b with bool => destruct b end
         end; reflexivity.
Qed.

Lemma modelist_read_errors (cenv : ConfEnv) (dir : string) (names : list string) :
  forall modelist,
    (count_if is_error_log (modelist_read cenv dir names modelist).2
     + length (modelist_read cenv dir names modelist).1
     = length modelist + length names)%nat.
Proof.
  induction names as [|dirname rest IH]; intros modelist.
  - simpl. lia.
  - cbn [modelist_read]. cbv zeta. cbn [fst snd].
    pose proof (modedata_load_one_error (CONNMAN_enabled cenv) (dir +:+ "/" +:+ dirname)
                  (g_key_file_load_from_file cenv (dir +:+ "/" +:+ dirname))) as H1.
    unfold count_if in *. cbn [List.filter is_error_log].
    rewrite List.filter_app, length_app, H1.
    specialize (IH (match (modedata_load (CONNMAN_enabled cenv) (dir +:+ "/" +:+ dirname)
                             (g_key_file_load_from_file cenv (dir +:+ "/" +:+ dirname))).1 with
                    | Some list_item => modelist ++ [list_item]
                    | None => modelist
                    end)).
    destruct (modedata_load _ _ _).1; rewrite ?length_app in IH; simpl in *; lia.
Qed.

(** X8.  Every directory entry is accounted for: it is in the list of modes, or
    exactly one error message was logged for it.  When the directory cannot
    be opened nothing is an error. *)
Theorem modelist_load_reports_rejects (cenv : ConfEnv) (diag : Z) :
  let dir := if nonzero diag then DIAG_DIR_PATH cenv else MODE_DIR_PATH cenv in
  match g_dir_names cenv dir with
  | Some names =>
      (count_if is_error_log (modelist_load cenv diag).2
       + length (modelist_load cenv diag).1 = length names)%nat
  | None => count_if is_error_log (modelist_load cenv diag).2 = 0%nat
  end.
Proof.
  cbv zeta. unfold modelist_load. cbv zeta. cbn [fst snd].
  destruct (g_dir_names cenv _) as [names|]; [|done].
  rewrite (Permutation_length (g_list_sort_perm _ _)).
  by rewrite modelist_read_errors.
Qed.
(* ===================================================================== *)
(** * Who blocks the unmount                                               *)
(* ===================================================================== *)

Lemma emit_all_fields (l : list event) (w : World) :
  trace (emit_all l w) = trace w ++ l /\
  files (emit_all l w) = files w /\
  tracked_values (emit_all l w) = tracked_values w /\
  sources (emit_all l w) = sources w /\
  delayed_network (emit_all l w) = delayed_network w /\
  clock (emit_all l w) = clock w.
Proof.
  revert w. induction l as [|e l IH]; intros w.
  - cbn. by rewrite app_nil_r.
  - cbn [emit_all foldl]. fold (emit_all l (emit_world e w)).
    destruct (IH (emit_world e w)) as (-> & -> & -> & -> & -> & ->).
    cbn. by rewrite <- app_assoc.
Qed.

Lemma emit_all_app (l1 l2 : list event) (w : World) :
  emit_all (l1 ++ l2) w = emit_all l2 (emit_all l1 w).
Proof. unfold emit_all. apply foldl_app. Qed.

Lemma emitted_emit_all {A} (m : M A) (l : list event) (w w0 : World) :
  trace w0 = trace w -> (m w).2 = emit_all l w0 -> emitted m w = l.
Proof.
  intros H0 Hm. apply emitted_spec. rewrite Hm.
  destruct (emit_all_fields l w0) as (-> & _). by rewrite H0.
Qed.

(** The loop over the lines of the lsof output. *)
Lemma for_each_emit_two {A} (f g : A -> event) (l : list A) (w : World) :
  for_each l (fun x => emit (f x) ;; emit (g x)) w
  = (tt, emit_all (flat_map (fun x => [f x; g x]) l) w).
Proof.
  revert w. induction l as [|x l IH]; intros w; [done|].
  cbn [for_each flat_map]. rewrite bind_run, bind_run. cbn [emit modify fst snd].
  rewrite IH. by rewrite emit_all_app.
Qed.

Lemma report_blocker_run (env : Env) (mountpoint : string) (attempt : Z) (w : World) :
  (modesetting_report_mass_storage_blocker env mountpoint attempt w).2 =
    emit_all
      (EvPopen (g_strconcat "lsof " mountpoint) ::
       match popen_lines env (clock w) (g_strconcat "lsof " mountpoint) with
       | Some lines =>
           flat_map (fun text =>
                       [EvLog LOG_ERR "Mass storage blocked by process %s\n"
                          [or_null (g_strsplit2_first text)];
                        blocked_by text]) (tail lines)
       | None => []
       end ++
       (if attempt =? 2
        then [EvLog LOG_ERR "Setting Mass storage blocked. Giving up.\n" []]
        else []))
      (tick_world w).
Proof.
  unfold modesetting_report_mass_storage_blocker. cbv zeta.
  rewrite bind_run. cbn [tick fst snd]. rewrite bind_run. cbn [emit modify fst snd].
  rewrite bind_run.
  change (emit_all (?e :: ?l) ?w0) with (emit_all l (emit_world e w0)).
  rewrite emit_all_app.
  destruct (popen_lines env (clock w) _) as [lines|].
  - unfold log_err, umdbus_send_error_signal.
    rewrite (for_each_emit_two
               (fun text => EvLog LOG_ERR "Mass storage blocked by process %s\n"
                              [or_null (g_strsplit2_first text)])
               blocked_by).
    cbn [fst snd]. by destruct (attempt =? 2).
  - cbn [ret fst snd]. by destruct (attempt =? 2).
Qed.

Lemma filter_blockers (lines : list string) :
  List.filter is_error_signal
    (flat_map (fun text =>
                 [EvLog LOG_ERR "Mass storage blocked by process %s\n"
                    [or_null (g_strsplit2_first text)];
                  blocked_by text]) lines)
  = blocked_by <$> lines.
Proof. induction lines as [|x l IH]; [done|]. cbn. by rewrite IH. Qed.

(** X9.  [modesetting_report_mass_storage_blocker] sends one error signal for
    each line of the lsof output but the first, the header, naming the
    first word of the line, in the order of the output; it sends none when
    the command cannot be run.  It touches neither the files nor the
    tracker nor the pending retry. *)
Theorem report_blocker_signals (env : Env) (mountpoint : string) (attempt : Z) (w : World) :
  let m := modesetting_report_mass_storage_blocker env mountpoint attempt in
  List.filter is_error_signal (emitted m w) =
    match popen_lines env (clock w) (g_strconcat "lsof " mountpoint) with
    | Some lines => blocked_by <$> tail lines
    | None => []
    end /\
  files (m w).2 = files w /\
  tracked_values (m w).2 = tracked_values w /\
  sources (m w).2 = sources w /\
  delayed_network (m w).2 = delayed_network w.
Proof.
  cbv zeta. pose proof (report_blocker_run env mountpoint attempt w) as Hrun.
  split.
  - rewrite (emitted_emit_all _ _ w (tick_world w) eq_refl Hrun).
    cbn [List.filter is_error_signal]. rewrite List.filter_app.
    destruct (popen_lines env (clock w) _) as [lines|].
    + rewrite filter_blockers. destruct (attempt =? 2); cbn; by rewrite app_nil_r.
    + by destruct (attempt =? 2).
  - rewrite Hrun.
    destruct (emit_all_fields
                (EvPopen (g_strconcat "lsof " mountpoint) ::
                 match popen_lines env (clock w) (g_strconcat "lsof " mountpoint) with
                 | Some lines =>
                     flat_map (fun text =>
                                 [EvLog LOG_ERR "Mass storage blocked by process %s\n"
                                    [or_null (g_strsplit2_first text)];
                                  blocked_by text]) (tail lines)
                 | None => []
                 end ++
                 (if attempt =? 2
                  then [EvLog LOG_ERR "Setting Mass storage blocked. Giving up.\n" []]
                  else []))
                (tick_world w)) as (_ & -> & -> & -> & -> & _).
    done.
Qed.

(* ===================================================================== *)
(** * The retry, when it fires                                            *)
(* ===================================================================== *)

(** X10.  When the pending retry fires, the network is brought up once more for
    the mode the retry was scheduled for, and whether or not that works
    nothing is pending afterwards: the retry is not repeated.  Dispatching
    the same source again, or cancelling, then does nothing. *)
Theorem network_retry_fires_once (env : Env) (data : modedata) (id : N) (w : World)
    (Hsources : sources w = [(id, data)]) :
  let w' := (dispatch_timeout env id w).2 in
  emitted (dispatch_timeout env id) w = [EvCall (Network_up (network_interface data))] /\
  delayed_network w' = 0%N /\ sources w' = [] /\
  files w' = files w /\ tracked_values w' = tracked_values w /\
  dispatch_timeout env id w' = (tt, w') /\
  cancel_network_retry w' = (tt, w').
Proof.
  cbv zeta. unfold emitted, dispatch_timeout. rewrite bind_run. cbn [gets fst snd].
  rewrite Hsources. cbn [List.find fst snd]. rewrite N.eqb_refl.
  unfold modesetting_network_retry, network_up, call, bind, modify, emit, tick, gets.
  cbn -[filter]. rewrite Hsources, filter_other_source, drop_app_length.
  by repeat split.
Qed.

Lemma network_retry_fires_once_witness :
  let w := (modesetting_set_dynamic_mode rndis_env (boot_world android_files)).2 in
  let w' := (dispatch_timeout rndis_env 1 w).2 in
  emitted (dispatch_timeout rndis_env 1) w = [EvCall (Network_up (Some "rndis0"))] /\
  delayed_network w' = 0%N /\ sources w' = [] /\
  files w' = files w /\ tracked_values w' = tracked_values w /\
  dispatch_timeout rndis_env 1 w' = (tt, w') /\
  cancel_network_retry w' = (tt, w').
Proof.
  exact (network_retry_fires_once rndis_env rndis_mode 1
           (modesetting_set_dynamic_mode rndis_env (boot_world android_files)).2
           eq_refl).
Defined.
(* ===================================================================== *)
(** * Which events a routine can emit                                     *)
(* ===================================================================== *)

(** The routines of the engine, each with the kinds of events it needs to
    be allowed. *)
Section EngineEmits.

Context (env : Env) (ok : event -> bool).

Hypothesis Hlog : forall e, is_log e = true -> ok e = true.
Hypothesis Hsystem : forall c, String.prefix "umount " c = false -> ok (EvSystem c) = true.
Hypothesis Humount : forall mountpath, ok (EvSystem (g_strconcat "umount " mountpath)) = true.
Hypothesis Hcall : forall c, ok (EvCall c) = true.
Hypothesis Hpopen : forall c, ok (EvPopen c) = true.
Hypothesis Hsleep : forall n, ok (EvSleep n) = true.
Hypothesis Hmsleep : forall n, ok (EvMsleep n) = true.
Hypothesis Hstate : forall s, ok (EvStateSignal s) = true.
Hypothesis Hblocked : forall who, ok (EvErrorSignal (BlockedBy who)) = true.
Hypothesis Humount_error : ok (EvErrorSignal UMOUNT_ERROR) = true.
Hypothesis Hremount_failed : ok (EvErrorSignal RE_MOUNT_FAILED) = true.
Hypothesis Htimeout : forall id n, ok (EvTimeoutAdd id n) = true.
Hypothesis Hremove : forall id, ok (EvSourceRemove id) = true.

Ltac emits_event :=
  solve [ apply Hlog; reflexivity
        | apply Hsystem; reflexivity
        | apply Humount
        | apply Hcall | apply Hpopen | apply Hsleep | apply Hmsleep | apply Hstate
        | apply Hblocked | apply Humount_error | apply Hremount_failed
        | apply Htimeout | apply Hremove ].

Ltac emits_with tac :=
  repeat first
    [ tac
    | apply (write_to_file_adds env ok); exact Hlog
    | apply keeps_ret; cls
    | apply keeps_gets; cls
    | eapply keeps_tick; cls
    | eapply keeps_emit; [cls.. | emits_event]
    | apply keeps_when; [cls.. |]
    | apply keeps_bind; [cls.. | | intros ?]
    | apply keeps_for_each; [cls.. | intros ?]
    | apply keeps_for_each_from; [cls.. | intros ? ?]
    | progress cbv zeta
    | match goal with |- keeps _ (if ?b then _ else _) => destruct b end
    | match goal with |- keeps _ (match ?x with _ => _ end) => destruct x end ].

Ltac emits := emits_with fail.

Lemma emits_report_blocker (mountpoint : string) (attempt : Z) :
  keeps (adds ok) (modesetting_report_mass_storage_blocker env mountpoint attempt).
Proof.
  unfold modesetting_report_mass_storage_blocker, log_err, umdbus_send_error_signal.
  emits.
Qed.

Lemma emits_check_luns (mountpoints : Z) : keeps (adds ok) (check_luns env mountpoints).
Proof.
  unfold check_luns, access_R_OK, log_debug, call, usbmoded_system. emits.
Qed.

Lemma emits_activate_lun (data : modedata) (fua : Z) (mount : string) (i : Z) (m : string) :
  keeps (adds ok) (activate_lun env data fua mount i m).
Proof. unfold activate_lun, log_debug, usbmoded_system, write_to_file. emits. Qed.

Lemma emits_activate_luns (data : modedata) (mount : string) :
  keeps (adds ok)
    (usbmoded_sleep 1 ;;
     for_each_from 0 (g_strsplit mount ",")
       (activate_lun env data (config_find_sync env) mount)).
Proof. unfold usbmoded_sleep. emits_with ltac:(apply emits_activate_lun). Qed.

Lemma emits_umount_mountpoint (retries_left : nat) (mount mountpath : string) :
  keeps (adds ok) (umount_mountpoint env retries_left mount mountpath).
Proof.
  induction retries_left as [|n IH]; cbn [umount_mountpoint];
    unfold log_debug, log_err, usbmoded_sleep, umdbus_send_error_signal, usbmoded_system;
    emits_with ltac:(first [apply emits_report_blocker | exact IH]).
Qed.

Lemma emits_umount_all (mounts : list string) (mount : string) :
  forall (retries_left : nat) (r : Z),
    keeps (adds ok) (umount_all env mounts mount retries_left r).
Proof.
  induction mounts as [|m rest IH]; intros retries_left r; cbn [umount_all].
  - emits.
  - apply keeps_bind; [cls | apply emits_umount_mountpoint |].
    intros [r' | [r' left']]; [emits | apply IH].
Qed.

Lemma emits_set_mass_storage (data : modedata) :
  keeps (adds ok) (modesetting_set_mass_storage_mode env data).
Proof.
  unfold modesetting_set_mass_storage_mode, prepare_mass_storage, finish_mass_storage,
    umdbus_send_state_signal.
  emits_with ltac:(first [ apply emits_check_luns | apply emits_umount_all
                         | apply emits_activate_luns ]).
Qed.

Lemma emits_remount_lun (data : option modedata) (i : Z) (m : string)
    (mount : option string) :
  keeps (adds ok) (remount_lun env data i m mount).
Proof.
  unfold remount_lun, log_debug, log_err, umdbus_send_error_signal, usbmoded_system,
    write_to_file.
  emits.
Qed.

Lemma emits_remount_all (data : option modedata) (mounts : list string) :
  forall (i : Z) (mount : option string) (r : Z),
    keeps (adds ok) (remount_all env data i mounts mount r).
Proof.
  induction mounts as [|m rest IH]; intros i mount r; cbn [remount_all].
  - emits.
  - apply keeps_bind; [cls | apply emits_remount_lun | intros st; apply IH].
Qed.

Lemma emits_unset_mass_storage (data : option modedata) :
  keeps (adds ok) (modesetting_unset_mass_storage_mode env data).
Proof.
  unfold modesetting_unset_mass_storage_mode.
  destruct (config_find_mounts env); [apply emits_remount_all | emits].
Qed.

Lemma emits_backend_set (data : modedata) : keeps (adds ok) (backend_set env data).
Proof.
  unfold backend_set, configfs_set, android_set, configfs_set_udc, log_crit, call,
    write_to_file.
  emits.
Qed.

Lemma emits_restart_network (data : modedata) : keeps (adds ok) (restart_network env data).
Proof.
  unfold restart_network, network_down, network_up, call, usbmoded_system. emits.
Qed.

Lemma emits_schedule_network_retry (data : modedata) :
  keeps (adds ok) (schedule_network_retry data).
Proof.
  unfold schedule_network_retry, log_debug, g_source_remove.
  emits_with ltac:(first [ apply adds_unchanged; intros; reflexivity ]).
  intros w. unfold g_timeout_add_seconds. eexists [_]. split; [reflexivity|].
  cbn. by rewrite Htimeout.
Qed.

(** Lines 527-616: what follows the pre-sync, up to but not including the
    failure signal. *)
Lemma emits_set_dynamic_steps (data : modedata) (r : Z) :
  keeps (adds ok)
    (do net <- restart_network env data;
     when (nonzero net && nonzero (network data)) (schedule_network_retry data) ;;
     when (nonzero (nat_ data) || nonzero (dhcp_server data))
          (call (Network_set_up_dhcpd (mode_name data))) ;;
     when (nonzero (appsync data) && (r =? 0))
          (usbmoded_msleep 350 ;;
           call (Appsync_activate_sync_post (mode_name data))) ;;
     match connman_tethering data with
     | Some service => when (CONNMAN env) (call (Connman_set_tethering service true))
     | None => ret tt
     end).
Proof.
  unfold call, usbmoded_msleep.
  emits_with ltac:(first [ apply emits_restart_network
                         | apply emits_schedule_network_retry ]).
Qed.

End EngineEmits.

(* ===================================================================== *)
(** * The result of enabling mass storage                                 *)
(* ===================================================================== *)

Lemma no_unmount_error_in (l : list event) :
  forallb no_unmount_error l = true -> ~ In (EvErrorSignal UMOUNT_ERROR) l.
Proof.
  intros H Hin. rewrite forallb_forall in H. by apply H in Hin.
Qed.

Section MassStorageResult.

Variable env : Env.

Lemma report_blocker_no_unmount_error (mountpoint : string) (attempt : Z) :
  keeps (adds no_unmount_error)
    (modesetting_report_mass_storage_blocker env mountpoint attempt).
Proof. apply emits_report_blocker; [by intros [] | done | done]. Qed.

(** One mount point: the routine bails out with the non-zero status of an
    unmount after signalling the unmount error, or goes on with 0 without
    having signalled it. *)
Lemma umount_mountpoint_outcome (mount mountpath : string) (n : nat) :
  forall w,
    let r := umount_mountpoint env n mount mountpath w in
    exists evs,
      trace r.2 = trace w ++ evs /\
      match r.1 with
      | inl e =>
          e <> 0 /\ In (EvErrorSignal UMOUNT_ERROR) evs /\
          exists t, system_status env t (g_strconcat "umount " mountpath) = e
      | inr (z, _) => z = 0 /\ forallb no_unmount_error evs = true
      end.
Proof.
  induction n as [|n IH]; intros w; cbv zeta; cbn [umount_mountpoint];
    rewrite bind_run, usbmoded_system_run; cbv beta; cbn [fst snd];
    (destruct (_ =? 0);
     [| cbn [ret fst snd]; eexists [_]; split; [reflexivity | by split]]);
    rewrite bind_run; cbv beta; rewrite bind_run, usbmoded_system_run; cbv beta;
    cbn [fst snd];
    match goal with
    | |- context [nonzero (system_status env ?t ?c)] =>
        set (code := system_status env t c) in *;
        assert (Hcode : exists t', system_status env t' c = code) by (by exists t);
        clearbody code
    end;
    (destruct (nonzero code) eqn:Enz;
     [ apply nonzero_true in Enz
     | apply nonzero_false in Enz; cbn [ret fst snd]; eexists [_; _; _];
       split; [cbn; by rewrite <- !app_assoc | by split] ]).
  - repeat (rewrite bind_run; cbv beta). cbn [ret fst snd].
    match goal with
    | |- context [modesetting_report_mass_storage_blocker env mount 2 ?x] =>
        destruct (report_blocker_no_unmount_error mount 2 x) as (evs & Ht & Hq);
        set (w1 := (modesetting_report_mass_storage_blocker env mount 2 x).2) in *
    end.
    eexists ([_; _; _; _] ++ evs ++ [_]). split; [|split; [done|split; [|done]]].
    + cbn. rewrite Ht. cbn. by rewrite <- !app_assoc.
    + rewrite !in_app_iff. right. right. by left.
  - repeat (rewrite bind_run; cbv beta).
    match goal with
    | |- context [modesetting_report_mass_storage_blocker env mount 1 ?x] =>
        destruct (report_blocker_no_unmount_error mount 1 x) as (evs & Ht & Hq);
        set (w1 := (modesetting_report_mass_storage_blocker env mount 1 x).2) in *
    end.
    destruct (IH w1) as (evs' & Ht' & Hres).
    eexists ([_; _; _; _; _] ++ evs ++ evs'). split.
    + rewrite Ht', Ht. cbn. by rewrite <- !app_assoc.
    + destruct (umount_mountpoint env n mount mountpath w1).1 as [e | [z left']].
      * destruct Hres as (He & Hin & Hst). split; [done|]. split; [|done].
        rewrite !in_app_iff. by right; right.
      * destruct Hres as [Hz Hall]. split; [done|].
        rewrite !forallb_app, Hq, Hall. reflexivity.
Qed.

(** The loop over the mount points. *)
Lemma umount_all_outcome (mount : string) (mounts : list string) :
  forall (n : nat) (w : World),
    let r := umount_all env mounts mount n 0 w in
    exists evs,
      trace r.2 = trace w ++ evs /\
      match r.1 with
      | inl e =>
          e <> 0 /\ In (EvErrorSignal UMOUNT_ERROR) evs /\
          exists t p,
            In p (List.map (fun m => default m (realpath env m)) mounts) /\
            system_status env t (g_strconcat "umount " p) = e
      | inr z => z = 0 /\ forallb no_unmount_error evs = true
      end.
Proof.
  induction mounts as [|m rest IH]; intros n w; cbv zeta; cbn [umount_all].
  { exists []. cbn. by rewrite app_nil_r. }
  rewrite bind_run; cbv beta.
  destruct (umount_mountpoint_outcome mount (default m (realpath env m)) n w)
    as (evs1 & Ht1 & Hres1).
  destruct (umount_mountpoint env n mount (default m (realpath env m)) w)
    as [[e | [z left']] w1]; cbn [fst snd] in *.
  - exists evs1. split; [done|]. destruct Hres1 as (He & Hin & t & Hst).
    split; [done|]. split; [done|]. exists t, (default m (realpath env m)).
    split; [by left | done].
  - destruct Hres1 as [-> Hall1].
    destruct (IH left' w1) as (evs2 & Ht2 & Hres2).
    exists (evs1 ++ evs2). split; [by rewrite Ht2, Ht1, app_assoc|].
    destruct (umount_all env rest mount left' 0 w1).1 as [e | z].
    + destruct Hres2 as (He & Hin & t & p & Hp & Hst).
      split; [done|]. split; [rewrite in_app_iff; by right|].
      exists t, p. split; [by right | done].
    + destruct Hres2 as [Hz Hall2]. split; [done|]. by rewrite forallb_app, Hall1, Hall2.
Qed.

(** A mount point that stays mounted and busy makes the routine bail out. *)
Lemma umount_mountpoint_busy (mount mountpath : string) :
  (forall t, system_status env t (g_strconcat "mount | grep " mountpath) = 0) ->
  (forall t, system_status env t (g_strconcat "umount " mountpath) <> 0) ->
  forall n w, exists e, (umount_mountpoint env n mount mountpath w).1 = inl e.
Proof.
  intros Hmounted Hbusy.
  induction n as [|n IH]; intros w; cbn [umount_mountpoint];
    rewrite bind_run, usbmoded_system_run; cbv beta; cbn [fst snd];
    rewrite Hmounted; cbn [Z.eqb];
    rewrite bind_run; cbv beta; rewrite bind_run, usbmoded_system_run; cbv beta;
    cbn [fst snd];
    match goal with
    | |- context [nonzero (system_status env ?t ?c)] =>
        pose proof (Hbusy t) as Hr; apply nonzero_true in Hr; rewrite Hr
    end;
    repeat (rewrite bind_run; cbv beta).
  - cbn [ret fst]. eauto.
  - apply IH.
Qed.

Lemma umount_all_busy (mount : string) (mounts : list string) (p : string) :
  In p (List.map (fun m => default m (realpath env m)) mounts) ->
  (forall t, system_status env t (g_strconcat "mount | grep " p) = 0) ->
  (forall t, system_status env t (g_strconcat "umount " p) <> 0) ->
  forall n w, exists e, (umount_all env mounts mount n 0 w).1 = inl e.
Proof.
  intros Hin Hmounted Hbusy.
  induction mounts as [|m rest IH]; intros n w; [done|]. cbn [umount_all].
  rewrite bind_run; cbv beta.
  pose proof (umount_mountpoint_result env mount (default m (realpath env m)) n w) as Hz.
  destruct (umount_mountpoint env n mount (default m (realpath env m)) w)
    as [[e | [z left']] w1] eqn:Erun; cbn [fst snd] in *; [cbn; eauto|].
  subst z. destruct Hin as [<- | Hin].
  - destruct (umount_mountpoint_busy mount _ Hmounted Hbusy n w) as [e He].
    rewrite Erun in He. done.
  - by apply IH.
Qed.

(** Lines 299-311. *)
Lemma check_luns_run (mountpoints : Z) (w : World) :
  exists evs,
    trace (check_luns env mountpoints w).2 = trace w ++ evs /\
    forallb no_unmount_error evs = true /\
    (check_luns env mountpoints w).1 =
      match open_rdonly w (lun_attr (mountpoints - 1) "file") with
      | inr _ => 0
      | inl _ => system_status env (clock w) (modprobe_command env mountpoints)
      end.
Proof.
  unfold check_luns, access_R_OK, log_debug, call, usbmoded_system, tick, bind, gets,
    emit, modify.
  destruct (open_rdonly w (lun_attr (mountpoints - 1) "file")) as [e|f]; cbn.
  - eexists [_; _; _; _]. split; [by rewrite <- !app_assoc|]. by split.
  - exists []. by rewrite app_nil_r.
Qed.

(** Lines 285-354. *)
Lemma prepare_mass_storage_outcome (data : modedata) (w : World) :
  let o := prepare_mass_storage env data w in
  exists evs,
    trace o.2 = trace w ++ evs /\
    match o.1 with
    | inl e =>
        e <> 0 /\
        ((module_reload_status env data w = Some e /\
          forallb no_unmount_error evs = true) \/
         ((module_reload_status env data w = None \/
           module_reload_status env data w = Some 0) /\
          In (EvErrorSignal UMOUNT_ERROR) evs /\
          exists t p, In p (mount_paths env) /\
                      system_status env t (g_strconcat "umount " p) = e))
    | inr (_, z) =>
        z = 0 /\ forallb no_unmount_error evs = true /\
        (module_reload_status env data w = None \/
         module_reload_status env data w = Some 0)
    end.
Proof.
  cbv zeta. unfold prepare_mass_storage, module_reload_status, mount_paths.
  rewrite bind_run; cbv beta.
  destruct (config_find_mounts env) as [mount|].
  2: { cbn. eexists [_]. split; [reflexivity|]. by repeat split; auto. }
  cbv zeta. unfold umdbus_send_state_signal. cbn [emit modify fst snd].
  set (w0 := emit_world (EvStateSignal USB_PRE_UNMOUNT) w).
  set (mounts := g_strsplit mount ",").
  set (mountpoints := Z.of_nat (length mounts)).
  rewrite bind_run; cbv beta.
  set (chk := if negb (streq (mode_module data) (MODULE_NONE env))
              then check_luns env mountpoints else ret 0).
  assert (Hchk : exists evs0,
            trace (chk w0).2 = trace w ++ EvStateSignal USB_PRE_UNMOUNT :: evs0 /\
            forallb no_unmount_error evs0 = true /\
            match (if streq (mode_module data) (MODULE_NONE env) then None
                   else match open_rdonly w (lun_attr (mountpoints - 1) "file") with
                        | inr _ => None
                        | inl _ => Some (system_status env (clock w)
                                           (modprobe_command env mountpoints))
                        end) with
            | Some e => (chk w0).1 = e
            | None => (chk w0).1 = 0
            end).
  { subst chk. destruct (streq (mode_module data) (MODULE_NONE env)); cbn [negb].
    { exists []. by cbn. }
    destruct (check_luns_run mountpoints w0) as (evs0 & Ht0 & Hall0 & Hr0).
    exists evs0. split; [rewrite Ht0; cbn; by rewrite <- app_assoc|]. split; [done|].
    rewrite Hr0. change (open_rdonly w0 ?p) with (open_rdonly w p).
    by destruct (open_rdonly w (lun_attr (mountpoints - 1) "file")). }
  destruct Hchk as (evs0 & Ht0 & Hall0 & Hst).
  set (code := (chk w0).1) in *. set (w1 := (chk w0).2) in *. clearbody code w1.
  set (st := if streq (mode_module data) (MODULE_NONE env) then None else _) in *.
  destruct (nonzero code) eqn:Enz.
  { apply nonzero_true in Enz. cbn [ret fst snd].
    exists (EvStateSignal USB_PRE_UNMOUNT :: evs0). split; [done|].
    split; [done|]. left. split; [|by cbn].
    destruct st as [e|]; [by subst | by subst]. }
  apply nonzero_false in Enz. subst code.
  assert (Hst' : st = None \/ st = Some 0).
  { destruct st as [e|]; [right; by subst | by left]. }
  rewrite bind_run; cbv beta.
  destruct (umount_all_outcome mount mounts 3 w1) as (evs1 & Ht1 & Hres1).
  destruct (umount_all env mounts mount 3 0 w1) as [[e | z] w2]; cbn [fst snd ret] in *.
  - exists ((EvStateSignal USB_PRE_UNMOUNT :: evs0) ++ evs1).
    split; [by rewrite Ht1, Ht0, <- app_assoc|].
    destruct Hres1 as (He & Hin & Hcmd). split; [done|]. right.
    split; [done|]. split; [rewrite in_app_iff; by right | done].
  - exists ((EvStateSignal USB_PRE_UNMOUNT :: evs0) ++ evs1).
    split; [by rewrite Ht1, Ht0, <- app_assoc|].
    destruct Hres1 as [Hz Hall1]. split; [done|]. split; [|done].
    rewrite forallb_app, Hall1. cbn. by rewrite Hall0.
Qed.

Lemma prepare_mass_storage_busy (data : modedata) (w : World) (p : string) :
  In p (mount_paths env) ->
  (forall t, system_status env t (g_strconcat "mount | grep " p) = 0) ->
  (forall t, system_status env t (g_strconcat "umount " p) <> 0) ->
  exists e, (prepare_mass_storage env data w).1 = inl e.
Proof.
  unfold mount_paths, prepare_mass_storage. intros Hin Hmounted Hbusy.
  rewrite bind_run; cbv beta.
  destruct (config_find_mounts env) as [mount|]; [|done].
  cbv zeta. rewrite bind_run; cbv beta.
  destruct (nonzero _) eqn:Enz; [cbn; eauto|].
  apply nonzero_false in Enz. rewrite Enz.
  rewrite bind_run; cbv beta.
  match goal with
  | |- context [umount_all env ?ms ?m ?n 0 ?w0] =>
      destruct (umount_all_busy m ms p Hin Hmounted Hbusy n w0) as [e ->]
  end.
  cbn. eauto.
Qed.

(** C2.  The result of [modesetting_set_mass_storage_mode] and the
    data-in-use signal, in terms of what the environment answers.  The
    signal is emitted exactly when the result is 0.  The result is not 0
    exactly when the module had to be loaded afresh and modprobe exited
    with a non-zero status, or the routine gave up on an unmount and
    signalled the unmount error; the result is then the exit status of
    that modprobe, or of an unmount command of a configured mount point.
    A configured mount point that stays mounted and busy makes the result
    non-zero.  The programming of the logical units is not consulted:
    when every command exits with status 0 the result is 0 and the signal
    is emitted, whatever the attribute files hold and whether or not they
    exist. *)
Theorem mass_storage_enable_result (data : modedata) (w : World) :
  let r := modesetting_set_mass_storage_mode env data w in
  let evs := emitted (modesetting_set_mass_storage_mode env data) w in
  (In (EvStateSignal DATA_IN_USE) evs <-> r.1 = 0) /\
  (r.1 <> 0 <->
   (exists e, module_reload_status env data w = Some e /\ e <> 0) \/
   In (EvErrorSignal UMOUNT_ERROR) evs) /\
  (forall e, module_reload_status env data w = Some e -> e <> 0 -> r.1 = e) /\
  (In (EvErrorSignal UMOUNT_ERROR) evs ->
   exists t p, In p (mount_paths env) /\
               system_status env t (g_strconcat "umount " p) = r.1) /\
  (forall p, In p (mount_paths env) ->
     (forall t, system_status env t (g_strconcat "mount | grep " p) = 0) ->
     (forall t, system_status env t (g_strconcat "umount " p) <> 0) ->
     r.1 <> 0) /\
  ((forall t c, system_status env t c = 0) ->
   r.1 = 0 /\ In (EvStateSignal DATA_IN_USE) evs).
Proof.
  cbv zeta.
  assert (Hmain :
    let r := modesetting_set_mass_storage_mode env data w in
    let evs := emitted (modesetting_set_mass_storage_mode env data) w in
    (In (EvStateSignal DATA_IN_USE) evs <-> r.1 = 0) /\
    (r.1 <> 0 ->
     (module_reload_status env data w = Some r.1 /\
      ~ In (EvErrorSignal UMOUNT_ERROR) evs) \/
     ((module_reload_status env data w = None \/
       module_reload_status env data w = Some 0) /\
      In (EvErrorSignal UMOUNT_ERROR) evs /\
      exists t p, In p (mount_paths env) /\
                  system_status env t (g_strconcat "umount " p) = r.1)) /\
    (r.1 = 0 ->
     (module_reload_status env data w = None \/
      module_reload_status env data w = Some 0) /\
     ~ In (EvErrorSignal UMOUNT_ERROR) evs) /\
    (forall p, In p (mount_paths env) ->
       (forall t, system_status env t (g_strconcat "mount | grep " p) = 0) ->
       (forall t, system_status env t (g_strconcat "umount " p) <> 0) ->
       r.1 <> 0)).
  { cbv zeta. unfold emitted, modesetting_set_mass_storage_mode. cbv zeta.
    rewrite bind_run.
    destruct (prepare_mass_storage_outcome data w) as (evs1 & Ht1 & Hout).
    pose proof (prepare_mass_storage_busy data w) as Hbusy.
    destruct (quiet_not_in w (prepare_mass_storage env data w).2) as (evs1' & Ht1' & Hn1).
    { apply (keeps_run (adds not_data_in_use)).
      apply (keeps_prepare_mass_storage env (adds not_data_in_use) not_data_in_use).
      apply not_data_in_use_ok. }
    assert (evs1' = evs1) as -> by (rewrite Ht1 in Ht1'; by apply app_inv_head in Ht1').
    clear Ht1'.
    destruct (prepare_mass_storage env data w) as [[e | [mount z]] w1];
      cbn [fst snd] in *.
    - cbn [ret fst snd]. rewrite Ht1, drop_app_length.
      destruct Hout as (He & Hcase). split; [done|]. split; [|split; [done|]].
      + intros _. destruct Hcase as [[Hm Hall] | Hcase]; [left | by right].
        split; [done | by apply no_unmount_error_in].
      + intros p Hp Hm Hb. done.
    - destruct Hout as (-> & Hall1 & Hmod). rewrite bind_run.
      set (prog := match mount with Some _ => _ | None => _ end).
      assert (Hprog : exists evs2, trace (prog w1).2 = trace w1 ++ evs2 /\
                                   forallb no_unmount_error evs2 = true /\
                                   ~ In (EvStateSignal DATA_IN_USE) evs2).
      { destruct (quiet_not_in w1 (prog w1).2) as (evs2 & Ht2 & Hn2).
        { subst prog. destruct mount as [mount|]; [|apply pre_refl].
          apply (keeps_run (adds not_data_in_use)).
          apply (keeps_activate_luns env (adds not_data_in_use) not_data_in_use).
          - apply not_data_in_use_ok.
          - apply write_to_file_quiet. }
        exists evs2. split; [done|]. split; [|done].
        assert (Hadds : adds no_unmount_error w1 (prog w1).2).
        { subst prog. destruct mount as [mount|]; [|apply pre_refl].
          apply (keeps_run (adds no_unmount_error)).
          apply emits_activate_luns; [by intros [] | done | done]. }
        destruct Hadds as (evs2' & Ht2' & Hall2).
        rewrite Ht2 in Ht2'. apply app_inv_head in Ht2'. by subst. }
      destruct Hprog as (evs2 & Ht2 & Hall2 & Hn2).
      unfold finish_mass_storage, umdbus_send_state_signal, bind, emit, modify.
      cbn. rewrite Ht2, Ht1, <- !app_assoc, drop_app_length.
      split; [|split; [done|split]].
      + split; [done|]. intros _. rewrite !in_app_iff. right. right. by left.
      + intros _. split; [done|]. intros Hin. rewrite !in_app_iff in Hin.
        destruct Hin as [Hin | [Hin | [Hin | []]]]; [| | done].
        * by apply no_unmount_error_in in Hall1.
        * by apply no_unmount_error_in in Hall2.
      + intros p Hp Hm Hb. destruct (Hbusy p Hp Hm Hb) as [e [=]]. }
  cbv zeta in Hmain. destruct Hmain as (Hsig & Hfail & Hgood & Hbusy).
  set (r := modesetting_set_mass_storage_mode env data w) in *.
  set (evs := emitted (modesetting_set_mass_storage_mode env data) w) in *.
  split; [exact Hsig|]. split; [|split; [|split; [|split; [exact Hbusy|]]]].
  - split.
    + intros Hr. destruct (Hfail Hr) as [[Hm _] | (_ & Hin & _)]; [left | by right].
      by exists r.1.
    + intros Hcase Hr. destruct (Hgood Hr) as [Hm Hnin].
      destruct Hcase as [(e & He & Hne) | Hin]; [|done].
      destruct Hm as [Hm | Hm]; congruence.
  - intros e He Hne. destruct (Z.eq_dec r.1 0) as [Hr | Hr].
    + destruct (Hgood Hr) as [[Hm | Hm] _]; congruence.
    + destruct (Hfail Hr) as [[Hm _] | ([Hm | Hm] & _)]; congruence.
  - intros Hin. destruct (Z.eq_dec r.1 0) as [Hr | Hr].
    + by destruct (Hgood Hr) as [_ Hnin].
    + destruct (Hfail Hr) as [[_ Hnin] | (_ & _ & Hcmd)]; [done | exact Hcmd].
  - intros Hzero. assert (Hr : r.1 = 0).
    { destruct (Z.eq_dec r.1 0) as [Hr | Hr]; [done|]. exfalso.
      destruct (Hfail Hr) as [[Hm _] | (_ & _ & t & p & _ & Hcmd)].
      - unfold module_reload_status in Hm.
        destruct (config_find_mounts env); [|done]. cbv zeta in Hm.
        destruct (streq _ _); [done|]. destruct (open_rdonly _ _); [|done].
        rewrite Hzero in Hm. congruence.
      - rewrite Hzero in Hcmd. congruence. }
    split; [exact Hr | by apply Hsig].
Qed.

End MassStorageResult.

(* ===================================================================== *)
(** * The failure signal of an activation                                 *)
(* ===================================================================== *)

Lemma not_mode_setting_failed_count (l : list event) :
  forallb not_mode_setting_failed l = true -> count_if is_mode_setting_failed l = 0%nat.
Proof. apply count_if_none. Qed.

(** Lines 527-616 of [modesetting_set_dynamic_mode], what comes after the
    pre-sync: the result is the backend's, and the failure signal follows
    everything else exactly when the result is not 0. *)
Lemma set_dynamic_mode_tail (env : Env) (data : modedata) (w : World) :
  let rest :=
    do r <- backend_set env data;
    do net <- restart_network env data;
    when (nonzero net && nonzero (network data)) (schedule_network_retry data) ;;
    when (nonzero (nat_ data) || nonzero (dhcp_server data))
         (call (Network_set_up_dhcpd (mode_name data))) ;;
    when (nonzero (appsync data) && (r =? 0))
         (usbmoded_msleep 350 ;;
          call (Appsync_activate_sync_post (mode_name data))) ;;
    (match connman_tethering data with
     | Some service => when (CONNMAN env) (call (Connman_set_tethering service true))
     | None => ret tt
     end) ;;
    when (nonzero r) (umdbus_send_error_signal MODE_SETTING_FAILED) ;;
    ret r in
  exists l,
    forallb not_mode_setting_failed l = true /\
    (rest w).1 = (backend_set env data w).1 /\
    trace (rest w).2 =
      trace w ++ l ++
      (if nonzero (rest w).1 then [EvErrorSignal MODE_SETTING_FAILED] else []).
Proof.
  cbv zeta. rewrite bind_run.
  destruct (emits_backend_set env not_mode_setting_failed) with (data := data) (w := w)
    as (l1 & T1 & F1); try (intros; reflexivity).
  { by intros [] H. }
  set (o1 := backend_set env data w) in *.
  match goal with
  | |- context [bind (restart_network env data) ?k o1.2] =>
      assert (Heq : bind (restart_network env data) k o1.2 =
                    bind (do net <- restart_network env data;
                          when (nonzero net && nonzero (network data))
                               (schedule_network_retry data) ;;
                          when (nonzero (nat_ data) || nonzero (dhcp_server data))
                               (call (Network_set_up_dhcpd (mode_name data))) ;;
                          when (nonzero (appsync data) && (o1.1 =? 0))
                               (usbmoded_msleep 350 ;;
                                call (Appsync_activate_sync_post (mode_name data))) ;;
                          match connman_tethering data with
                          | Some service =>
                              when (CONNMAN env) (call (Connman_set_tethering service true))
                          | None => ret tt
                          end)
                         (fun _ => when (nonzero o1.1)
                                     (umdbus_send_error_signal MODE_SETTING_FAILED) ;;
                                   ret o1.1) o1.2)
        by (rewrite !bind_run; reflexivity);
      rewrite Heq; clear Heq
  end.
  rewrite bind_run.
  destruct (emits_set_dynamic_steps env not_mode_setting_failed) with
    (data := data) (r := o1.1) (w := o1.2) as (l2 & T2 & F2); try (intros; reflexivity).
  { by intros [] H. }
  match goal with
  | H : trace (?m o1.2).2 = _ |- _ => set (o2 := m o1.2) in *
  end.
  rewrite bind_run. exists (l1 ++ l2). split; [by rewrite forallb_app, F1, F2|].
  split; [done|]. cbn [ret fst snd].
  destruct (nonzero o1.1); cbn; rewrite T2, T1, <- ?app_assoc; [done|].
  by rewrite app_nil_r.
Qed.

(** The events of an activation: none of them is the failure signal, except
    possibly the last, which comes with a non-zero result. *)
Lemma set_dynamic_mode_shape (env : Env) (w : World) :
  exists l (signalled : bool),
    forallb not_mode_setting_failed l = true /\
    trace (modesetting_set_dynamic_mode env w).2 =
      trace w ++ l ++ (if signalled then [EvErrorSignal MODE_SETTING_FAILED] else []) /\
    (signalled = true ->
     (modesetting_set_dynamic_mode env w).1 <> 0 /\
     exists data, usbmoded_get_usb_mode_data env = Some data /\ mass_storage data = 0) /\
    (signalled = false ->
     usbmoded_get_usb_mode_data env = None \/
     (exists data, usbmoded_get_usb_mode_data env = Some data /\
                   (mass_storage data <> 0 \/
                    APP_SYNC env = true /\ appsync data <> 0 /\
                    appsync_activate_sync_status env (clock w) <> 0)) \/
     (modesetting_set_dynamic_mode env w).1 = 0).
Proof.
  unfold modesetting_set_dynamic_mode.
  destruct (usbmoded_get_usb_mode_data env) as [data|] eqn:Hdata.
  2: { exists [], false. cbn. rewrite app_nil_r. repeat split; auto. done. }
  destruct (nonzero (mass_storage data)) eqn:Hms.
  { destruct (emits_set_mass_storage env not_mode_setting_failed) with
      (data := data) (w := w) as (l & T & F); try (intros; reflexivity).
    { by intros [] H. }
    exists l, false. split; [done|]. split; [|split; [done|]].
    - by rewrite app_nil_r.
    - intros _. right. left. exists data. split; [done|]. left. by apply nonzero_true. }
  apply nonzero_false in Hms.
  destruct (APP_SYNC env && nonzero (appsync data))%bool eqn:Hsync.
  - apply andb_true_iff in Hsync as [Happ Hsync].
    rewrite bind_run, bind_run.
    assert (Hrun : appsync_activate_sync env (mode_name data) w =
                   (appsync_activate_sync_status env (clock w),
                    emit_world (EvCall (Appsync_activate_sync (mode_name data)))
                      (tick_world w))) by reflexivity.
    rewrite Hrun. cbn [fst snd].
    destruct (nonzero (appsync_activate_sync_status env (clock w))) eqn:Hstatus.
    + exists [EvCall (Appsync_activate_sync (mode_name data));
              EvLog LOG_DEBUG "Appsync failure" []], false.
      split; [done|]. split; [|split; [done|]].
      * rewrite !bind_run. cbn. by rewrite <- !app_assoc.
      * intros _. right. left. exists data. split; [done|]. right.
        split; [done|]. split; by apply nonzero_true.
    + cbn [ret fst snd].
      match goal with
      | |- context [emit_world ?e (tick_world w)] => set (w1 := emit_world e (tick_world w))
      end.
      destruct (set_dynamic_mode_tail env data w1) as (l & F & Hr & T).
      cbv zeta in *.
      match type of T with
      | trace (?m w1).2 = _ => set (o := m w1) in *
      end.
      exists (EvCall (Appsync_activate_sync (mode_name data)) :: l), (nonzero o.1).
      split; [done|]. split; [|split].
      * rewrite T. cbn. by rewrite <- app_assoc.
      * intros H%nonzero_true. split; [done|]. by exists data.
      * intros H%nonzero_false. auto.
  - rewrite bind_run. cbn [ret fst snd].
    destruct (set_dynamic_mode_tail env data w) as (l & F & Hr & T).
    cbv zeta in *.
    match type of T with
    | trace (?m w).2 = _ => set (o := m w) in *
    end.
    exists l, (nonzero o.1). split; [done|]. split; [|split].
    + done.
    + intros H%nonzero_true. split; [done|]. by exists data.
    + intros H%nonzero_false. auto.
Qed.

(** X11.  [MODE_SETTING_FAILED] is sent at most once by an activation, and then
    as its last act and with a non-zero result.  The converse fails: a
    non-zero result comes without the signal when there is no mode data,
    when the mode is a mass-storage mode, and when the pre-sync fails; in
    every other case a non-zero result comes with the signal. *)
Theorem mode_setting_failed_signal (env : Env) (w : World) :
  let run := modesetting_set_dynamic_mode env in
  let signals := count_if is_mode_setting_failed (emitted run w) in
  (signals = 0 \/ signals = 1)%nat /\
  (signals = 1%nat ->
   (run w).1 <> 0 /\ last (trace (run w).2) = Some (EvErrorSignal MODE_SETTING_FAILED)) /\
  (signals = 0%nat ->
   usbmoded_get_usb_mode_data env = None \/
   (exists data, usbmoded_get_usb_mode_data env = Some data /\
                 (mass_storage data <> 0 \/
                  APP_SYNC env = true /\ appsync data <> 0 /\
                  appsync_activate_sync_status env (clock w) <> 0)) \/
   (run w).1 = 0) /\
  (forall data, usbmoded_get_usb_mode_data env = Some data -> mass_storage data <> 0 ->
                signals = 0%nat).
Proof.
  cbv zeta.
  destruct (set_dynamic_mode_shape env w) as (l & signalled & F & T & Hsig & Hnot).
  rewrite (emitted_spec _ w _ T), count_if_app, not_mode_setting_failed_count by done.
  split; [|split; [|split]].
  - destruct signalled; auto.
  - destruct signalled; [|done]. intros _. split; [by apply Hsig|].
    rewrite T, !last_app. done.
  - destruct signalled; [done|]. intros _. by apply Hnot.
  - intros data Hdata Hms. destruct signalled; [|done].
    destruct Hsig as (_ & d & Hd & Hz); [done|]. congruence.
Qed.
(* ===================================================================== *)
(** * The order of the android backend's set routine                      *)
(* ===================================================================== *)

Lemma write_to_file_zero_or_minus_one (env : Env) (path text : option string) (w : World) :
  (write_to_file env path text w).1 = 0 \/ (write_to_file env path text w).1 = -1.
Proof.
  destruct path as [p|], text as [t|]; try (by right).
  destruct (write_to_file_unfold env p t w) as (w3 & _ & _ & _ & _ & ->).
  destruct (open_wronly w p) as [e|f]; [by right|].
  apply write_loop_code.
Qed.

Lemma call_quiet (c : extcall) (w : World) :
  (forall id, c <> Android_set_vendorid id) -> acts [] w (call c w).2.
Proof.
  intros Hc. apply acts_quiet. exists [EvCall c]. split; [done|].
  cbn. destruct c; try done. by destruct (Hc id).
Qed.

(** What [android_set] attempts, in order, and what it returns; [r] is the
    value of [ret] when the device is about to be enabled. *)
Lemma android_set_acts (env : Env) (data : modedata) (w : World) :
  exists (r : Z),
    (android_extra_sysfs_value data = None -> r = 1) /\
    (android_extra_sysfs_value data <> None -> r = 0 \/ r = -1) /\
    (r <> 0 -> (android_set env data w).1 = r) /\
    (softconnect_path data = None \/ softconnect data = None ->
       r = 0 -> (android_set env data w).1 = -1) /\
    acts (attempt env (softconnect_path data) (softconnect_disconnect data) ++
          (match android_extra_sysfs_value data with
           | Some _ => attempt env (android_extra_sysfs_path data)
                               (android_extra_sysfs_value data)
           | None => []
           end) ++
          attempt env (android_extra_sysfs_path2 data) (android_extra_sysfs_value2 data) ++
          [SetVendorId (idVendorOverride data)] ++
          attempt env (sysfs_path data) (sysfs_value data) ++
          (if r =? 0 then attempt env (softconnect_path data) (softconnect data) else []))
         w (android_set env data w).2.
Proof.
  unfold android_set.
  rewrite bind_run.
  pose proof (write_to_file_acts env (softconnect_path data) (softconnect_disconnect data) w)
    as A1.
  set (w1 := (write_to_file env (softconnect_path data) (softconnect_disconnect data) w).2)
    in *.
  rewrite bind_run.
  set (o := (match android_extra_sysfs_value data with
             | Some _ => write_to_file env (android_extra_sysfs_path data)
                           (android_extra_sysfs_value data)
             | None => ret 1
             end) w1).
  assert (A2 : acts (match android_extra_sysfs_value data with
                     | Some _ => attempt env (android_extra_sysfs_path data)
                                         (android_extra_sysfs_value data)
                     | None => []
                     end) w1 o.2).
  { subst o. destruct (android_extra_sysfs_value data);
      [apply write_to_file_acts | apply acts_quiet, pre_refl]. }
  assert (Hr : (android_extra_sysfs_value data = None -> o.1 = 1) /\
               (android_extra_sysfs_value data <> None -> o.1 = 0 \/ o.1 = -1)).
  { subst o. destruct (android_extra_sysfs_value data) eqn:E.
    - split; [done|]. intros _. apply write_to_file_zero_or_minus_one.
    - split; [done|]. by intros []. }
  clearbody o. destruct o as [r w2]. cbn [fst snd] in *.
  rewrite bind_run.
  pose proof (write_to_file_acts env (android_extra_sysfs_path2 data)
                (android_extra_sysfs_value2 data) w2) as A3.
  set (w3 := (write_to_file env (android_extra_sysfs_path2 data)
                (android_extra_sysfs_value2 data) w2).2) in *.
  rewrite bind_run.
  assert (A4 : acts [] w3 (call (Android_set_productid (idProduct data)) w3).2).
  { by apply call_quiet. }
  set (w4 := (call (Android_set_productid (idProduct data)) w3).2) in *.
  rewrite bind_run.
  pose proof (set_vendorid_acts (idVendorOverride data) w4) as A5.
  set (w5 := (call (Android_set_vendorid (idVendorOverride data)) w4).2) in *.
  rewrite bind_run.
  pose proof (write_to_file_acts env (sysfs_path data) (sysfs_value data) w5) as A6.
  set (w6 := (write_to_file env (sysfs_path data) (sysfs_value data) w5).2) in *.
  exists r. destruct Hr as [Hr1 Hr2].
  split; [exact Hr1|]. split; [exact Hr2|]. split; [|split].
  - intros Hne. apply Z.eqb_neq in Hne. by rewrite Hne.
  - intros Hsc ->. cbn [Z.eqb].
    destruct Hsc as [-> | ->]; [by destruct (softconnect data) |
                                by destruct (softconnect_path data)].
  - eapply acts_app; [exact A1|].
    eapply acts_app; [exact A2|].
    eapply acts_app; [exact A3|].
    change (acts ([] ++ [SetVendorId (idVendorOverride data)] ++
                  attempt env (sysfs_path data) (sysfs_value data) ++
                  (if r =? 0 then attempt env (softconnect_path data) (softconnect data)
                   else [])) w3
              ((if r =? 0 then write_to_file env (softconnect_path data) (softconnect data)
                else ret r) w6).2).
    eapply acts_app; [exact A4|].
    eapply acts_app; [exact A5|].
    eapply acts_app; [exact A6|].
    destruct (r =? 0); [apply write_to_file_acts | apply acts_quiet, pre_refl].
Qed.

(** X12.  With the android backend the gadget is soft-disconnected before
    anything else is written, and connected again only as the last step;
    in between come the first extra attribute (only when it has a value),
    the second one, the vendor id and the function list, in this order.
    The third and fourth extra attributes of a descriptor are never
    written.  The last step is left out whenever the mode has no first
    extra attribute, and it is taken whenever the routine returns 0. *)
Theorem android_set_actions (env : Env) (data : modedata) (w : World) :
  exists reenable,
    gadget_actions (emitted (android_set env data) w) =
      attempt env (softconnect_path data) (softconnect_disconnect data) ++
      (match android_extra_sysfs_value data with
       | Some _ => attempt env (android_extra_sysfs_path data)
                           (android_extra_sysfs_value data)
       | None => []
       end) ++
      attempt env (android_extra_sysfs_path2 data) (android_extra_sysfs_value2 data) ++
      [SetVendorId (idVendorOverride data)] ++
      attempt env (sysfs_path data) (sysfs_value data) ++
      reenable /\
    (reenable = [] \/ reenable = attempt env (softconnect_path data) (softconnect data)) /\
    (android_extra_sysfs_value data = None -> reenable = []) /\
    ((android_set env data w).1 = 0 ->
     reenable = attempt env (softconnect_path data) (softconnect data)).
Proof.
  destruct (android_set_acts env data w) as (r & Hnone & Hr & Hres & _ & Hacts).
  exists (if r =? 0 then attempt env (softconnect_path data) (softconnect data) else []).
  split; [by apply acts_emitted|]. split; [|split].
  - destruct (r =? 0); auto.
  - intros Hv. by rewrite (Hnone Hv).
  - intros H0. destruct (Z.eqb_spec r 0) as [_|Hne]; [done|].
    specialize (Hres Hne). congruence.
Qed.

(** X13.  A descriptor exactly as [modedata_load] returns it has no soft-connect
    attribute: the loader reads no key into those fields.  For it the
    android set routine attempts no soft-connect write, only the writes of
    the extra attributes, the vendor id and the function list, and it
    returns 1 without a first extra attribute and -1 with one, never 0.
    So with the android backend the activation of such a mode, when it is
    no mass-storage mode and needs no pre-sync, returns that code and ends
    with the failure signal. *)
Theorem loaded_mode_android_set (connman : bool) (filename : string)
    (settingsfile : option GKeyFile) (d : modedata) (env : Env) (w : World)
    (Hload : (modedata_load connman filename settingsfile).1 = Some d) :
  let code := match android_extra_sysfs_value d with Some _ => -1 | None => 1 end in
  softconnect_path d = None /\
  (android_set env d w).1 = code /\
  gadget_actions (emitted (android_set env d) w) =
    (match android_extra_sysfs_value d with
     | Some _ => attempt env (android_extra_sysfs_path d) (android_extra_sysfs_value d)
     | None => []
     end) ++
    attempt env (android_extra_sysfs_path2 d) (android_extra_sysfs_value2 d) ++
    [SetVendorId (idVendorOverride d)] ++
    attempt env (sysfs_path d) (sysfs_value d) /\
  (usbmoded_get_usb_mode_data env = Some d ->
   configfs_in_use env = false -> android_in_use env = true ->
   mass_storage d = 0 -> APP_SYNC env = false \/ appsync d = 0 ->
   (modesetting_set_dynamic_mode env w).1 = code /\
   last (trace (modesetting_set_dynamic_mode env w).2)
   = Some (EvErrorSignal MODE_SETTING_FAILED)).
Proof.
  cbv zeta.
  assert (Hsc : softconnect_path d = None).
  { unfold modedata_load in Hload. destruct settingsfile as [kf|]; [|done].
    destruct (modedata_validate_spec filename (modedata_fields connman kf)) as (_ & _ & Hv).
    by destruct (Hv d Hload) as [-> _]. }
  assert (Hcode : forall w0, (android_set env d w0).1 =
                    match android_extra_sysfs_value d with Some _ => -1 | None => 1 end).
  { intros w0.
    destruct (android_set_acts env d w0) as (r & Hnone & Hr & Hres & Hzero & _).
    destruct (android_extra_sysfs_value d) as [v|] eqn:Ev.
    - destruct (Z.eqb_spec r 0) as [H0|Hne]; [apply Hzero; auto|].
      rewrite (Hres Hne). by destruct Hr as [?|?].
    - rewrite Hres; rewrite (Hnone eq_refl); done. }
  split; [exact Hsc|]. split; [apply Hcode|]. split.
  - destruct (android_set_acts env d w) as (r & _ & _ & _ & _ & Hacts).
    rewrite Hsc in Hacts. cbn [attempt app] in Hacts.
    apply acts_emitted. destruct (r =? 0); by rewrite ?app_nil_r in Hacts.
  - intros Hdata Hconfigfs Handroid Hms Hsync.
    assert (Hback : (backend_set env d w).1 =
                    match android_extra_sysfs_value d with Some _ => -1 | None => 1 end).
    { unfold backend_set. rewrite Hconfigfs, Handroid. apply Hcode. }
    destruct (set_dynamic_mode_tail env d w) as (l & _ & Hr & T). cbv zeta in Hr, T.
    assert (Hrun : modesetting_set_dynamic_mode env w =
                   (do r <- backend_set env d;
                    do net <- restart_network env d;
                    when (nonzero net && nonzero (network d)) (schedule_network_retry d) ;;
                    when (nonzero (nat_ d) || nonzero (dhcp_server d))
                         (call (Network_set_up_dhcpd (mode_name d))) ;;
                    when (nonzero (appsync d) && (r =? 0))
                         (usbmoded_msleep 350 ;;
                          call (Appsync_activate_sync_post (mode_name d))) ;;
                    (match connman_tethering d with
                     | Some service =>
                         when (CONNMAN env) (call (Connman_set_tethering service true))
                     | None => ret tt
                     end) ;;
                    when (nonzero r) (umdbus_send_error_signal MODE_SETTING_FAILED) ;;
                    ret r) w).
    { unfold modesetting_set_dynamic_mode. rewrite Hdata.
      apply nonzero_false in Hms. rewrite Hms.
      assert (Hs : (APP_SYNC env && nonzero (appsync d))%bool = false).
      { destruct Hsync as [-> | H]; [done|]. apply nonzero_false in H. rewrite H.
        apply andb_false_r. }
      rewrite Hs. by rewrite bind_run. }
    rewrite Hrun, T, Hr, Hback. split; [done|].
    rewrite !last_app. by destruct (android_extra_sysfs_value d).
Qed.

Lemma loaded_mode_android_set_witness :
  let d := modedata_fields false mtp_key_file in
  let env := android_env (Some d) None in
  let w := boot_world android_files in
  (modedata_load false "/etc/usb-moded/dyn-modes/mtp.ini" (Some mtp_key_file)).1 = Some d /\
  softconnect_path d = None /\
  (android_set env d w).1 = 1 /\
  gadget_actions (emitted (android_set env d) w) =
    [SetVendorId None; WriteAttempt functions_path "mtp"] /\
  (modesetting_set_dynamic_mode env w).1 = 1 /\
  last (trace (modesetting_set_dynamic_mode env w).2)
  = Some (EvErrorSignal MODE_SETTING_FAILED).
Proof.
  cbv zeta.
  destruct (loaded_mode_android_set false "/etc/usb-moded/dyn-modes/mtp.ini"
              (Some mtp_key_file) (modedata_fields false mtp_key_file)
              (android_env (Some (modedata_fields false mtp_key_file)) None)
              (boot_world android_files) eq_refl) as (H1 & H2 & H3 & H4).
  split; [reflexivity|]. split; [exact H1|]. split; [exact H2|]. split; [exact H3|].
  apply H4; try reflexivity. by right.
Defined.

(* ===================================================================== *)
(** * How often an activation unmounts                                    *)
(* ===================================================================== *)

Lemma not_umount_count (l : list event) :
  forallb not_umount l = true -> count_if is_umount l = 0%nat.
Proof. apply count_if_none. Qed.

Lemma not_umount_log (e : event) : is_log e = true -> not_umount e = true.
Proof. by destruct e. Qed.

Lemma not_umount_system (command : string) :
  String.prefix "umount " command = false -> not_umount (EvSystem command) = true.
Proof. intros H. unfold not_umount, is_umount. by rewrite H. Qed.

Ltac not_umount_side :=
  first [ exact not_umount_log | exact not_umount_system | intros; reflexivity ].

Lemma is_umount_grep (mountpath : string) :
  is_umount (EvSystem (g_strconcat "mount | grep " mountpath)) = false.
Proof. reflexivity. Qed.

Lemma is_umount_umount (mountpath : string) :
  is_umount (EvSystem (g_strconcat "umount " mountpath)) = true.
Proof. by destruct mountpath. Qed.

Ltac count_umounts :=
  unfold count_if; cbn [List.filter];
  rewrite ?is_umount_grep, ?is_umount_umount; cbn [is_umount length ret fst snd].

(** One mount point with [n] retries left: at most [n + 1] unmount
    commands, and every command beyond the first has used up a retry. *)
Lemma umount_mountpoint_attempts (env : Env) (mount mountpath : string) (n : nat) :
  forall w,
    let r := umount_mountpoint env n mount mountpath w in
    exists evs,
      trace r.2 = trace w ++ evs /\
      match r.1 with
      | inl _ => count_if is_umount evs = S n
      | inr (_, left') => (count_if is_umount evs + left' <= S n)%nat
      end.
Proof.
  induction n as [|n IH]; intros w; cbv zeta; cbn [umount_mountpoint];
    rewrite bind_run, usbmoded_system_run; cbv beta; cbn [fst snd];
    (destruct (system_status env (clock w) (g_strconcat "mount | grep " mountpath) =? 0);
     [| eexists [_]; split; [reflexivity | count_umounts; lia] ]);
    rewrite bind_run; cbv beta; rewrite bind_run, usbmoded_system_run; cbv beta;
    cbn [fst snd];
    match goal with
    | |- context [nonzero ?c] => destruct (nonzero c)
    end;
    try (eexists [_; _; _]; split;
         [cbn; by rewrite <- !app_assoc | count_umounts; lia]).
  - repeat (rewrite bind_run; cbv beta). cbn [ret fst snd].
    match goal with
    | |- context [modesetting_report_mass_storage_blocker env mount 2 ?x] =>
        destruct (emits_report_blocker env not_umount) with
          (mountpoint := mount) (attempt := 2) (w := x) as (evs & Ht & Hq);
        try not_umount_side;
        set (w1 := (modesetting_report_mass_storage_blocker env mount 2 x).2) in *
    end.
    eexists ([_; _; _; _] ++ evs ++ [_]). split.
    + cbn. rewrite Ht. cbn. by rewrite <- !app_assoc.
    + rewrite !count_if_app, (not_umount_count evs) by done.
      count_umounts. reflexivity.
  - repeat (rewrite bind_run; cbv beta).
    match goal with
    | |- context [modesetting_report_mass_storage_blocker env mount 1 ?x] =>
        destruct (emits_report_blocker env not_umount) with
          (mountpoint := mount) (attempt := 1) (w := x) as (evs & Ht & Hq);
        try not_umount_side;
        set (w1 := (modesetting_report_mass_storage_blocker env mount 1 x).2) in *
    end.
    destruct (IH w1) as (evs' & Ht' & Hc').
    eexists ([_; _; _; _; _] ++ evs ++ evs'). split.
    + rewrite Ht', Ht. cbn. by rewrite <- !app_assoc.
    + rewrite !count_if_app, (not_umount_count evs) by done.
      assert (H5 : forall a1 a2 b c d, count_if is_umount
                [EvSystem (g_strconcat "mount | grep " mountpath); EvLog LOG_DEBUG a1 a2;
                 EvSystem (g_strconcat "umount " mountpath); EvSleep b; EvLog LOG_ERR c d]
               = 1%nat) by (intros; count_umounts; reflexivity).
      rewrite H5.
      destruct (umount_mountpoint env n mount mountpath w1).1 as [e | [r' left']]; lia.
Qed.

(** The loop over the mount points shares the retries. *)
Lemma umount_all_attempts (env : Env) (mount : string) (mounts : list string) :
  forall (n : nat) (r : Z) (w : World),
    exists evs,
      trace (umount_all env mounts mount n r w).2 = trace w ++ evs /\
      (count_if is_umount evs <= n + length mounts)%nat.
Proof.
  induction mounts as [|m rest IH]; intros n r w; cbn [umount_all].
  - exists []. split; [by rewrite app_nil_r | cbn; lia].
  - rewrite bind_run.
    destruct (umount_mountpoint_attempts env mount (default m (realpath env m)) n w)
      as (e1 & T1 & C1). cbv zeta in *.
    destruct (umount_mountpoint env n mount (default m (realpath env m)) w)
      as [[r' | [r' left']] w1]; cbn [fst snd] in *.
    + exists e1. split; [done|]. cbn [length]. lia.
    + destruct (IH left' r' w1) as (e2 & T2 & C2).
      exists (e1 ++ e2). split; [by rewrite T2, T1, app_assoc|].
      rewrite count_if_app. cbn [length]. lia.
Qed.

Lemma prepare_mass_storage_attempts (env : Env) (data : modedata) (w : World) :
  exists evs,
    trace (prepare_mass_storage env data w).2 = trace w ++ evs /\
    (count_if is_umount evs <=
     3 + match config_find_mounts env with
         | Some mount => length (g_strsplit mount ",")
         | None => 0
         end)%nat.
Proof.
  unfold prepare_mass_storage. rewrite bind_run.
  unfold umdbus_send_state_signal at 1. cbn [emit modify fst snd].
  destruct (config_find_mounts env) as [mount|].
  2: { eexists [_]. split; [reflexivity | cbn; lia]. }
  cbv zeta. rewrite bind_run.
  match goal with
  | |- context [(if ?b then check_luns env ?n else ret 0) ?x] =>
      set (w0 := x);
      assert (Hc : adds not_umount w0 ((if b then check_luns env n else ret 0) w0).2)
        by (destruct b; [| apply pre_refl];
            apply (emits_check_luns env not_umount); not_umount_side);
      set (o := (if b then check_luns env n else ret 0) w0) in *
  end.
  destruct Hc as (e1 & T1 & F1).
  destruct (nonzero o.1).
  - exists (EvStateSignal USB_PRE_UNMOUNT :: e1). split.
    + cbn [ret snd]. rewrite T1. subst w0. cbn. by rewrite <- app_assoc.
    + change (count_if is_umount (?e :: e1)) with (count_if is_umount e1).
      rewrite not_umount_count by done. lia.
  - rewrite bind_run.
    destruct (umount_all_attempts env mount (g_strsplit mount ",") 3 o.1 o.2)
      as (e2 & T2 & C2).
    exists (EvStateSignal USB_PRE_UNMOUNT :: e1 ++ e2). split.
    + destruct (umount_all env (g_strsplit mount ",") mount 3 o.1 o.2) as [[r'|r'] w2];
        cbn [ret fst snd] in *; rewrite T2, T1; subst w0; cbn; by rewrite <- !app_assoc.
    + change (count_if is_umount (?e :: ?l)) with (count_if is_umount l).
      rewrite count_if_app, (not_umount_count e1) by done. lia.
Qed.

(** X14.  An activation of a mass-storage mode runs at most three unmount
    commands more than there are mount points configured: one attempt for
    each mount point and three retries for all of them together.  Mounting
    the storage back runs none. *)
Theorem umount_attempts_bounded (env : Env) (data : modedata) (back : option modedata)
    (w : World) :
  (count_if is_umount (emitted (modesetting_set_mass_storage_mode env data) w) <=
   3 + match config_find_mounts env with
       | Some mount => length (g_strsplit mount ",")
       | None => 0
       end)%nat /\
  count_if is_umount (emitted (modesetting_unset_mass_storage_mode env back) w) = 0%nat.
Proof.
  split.
  - unfold modesetting_set_mass_storage_mode. cbv zeta.
    destruct (prepare_mass_storage_attempts env data w) as (e1 & T1 & C1).
    assert (Hrest : forall o : Z + option string * Z,
              keeps (adds not_umount)
                (match o with
                 | inl r => ret r
                 | inr (mount, r) =>
                     (match mount with
                      | Some mount =>
                          usbmoded_sleep 1 ;;
                          for_each_from 0 (g_strsplit mount ",")
                            (activate_lun env data (config_find_sync env) mount)
                      | None => ret tt
                      end) ;;
                     finish_mass_storage r
                 end)).
    { intros [r | [[mount|] r]]; unfold finish_mass_storage, umdbus_send_state_signal.
      - apply keeps_ret; cls.
      - apply keeps_bind; [cls | | intros _].
        + apply (emits_activate_luns env not_umount); not_umount_side.
        + apply keeps_bind; [cls | | intros _; apply keeps_ret; cls].
          apply keeps_when; [cls|]. eapply keeps_emit; [cls | reflexivity].
      - apply keeps_bind; [cls | apply keeps_ret; cls | intros _].
        apply keeps_bind; [cls | | intros _; apply keeps_ret; cls].
        apply keeps_when; [cls|]. eapply keeps_emit; [cls | reflexivity]. }
    destruct (Hrest (prepare_mass_storage env data w).1 (prepare_mass_storage env data w).2)
      as (e2 & T2 & F2).
    rewrite (emitted_spec _ w (e1 ++ e2)).
    + rewrite count_if_app, (not_umount_count e2) by done. lia.
    + rewrite bind_run. rewrite T2, T1. by rewrite app_assoc.
  - destruct (emits_unset_mass_storage env not_umount) with (data := back) (w := w)
      as (l & T & F); try not_umount_side.
    rewrite (emitted_spec _ w l T). by apply not_umount_count.
Qed.

(* ===================================================================== *)
(** * What the drift sweep warns about                                    *)
(* ===================================================================== *)

Lemma read_trace (p : string) (w : World) :
  exists evs,
    trace (modesetting_read_from_file p 4096 w).2 = trace w ++ evs /\
    (is_Some (live w p) -> evs = []).
Proof.
  unfold live, modesetting_read_from_file.
  destruct (open_rdonly w p) as [e|f].
  - destruct (negb (errno_eqb e ENOENT) && negb (errno_eqb e EACCES))%bool; cbn.
    + eexists [_]. split; [done|]. by intros [? [=]].
    + exists []. by rewrite app_nil_r.
  - destruct (f_read_fails f); cbn.
    + eexists [_]. split; [done|]. by intros [? [=]].
    + exists []. by rewrite app_nil_r.
Qed.

(** One turn of the loop warns exactly when the entry has drifted, and it
    ends the sweep only at an entry that has. *)
Lemma verify_entry_warns (p t : string) (w : World) :
  exists evs,
    trace (verify_entry (p, t) w).2 = trace w ++ evs /\
    existsb is_warning_or_worse evs = drifted t (live w p) /\
    files (verify_entry (p, t) w).2 = files w /\
    ((verify_entry (p, t) w).1 = true -> drifted t (live w p) = true).
Proof.
  unfold verify_entry. cbn [fst snd]. rewrite bind_run.
  destruct (read_result p w) as (Hr & Hf & _). unfold same_files in Hf.
  destruct (read_trace p w) as (e0 & T0 & Hsilent).
  set (o := modesetting_read_from_file p 4096 w) in *. rewrite Hr.
  assert (Htrack : forall c w0,
            trace (modesetting_track_value (Some p) c w0).2 = trace w0 /\
            files (modesetting_track_value (Some p) c w0).2 = files w0).
  { intros c w0. unfold modesetting_track_value. by destruct (tracked_values w0), c. }
  destruct (live w p) as [c|] eqn:El.
  - rewrite (Hsilent ltac:(eauto)), app_nil_r in T0.
    cbn [g_strcmp0_eq drifted]. unfold g_ascii_strcasecmp_eq.
    destruct (str_eqb t c) eqn:Etc; cbn [negb].
    + exists []. apply bool_decide_eq_true in Etc. subst c.
      rewrite str_eqb_refl. cbn. by rewrite app_nil_r.
    + rewrite !bind_run. cbn [gets ret fst snd].
      rewrite bool_decide_eq_true_2 by eauto. rewrite andb_false_r.
      destruct (str_eqb (str_tolower t) (str_tolower c));
        unfold log_debug, log_warning; cbn [emit modify fst snd negb];
        eexists [_]; (split; [|split; [|split]]).
      all: try (rewrite (proj1 (Htrack _ _)); cbn; by rewrite T0).
      all: try (rewrite (proj2 (Htrack _ _)); cbn; done).
      all: try done.
  - cbn [g_strcmp0_eq negb drifted]. rewrite !bind_run. cbn [gets ret fst snd].
    unfold log_warning. cbn [emit modify fst snd].
    eexists (e0 ++ [_]). split; [|split; [|split]].
    + rewrite (proj1 (Htrack _ _)). cbn. by rewrite T0, app_assoc.
    + rewrite existsb_app. cbn. apply orb_true_r.
    + rewrite (proj2 (Htrack _ _)). cbn. done.
    + done.
Qed.

Lemma verify_loop_warns (l : list (string * string)) :
  forall w,
    exists evs,
      trace (verify_pairs l w).2 = trace w ++ evs /\
      existsb is_warning_or_worse evs = existsb (fun kv => drifted kv.2 (live w kv.1)) l /\
      files (verify_pairs l w).2 = files w.
Proof.
  induction l as [|[p t] l IH]; intros w.
  - exists []. cbn. by rewrite app_nil_r.
  - cbn [verify_pairs]. rewrite bind_run.
    destruct (verify_entry_warns p t w) as (e1 & T1 & W1 & F1 & R1).
    destruct ((verify_entry (p, t) w).1) eqn:Erem.
    + exists e1. cbn [ret fst snd existsb]. split; [done|]. split; [|done].
      by rewrite W1, (R1 eq_refl).
    + destruct (IH (verify_entry (p, t) w).2) as (e2 & T2 & W2 & F2).
      exists (e1 ++ e2). split; [|split].
      * by rewrite T2, T1, app_assoc.
      * rewrite existsb_app, W1, W2. cbn [existsb fst snd]. f_equal.
        clear - F1. induction l as [|[q u] l IHl]; [done|]. cbn [existsb fst snd].
        by rewrite IHl, (live_same_files w _ q F1).
      * by rewrite F2, F1.
Qed.

(** X15.  The sweep logs a warning exactly when some tracked entry has drifted:
    its file can no longer be read, or holds a text that differs from the
    expected one by more than the case of letters.  A difference in case
    only, as between the hexadecimal digits of a configuration file and
    those the kernel reports, is absorbed without a warning, and so is
    every path that is not tracked. *)
Theorem verify_values_warns_on_real_drift (w : World) :
  existsb is_warning_or_worse (emitted modesetting_verify_values w) = true <->
  exists p t, tracked w p = Some t /\ drifted t (live w p) = true.
Proof.
  unfold emitted, modesetting_verify_values, tracked. rewrite bind_run. cbn [gets fst snd].
  destruct (tracked_values w) as [tv|].
  2: { cbn. rewrite drop_all. split; [done | by intros (p & t & [=] & _)]. }
  destruct (verify_loop_warns (map_to_list tv) w) as (evs & T & W & _).
  rewrite T, drop_app_length, W. rewrite existsb_exists. split.
  - intros ([p t] & Hin & Hd). exists p, t. split; [|done].
    apply elem_of_map_to_list. by apply list_elem_of_In.
  - intros (p & t & Hp & Hd). exists (p, t). split; [|done].
    apply list_elem_of_In. by apply elem_of_map_to_list.
Qed.

(* ===================================================================== *)
(** * The life of the table of tracked values                             *)
(* ===================================================================== *)

#[global] Instance same_allocation_frame : Tolerates same_allocation any_event.
Proof.
  split; [split|..]; unfold same_allocation.
  - done.
  - intros a b c H1 H2. by rewrite H2.
  - done.
  - done.
Qed.

Lemma keeps_same_allocation {A} (m : M A) :
  (forall w, tracked_values (m w).2 = tracked_values w) -> keeps same_allocation m.
Proof. intros H w. unfold same_allocation. by rewrite H. Qed.

Lemma track_value_same_allocation (path text : option string) :
  keeps same_allocation (modesetting_track_value path text).
Proof.
  intros w. unfold same_allocation, modesetting_track_value.
  destruct (tracked_values w) as [tv|] eqn:E, path, text; cbn; rewrite ?E; split; eauto.
Qed.

Section TableKeeps.

Variable env : Env.

Lemma write_to_file_same_allocation (path text : option string) :
  keeps same_allocation (write_to_file env path text).
Proof.
  unfold write_to_file, modesetting_write_to_file_real.
  destruct text, path; keeps_go; try apply track_value_same_allocation.
  apply (keeps_write_all same_allocation any_event); [done|].
  intros g. by apply keeps_same_allocation.
Qed.

Lemma schedule_network_retry_same_allocation (data : modedata) :
  keeps same_allocation (schedule_network_retry data).
Proof.
  apply keeps_same_allocation. intros w.
  unfold schedule_network_retry, log_debug, bind, emit, modify, gets,
    g_source_remove, g_timeout_add_seconds.
  cbn. by destruct (N.eqb _ _).
Qed.

Lemma cancel_network_retry_same_allocation : keeps same_allocation cancel_network_retry.
Proof.
  apply keeps_same_allocation. intros w.
  unfold cancel_network_retry, bind, gets, g_source_remove, modify, emit. cbn.
  by destruct (N.eqb _ _).
Qed.

Lemma set_dynamic_mode_same_allocation :
  keeps same_allocation (modesetting_set_dynamic_mode env).
Proof.
  unfold modesetting_set_dynamic_mode, appsync_activate_sync, call, log_debug,
    usbmoded_msleep, umdbus_send_error_signal.
  keeps_with ltac:(first
    [ apply schedule_network_retry_same_allocation
    | eapply keeps_set_mass_storage;
        first [cls | done | apply write_to_file_same_allocation]
    | eapply keeps_backend_set; first [cls | done | apply write_to_file_same_allocation]
    | eapply keeps_restart_network;
        first [cls | done | apply write_to_file_same_allocation] ]).
Qed.

Lemma unset_dynamic_mode_same_allocation :
  keeps same_allocation (modesetting_unset_dynamic_mode env).
Proof.
  unfold modesetting_unset_dynamic_mode, network_down, call.
  keeps_with ltac:(first
    [ apply cancel_network_retry_same_allocation
    | eapply keeps_unset_mass_storage;
        first [cls | done | apply write_to_file_same_allocation]
    | eapply keeps_backend_unset;
        first [cls | done | apply write_to_file_same_allocation] ]).
Qed.

Lemma cleanup_same_allocation (module : option string) :
  keeps same_allocation (modesetting_cleanup env module).
Proof.
  unfold modesetting_cleanup, call, log_debug, log_warning.
  keeps_with ltac:(first
    [ apply unset_dynamic_mode_same_allocation
    | eapply keeps_unset_mass_storage;
        first [cls | done | apply write_to_file_same_allocation] ]).
Qed.

Lemma dispatch_timeout_same_allocation (id : N) :
  keeps same_allocation (dispatch_timeout env id).
Proof.
  apply keeps_same_allocation. intros w.
  unfold dispatch_timeout, modesetting_network_retry, network_up, call, bind, gets,
    modify, emit, tick.
  destruct (List.find _ _); done.
Qed.

End TableKeeps.

Lemma verify_values_same_allocation : keeps same_allocation modesetting_verify_values.
Proof.
  unfold modesetting_verify_values.
  apply keeps_bind; [cls | apply keeps_gets; cls | intros [m|]; [|apply keeps_ret; cls]].
  apply keeps_verify_pairs; [cls|]. intros kv.
  unfold verify_entry, log_debug, log_warning.
  keeps_with ltac:(apply track_value_same_allocation).
Qed.

Lemma run_calls_same_allocation (cs : list engine_call) :
  forall w, forallb keeps_table cs = true -> same_allocation w (run_calls cs w).
Proof.
  induction cs as [|c cs IH]; intros w Hcs; [done|].
  cbn [forallb] in Hcs. apply andb_true_iff in Hcs as [Hc Hcs].
  cbn [run_calls foldl]. eapply pre_trans; [|apply IH, Hcs].
  destruct c as [env|env|env module|env id| | |]; cbn [run_call]; try done.
  - apply set_dynamic_mode_same_allocation.
  - apply unset_dynamic_mode_same_allocation.
  - apply cleanup_same_allocation.
  - apply dispatch_timeout_same_allocation.
  - apply verify_values_same_allocation.
Qed.

(** X16.  The table of tracked values is allocated by [modesetting_init] and
    released by [modesetting_quit] and by nothing else: activations,
    deactivations, clean-ups, sweeps and timer dispatches leave it
    allocated if it is and unallocated if it is not.  So before the set-up
    and after the tear-down no write is ever tracked.  Setting up twice
    keeps the entries; tearing down drops them all. *)
Theorem tracker_lifecycle (cs : list engine_call) (w : World) :
  (forallb keeps_table cs = true ->
   (is_Some (tracked_values (run_calls cs w)) <-> is_Some (tracked_values w)) /\
   (tracked_values w = None -> forall p, tracked (run_calls cs w) p = None)) /\
  (tracked_values w = None -> tracked_values (modesetting_init w).2 = Some ∅) /\
  (is_Some (tracked_values w) -> modesetting_init w = (tt, w)) /\
  tracked_values (modesetting_quit w).2 = None /\
  files (modesetting_quit w).2 = files w.
Proof.
  split; [|split; [|split; [|split]]].
  - intros Hcs. pose proof (run_calls_same_allocation cs w Hcs) as H. split; [exact H|].
    intros Hnone p. unfold tracked.
    destruct (tracked_values (run_calls cs w)) as [tv|] eqn:E; [|done].
    unfold same_allocation in H. rewrite E, Hnone in H.
    destruct (proj1 H) as [? [=]]. eauto.
  - intros H. unfold modesetting_init. rewrite bind_run. cbn [gets fst snd]. by rewrite H.
  - intros [tv H]. unfold modesetting_init. rewrite bind_run. cbn [gets fst snd].
    by rewrite H.
  - unfold modesetting_quit. rewrite bind_run. cbn [gets fst snd].
    by destruct (tracked_values w) eqn:E.
  - unfold modesetting_quit. rewrite bind_run. cbn [gets fst snd].
    by destruct (tracked_values w).
Qed.

(* ===================================================================== *)
(** * When the network retry is scheduled                                 *)
(* ===================================================================== *)

(** Lines 574-585: what [network] holds afterwards. *)
Lemma restart_network_result (env : Env) (data : modedata) (w : World) :
  (network data = 0 -> (restart_network env data w).1 = 1) /\
  (network data <> 0 -> DEBIAN env = true -> (restart_network env data w).1 = 1) /\
  (network data <> 0 -> DEBIAN env = false ->
   exists t, (restart_network env data w).1 = network_up_status env t).
Proof.
  unfold restart_network. split; [|split].
  - intros H%nonzero_false. by rewrite H.
  - intros H%nonzero_true HD. rewrite H, HD. by rewrite bind_run.
  - intros H%nonzero_true HD. rewrite H, HD. rewrite bind_run.
    unfold network_up. rewrite !bind_run. cbn [ret fst snd tick]. eauto.
Qed.

(** Lines 599-616: what follows the scheduling of the retry. *)
Lemma set_dynamic_end_keeps (R : World -> World -> Prop) `{!Tolerates R any_event}
    (env : Env) (data : modedata) (r : Z) :
  keeps R
    (when (nonzero (nat_ data) || nonzero (dhcp_server data))
          (call (Network_set_up_dhcpd (mode_name data))) ;;
     when (nonzero (appsync data) && (r =? 0))
          (usbmoded_msleep 350 ;;
           call (Appsync_activate_sync_post (mode_name data))) ;;
     (match connman_tethering data with
      | Some service => when (CONNMAN env) (call (Connman_set_tethering service true))
      | None => ret tt
      end) ;;
     when (nonzero r) (umdbus_send_error_signal MODE_SETTING_FAILED) ;;
     ret r).
Proof. unfold call, usbmoded_msleep, umdbus_send_error_signal. keeps_go. Qed.

(** The last act of the scheduling is the registration of a timeout of 3
    seconds, whose id becomes the handle. *)
Lemma schedule_network_retry_trace (data : modedata) (w : World) :
  exists l,
    trace (schedule_network_retry data w).2 =
      trace w ++ l ++ [EvTimeoutAdd (delayed_network (schedule_network_retry data w).2) 3].
Proof.
  unfold schedule_network_retry, log_debug, bind, emit, modify, gets,
    g_source_remove, g_timeout_add_seconds.
  cbn -[filter]. destruct (N.eqb (delayed_network w) 0); cbn -[filter].
  - eexists [_]. by rewrite <- !app_assoc.
  - eexists [_; _]. by rewrite <- !app_assoc.
Qed.

(** X17.  For a mode that is not a mass-storage mode and needs no pre-sync: an
    activation leaves a retry pending for the mode, and only that one,
    when the mode has a network and bringing it up fails; in a DEBIAN
    build, where the outcome of ifup is not looked at, it does so for
    every mode with a network.  The retry is a timeout of 3 seconds.  When
    the mode has no network, or the network comes up, the activation
    leaves the pending retry, if any, as it is. *)
Theorem network_retry_scheduled (env : Env) (data : modedata) (w : World)
    (Hdata : usbmoded_get_usb_mode_data env = Some data)
    (Hms : mass_storage data = 0)
    (Hsync : APP_SYNC env = false \/ appsync data = 0)
    (Hinv : timer_inv w) :
  let w' := (modesetting_set_dynamic_mode env w).2 in
  (network data <> 0 ->
   DEBIAN env = true \/ (forall t, network_up_status env t <> 0) ->
   delayed_network w' <> 0%N /\ sources w' = [(delayed_network w', data)] /\
   EvTimeoutAdd (delayed_network w') 3 ∈ emitted (modesetting_set_dynamic_mode env) w) /\
  (network data = 0 \/ (DEBIAN env = false /\ forall t, network_up_status env t = 0) ->
   sources w' = sources w /\ delayed_network w' = delayed_network w).
Proof.
  cbv zeta. unfold emitted, modesetting_set_dynamic_mode.
  apply nonzero_false in Hms. rewrite Hdata, Hms.
  assert (Hs : (APP_SYNC env && nonzero (appsync data))%bool = false).
  { destruct Hsync as [-> | H]; [done|]. apply nonzero_false in H. rewrite H.
    apply andb_false_r. }
  rewrite Hs. rewrite bind_run. cbn [ret fst snd]. rewrite bind_run.
  assert (T1 : same_timers w (backend_set env data w).2).
  { eapply keeps_backend_set; first [cls | done | apply write_to_file_same_timers]. }
  destruct (emits_backend_set env any_event) with (data := data) (w := w)
    as (l1 & A1 & _); try (intros; reflexivity).
  set (o1 := backend_set env data w) in *.
  rewrite bind_run.
  assert (T2 : same_timers o1.2 (restart_network env data o1.2).2).
  { eapply keeps_restart_network; first [cls | done | apply write_to_file_same_timers]. }
  destruct (emits_restart_network env any_event) with (data := data) (w := o1.2)
    as (l2 & A2 & _); try (intros; reflexivity).
  destruct (restart_network_result env data o1.2) as (R0 & RD & RN).
  set (o2 := restart_network env data o1.2) in *.
  assert (Hinv2 : timer_inv o2.2).
  { eapply same_timers_timer_inv; [exact T2|]. eapply same_timers_timer_inv; eauto. }
  rewrite bind_run.
  set (o3 := when (nonzero o2.1 && nonzero (network data)) (schedule_network_retry data) o2.2).
  pose proof (set_dynamic_end_keeps same_timers env data o1.1 o3.2) as [T4s T4d].
  pose proof (set_dynamic_end_keeps (adds any_event) env data o1.1 o3.2) as (l4 & A4 & _).
  split.
  - intros Hnet Hfail.
    assert (Hcond : (nonzero o2.1 && nonzero (network data))%bool = true).
    { apply andb_true_iff. split; apply nonzero_true; [|done].
      destruct Hfail as [HD | Hup]; [by rewrite (RD Hnet HD)|].
      destruct (DEBIAN env) eqn:HD; [by rewrite (RD Hnet eq_refl)|].
      destruct (RN Hnet eq_refl) as [t ->]. apply Hup. }
    subst o3. rewrite Hcond in *. cbn [when] in *.
    destruct (schedule_network_retry_spec data o2.2 Hinv2) as [Hne Hsrc].
    rewrite T4s, T4d. split; [done|]. split; [done|].
    destruct (schedule_network_retry_trace data o2.2) as (l3 & A3).
    rewrite A4, A3, A2, A1, <- !app_assoc, drop_app_length.
    rewrite !elem_of_app. do 3 right. left. by apply list_elem_of_singleton.
  - intros Hok.
    assert (Hcond : (nonzero o2.1 && nonzero (network data))%bool = false).
    { destruct Hok as [H0 | [HD Hup]].
      - apply nonzero_false in H0. rewrite H0. apply andb_false_r.
      - destruct (Z.eq_dec (network data) 0) as [H0|Hnet].
        + apply nonzero_false in H0. rewrite H0. apply andb_false_r.
        + destruct (RN Hnet HD) as [t Ht]. rewrite Ht.
          rewrite (proj2 (nonzero_false _) (Hup t)). done. }
    subst o3. rewrite Hcond in *. cbn [when ret snd] in *.
    rewrite T4s, T4d. destruct T1 as [S1 D1], T2 as [S2 D2]. split; congruence.
Qed.

Lemma network_retry_scheduled_witness :
  let w' := (modesetting_set_dynamic_mode rndis_env (boot_world android_files)).2 in
  delayed_network w' = 1%N /\
  sources w' = [(1%N, rndis_mode)] /\
  EvTimeoutAdd 1 3 ∈ emitted (modesetting_set_dynamic_mode rndis_env)
                             (boot_world android_files).
Proof.
  cbv zeta.
  destruct (network_retry_scheduled rndis_env rndis_mode (boot_world android_files)
              eq_refl eq_refl (or_intror eq_refl) eq_refl) as [H _].
  destruct H as (_ & H2 & H3); [done | right; intros t; done |].
  split; [reflexivity|]. split; [exact H2 | exact H3].
Defined.


(* ===================================================================== *)
(** * Writing, then reading back                                          *)
(* ===================================================================== *)

(** X18.  Writing, then reading back.  The file is opened without
    truncation and what it holds after the write is the kernel's answer.
    When the attribute can be read and written, the text is not the
    clearing of the function list, and the kernel takes it in one write,
    the result is 0, a read yields the kernel's content, stripped and cut
    at 4096 bytes, and the tracker holds the text as it was given.  So the
    next sweep stays silent about the path exactly when the text equals
    that read-back up to the case of letters. *)
Theorem write_read_round_trip (env : Env) (path text : string) (w : World)
    (f : file) (tv : gmap string string) (more : nat) (data : string)
    (Hfile : files w !! path = Some f)
    (Hrd : f_open_rd f = None) (Hread : f_read_fails f = false)
    (Hwr : f_open_wr f = None)
    (Hkernel : f_write f 0 text (f_data f) = Written more data)
    (Hwhole : (String.length text <= S more)%nat)
    (Htv : tracked_values w = Some tv)
    (Hclear : clears env path text = false) (Hne : text <> EmptyString) :
  let r := write_to_file env (Some path) (Some text) w in
  r.1 = 0 /\
  f_data <$> files r.2 !! path = Some data /\
  live r.2 path = Some (modesetting_strip (String.substring 0 4096 data)) /\
  tracked r.2 path = Some text /\
  (existsb is_warning_or_worse (emitted (verify_entry (path, text)) r.2) = false <->
   g_ascii_strcasecmp_eq text (modesetting_strip (String.substring 0 4096 data)) = true).
Proof.
  cbv zeta.
  assert (Hw : written_text env path text = text).
  { unfold written_text. unfold clears in Hclear. by rewrite Hclear. }
  assert (Hlive0 : is_Some (live w path)).
  { unfold live, modesetting_read_from_file, open_rdonly. rewrite Hfile, Hrd, Hread. eauto. }
  destruct (write_to_file_unfold env path text w) as (w3 & Hf & _ & _ & Ht & Hrun).
  unfold open_wronly in Hrun. rewrite Hfile, Hwr in Hrun. rewrite Hw in Hrun.
  rewrite (write_all_whole path text _ f w3 more data Hne Hkernel Hwhole) in Hrun.
  rewrite Hrun. cbn [fst snd].
  assert (Hlive : live (put_file path (with_data data f) w3) path
                  = Some (modesetting_strip (String.substring 0 4096 data))).
  { unfold live, modesetting_read_from_file, open_rdonly, put_file. cbn [files set_files].
    rewrite lookup_insert_eq. cbn [with_data f_open_rd f_read_fails f_data].
    rewrite Hrd. cbn [with_data f_read_fails f_data]. by rewrite Hread. }
  assert (Htr : tracked (put_file path (with_data data f) w3) path = Some text).
  { unfold tracked, put_file. cbn [tracked_values set_files]. rewrite Ht, Htv.
    destruct Hlive0 as [c ->]. rewrite lookup_insert_eq.
    unfold tracked_text. by rewrite Hclear, Hw. }
  split; [done|]. split.
  { unfold put_file. cbn [files set_files]. by rewrite lookup_insert_eq. }
  split; [exact Hlive|]. split; [exact Htr|].
  destruct (verify_entry_warns path text (put_file path (with_data data f) w3))
    as (evs & T & W & _).
  rewrite (emitted_spec _ _ evs T), W, Hlive. cbn [drifted].
  by destruct (g_ascii_strcasecmp_eq _ _).
Qed.

Lemma write_read_round_trip_witness :
  let r := write_to_file (android_env None None) (Some functions_path) (Some "mtp")
             (boot_world android_files) in
  r.1 = 0 /\
  f_data <$> files r.2 !! functions_path = Some "mtp" /\
  live r.2 functions_path = Some "mtp" /\
  tracked r.2 functions_path = Some "mtp" /\
  existsb is_warning_or_worse (emitted (verify_entry (functions_path, "mtp")) r.2) = false.
Proof.
  cbv zeta.
  destruct (write_read_round_trip (android_env None None) functions_path "mtp"
              (boot_world android_files) (plain_file "none") ∅ 3 "mtp"
              eq_refl eq_refl eq_refl eq_refl eq_refl)
    as (H1 & H2 & H3 & H4 & H5); [simpl; lia | reflexivity | reflexivity | discriminate |].
  split; [exact H1|]. split; [exact H2|]. split; [exact H3|]. split; [exact H4|].
  apply H5. reflexivity.
Defined.

(** On a regular file the bytes beyond the text survive the write, and the
    next sweep reports the path. *)
Example write_read_in_place_drifts :
  let w := boot_world (<["/tmp/f" := regular_file "rndis,adb"]> ∅) in
  let r := write_to_file (android_env None None) (Some "/tmp/f") (Some "mtp") w in
  r.1 = 0 /\
  live r.2 "/tmp/f" = Some "mtpis,adb" /\
  tracked r.2 "/tmp/f" = Some "mtp" /\
  existsb is_warning_or_worse (emitted (verify_entry ("/tmp/f", "mtp")) r.2) = true.
Proof. vm_compute. by repeat split. Qed.

(* ===================================================================== *)
(** * The android backend's unset routine: the attributes                 *)
(* ===================================================================== *)





